(** * Channel downloader: message processing pipeline

    A shallow embedding of [scripts/download-channel.js] (class
    [DownloadChannel]) and [modules/messages.js], and the properties of the
    pipeline proved on it.

    JavaScript values are modelled as follows.
    - A number that the code only counts with or compares (counters,
      timestamps in milliseconds, message and channel identifiers) is a [Z].
    - A string is a [string] holding its UTF-8 bytes.
    - A field that may be [undefined]/[null] is an [option]; truthiness is
      written out ([Js.truthy_str], [Js.truthy_num]).
    - The download policy is a plain object: its own properties are the
      entries of a [gmap], and a key that is not an own property is looked
      up in [Object.prototype] ([JsValue], [policy_lookup]).
    - [async] functions are functions in the monad [M]: the object's fields
      and the outside world are threaded explicitly, a [throw] (a rejected
      promise) is the [Throw] result, and every call that leaves the process
      is recorded in a trace of events.
    - The answers of the transport, the file system, the clock and the user
      come from an [Oracle]; a property stated for every oracle holds for
      every behaviour of the outside world.
    - Functions of [utils/helper], [utils/file-helper] and Node that the two
      modules call are parameters ([Helpers]) or, for the checkpoint store
      and [checkFileExist], modelled from the spec. *)

From Stdlib Require Import ZArith String Ascii DecimalString.
From stdpp Require Import gmap strings list.
From Equations Require Import Equations.

Local Open Scope string_scope.
Local Open Scope Z_scope.

(* ===================================================================== *)
(** * JavaScript strings *)
(* ===================================================================== *)

Module Js.

Definition nl : string := String "010"%char EmptyString.

(** [hay.includes(needle)] *)
Fixpoint includes (needle hay : string) : bool :=
  String.prefix needle hay ||
  match hay with
  | EmptyString => false
  | String _ rest => includes needle rest
  end.

(** the character class [\d] *)
Definition is_digit (c : ascii) : bool :=
  let n := nat_of_ascii c in (48 <=? n)%nat && (n <=? 57)%nat.

(** the longest run of digits at the head of the string *)
Fixpoint take_digits (s : string) : string :=
  match s with
  | EmptyString => EmptyString
  | String c rest => if is_digit c then String c (take_digits rest) else EmptyString
  end.

(** some character of the string is a decimal digit *)
Fixpoint has_digit (s : string) : bool :=
  match s with
  | EmptyString => false
  | String c rest => is_digit c || has_digit rest
  end.

(** [s.match(/\d+/)?.[0]]: the leftmost longest run of decimal digits,
    [None] when the regular expression does not match. *)
Fixpoint match_digits (s : string) : option string :=
  match s with
  | EmptyString => None
  | String c rest => if is_digit c then Some (take_digits s) else match_digits rest
  end.

Definition digit_value (c : ascii) : Z := Z.of_nat (nat_of_ascii c) - 48.

Fixpoint parseInt_from (acc : Z) (s : string) : Z :=
  match s with
  | EmptyString => acc
  | String c rest => if is_digit c then parseInt_from (10 * acc + digit_value c) rest else acc
  end.

(** [parseInt(s)] on a string that starts with a decimal digit (the only
    strings the code passes to it): the value of the leading digits, as an
    integer (a JavaScript number holds it exactly below 2^53). *)
Definition parseInt (s : string) : Z := parseInt_from 0 s.

(** [`${n}`] for a non-negative integer *)
Definition of_nat (n : nat) : string := NilZero.string_of_uint (Nat.to_uint n).

(** [`${z}`] for an integer *)
Definition of_Z (z : Z) : string := NilZero.string_of_int (Z.to_int z).

(** the character that delimits a string literal *)
Definition dq : string := String "034"%char EmptyString.

(** The names that every object inherits from [Object.prototype] (Node 18):
    [obj[key]] on a plain object that has no own property [key] is defined
    for exactly these keys, and is then a function (for [__proto__], the
    prototype object). *)
Definition Object_prototype_keys : list string :=
  ["constructor"; "__defineGetter__"; "__defineSetter__"; "hasOwnProperty";
   "__lookupGetter__"; "__lookupSetter__"; "isPrototypeOf"; "propertyIsEnumerable";
   "toString"; "valueOf"; "__proto__"; "toLocaleString"].

(** truthiness of a number *)
Definition truthy_num (z : Z) : bool := negb (z =? 0).

(** [`${x}`] for a field that holds a string or is undefined *)
Definition tpl (x : option string) : string :=
  match x with Some s => s | None => "undefined" end.

(** truthiness of a value that is a string or undefined *)
Definition truthy_str (x : option string) : bool :=
  match x with Some (String _ _) => true | _ => false end.

(** [x || d] for such a value and a string default *)
Definition or_str (x : option string) (d : string) : string :=
  match x with Some (String c r) => String c r | _ => d end.

(** [xs.join(sep)] *)
Fixpoint join (sep : string) (xs : list string) : string :=
  match xs with
  | [] => ""
  | [x] => x
  | x :: rest => x +:+ sep +:+ join sep rest
  end.

(** [s.replace(".", "")]: the first dot is removed *)
Fixpoint remove_first_dot (s : string) : string :=
  match s with
  | EmptyString => EmptyString
  | String c rest => if Ascii.eqb c "."%char then rest else String c (remove_first_dot rest)
  end.

End Js.

(* ===================================================================== *)
(** * Data model *)
(* ===================================================================== *)

(** An error object; only its [message] is ever inspected. *)
Record Error := mkError { err_message : string }.

(** A formatting entity of a message text, carried verbatim. *)
Record Entity := mkEntity { ent_kind : string; ent_offset : Z; ent_length : Z }.

(** A reference to a file held by the remote side (photo, video, ...). *)
Definition FileRef := string.

Record Webpage := mkWebpage {
  wp_url : option string;
  wp_title : option string;
  wp_description : option string;
  wp_photo : option FileRef }.

Record Answer := mkAnswer { ans_text : option string }.

Record Poll := mkPoll { poll_question : option string; poll_answers : list Answer }.

(** The coordinates are kept as the text that [`${geo.lat}`] renders. *)
Record Geo := mkGeo { geo_lat : string; geo_long : string }.

Record Contact := mkContact {
  ct_firstName : option string;
  ct_lastName : option string;
  ct_phoneNumber : option string }.

Record Venue := mkVenue { vn_title : option string; vn_address : option string }.

Record Document := mkDocument {
  doc_attributes : option (list string);
  doc_mimeType : option string }.

(** [message.media] *)
Record Media := mkMedia {
  md_webpage : option Webpage;
  md_poll : option Poll;
  md_geo : option Geo;
  md_contact : option Contact;
  md_venue : option Venue;
  md_photo : option FileRef;
  md_document : option Document;
  md_video : option FileRef;
  md_audio : option FileRef;
  md_voice : option FileRef;
  md_videoNote : bool }.

(** A message as the transport returns it.  The fields [m_document] to
    [m_webpage] are the top-level fields that [hasContent] tests for
    truthiness only. *)
Record Message := mkMessage {
  m_id : Z;
  m_message : option string;
  m_entities : option (list Entity);
  m_media : option Media;
  m_sticker : option FileRef;
  m_peerId : Z;
  m_document : bool;
  m_photo : bool;
  m_video : bool;
  m_audio : bool;
  m_voice : bool;
  m_poll : bool;
  m_geo : bool;
  m_contact : bool;
  m_venue : bool;
  m_webpage : bool }.

(** What [uploadOptions.file] can hold. *)
Inductive FileArg :=
| LocalFile (path : string)
| PhotoRef (r : FileRef)
| DocumentRef (d : Document)
| VideoRef (r : FileRef)
| AudioRef (r : FileRef)
| VoiceRef (r : FileRef)
| StickerRef (r : FileRef).

(** [uploadOptions].  The constant entries ([parseMode: null],
    [silent: true], [workers: 16], [chunkSize], [progressCallback]) are the
    same in every send and are left out; [uo_file = None] is an object
    without the [file] key. *)
Record UploadOptions := mkUploadOptions {
  uo_message : string;
  uo_entities : list Entity;
  uo_file : option FileArg;
  uo_supportsStreaming : bool;
  uo_attributes : option (list string);
  uo_mimeType : option string;
  uo_videoNote : option bool;
  uo_voiceNote : bool;
  uo_sticker : bool }.

(** Which branch of [downloadMessageMedia] asks the transport for bytes. *)
Inductive TransferBranch := MediaBranch | StickerBranch.

(** The stored selection of [utils/file-helper]: the checkpoint. *)
Record Selection := mkSelection {
  sel_channelId : option Z;
  sel_messageOffsetId : option Z }.

(** Calls that leave the process, in the order they are made. *)
Inductive Event :=
| EvWait (ms : Z)
| EvGetMessages (channelId limit offsetId : Z)
| EvGetDetail (channelId : Z) (ids : list Z)
| EvDownloadMedia (id : Z) (outputFile : string) (branch : TransferBranch)
| EvForward (target id peer : Z)
| EvSend (target : Z) (options : UploadOptions)
| EvWriteFile (path : string)
| EvUnlink (path : string)
| EvInvoke (id : Z) (index total : nat)
| EvAwaitBatch (i n : nat)
| EvRecord (ids : list Z)
| EvProgress (currentBatch : nat)
| EvMkdir (path : string)
| EvGetAllDialogs
| EvSelectInput (choices : list Z)
| EvBooleanInput.

(** The values that [this.downloadableFiles?.[key]] and [shouldProcess] can
    take: [undefined], a boolean, or the member [key] that the policy object
    inherits from [Object.prototype], which is truthy. *)
Inductive JsValue :=
| JsUndefined
| JsBool (b : bool)
| JsInherited (key : string).

(** The object's fields, as the constructor declares them. *)
Record DownloadChannel := mkDownloadChannel {
  outputFolder : option string;
  uploadMode : bool;
  targetChannelId : option Z;
  downloadableFiles : option (gmap string bool);
  requestCount : Z;
  lastRequestTime : Z;
  totalDownloaded : Z;
  totalUploaded : Z;
  totalMessages : Z;
  totalProcessedMessages : Z;
  skippedFiles : Z }.

Definition new_DownloadChannel : DownloadChannel :=
  mkDownloadChannel None false None None 0 0 0 0 0 0 0.

(** The world outside the object: the number of outside calls made so far
    (it indexes the oracle), the paths that exist on disk, the checkpoint
    store and the trace. *)
Record World := mkWorld {
  tick : nat;
  files : gset string;
  lastSelection : Selection;
  trace : list Event }.

Record Sys := mkSys { self : DownloadChannel; world : World }.

(** The answers of the outside world: the [n]-th outside call of the run
    gets the answer at index [n]. Every behaviour of the transport, the
    file system, the clock and the user is one such oracle. *)
Class Oracle := mkOracle {
  now_at : nat -> Z;
  client_getMessages_at : nat -> Error + list Message;
  client_downloadMedia_at : nat -> option Error;
  client_forwardMessages_at : nat -> Error + bool;
  client_sendMessage_at : nat -> Error + bool;
  writeFileSync_at : nat -> option Error;
  unlinkSync_at : nat -> option Error;
  selectInput_at : nat -> Error + Z;
  booleanInput_at : nat -> Error + bool;
  mkdirSync_at : nat -> option Error;
  appendToJSONArrayFile_at : nat -> option Error;
  getAllDialogs_at : nat -> Error + list Z }.

(** Functions of [utils/helper], of Node's [path] and of [String.prototype]
    that the pipeline calls and that are not part of the two modules. *)
Class Helpers := mkHelpers {
  getMediaType : Message -> string;
  getMediaPath : Message -> option string -> string;
  path_extname : string -> string;
  path_dirname : string -> string;
  path_join : string -> string -> string;
  toLowerCase : string -> string;
  trim : string -> string;
  export_folder : Z -> string }.

(* ===================================================================== *)
(** * The monad of asynchronous functions *)
(* ===================================================================== *)

(** The result of a call: a value, a thrown error, or the recursion budget
    of the model used up (the page driver need not terminate). *)
Inductive Result (A : Type) :=
| Ok (a : A)
| Throw (e : Error)
| OutOfFuel.
Arguments Ok {A} a.
Arguments Throw {A} e.
Arguments OutOfFuel {A}.

Definition M (A : Type) : Type := Sys -> Result A * Sys.

Definition ret {A} (a : A) : M A := fun s => (Ok a, s).

Definition throw {A} (e : Error) : M A := fun s => (Throw e, s).

Definition bind {A B} (c : M A) (k : A -> M B) : M B :=
  fun s =>
    match c s with
    | (Ok a, s') => k a s'
    | (Throw e, s') => (Throw e, s')
    | (OutOfFuel, s') => (OutOfFuel, s')
    end.

(** [try { c } catch (e) { h e }] *)
Definition try_catch {A} (c : M A) (h : Error -> M A) : M A :=
  fun s =>
    match c s with
    | (Throw e, s') => h e s'
    | r => r
    end.

Notation "'let!' x ':=' c 'in' k" := (bind c (fun x => k))
  (at level 10, x name, c at level 100, k at level 200, only parsing).
Notation "'do!' c 'in' k" := (bind c (fun _ => k))
  (at level 10, c at level 100, k at level 200, only parsing).

Definition get_self : M DownloadChannel := fun s => (Ok (self s), s).

Definition modify_self (f : DownloadChannel -> DownloadChannel) : M unit :=
  fun s => (Ok tt, mkSys (f (self s)) (world s)).

Definition get_world : M World := fun s => (Ok (world s), s).

Definition modify_world (f : World -> World) : M unit :=
  fun s => (Ok tt, mkSys (self s) (f (world s))).

Definition emit (e : Event) : M unit :=
  modify_world (fun w => mkWorld (tick w) (files w) (lastSelection w) (trace w ++ [e])).

(** The index of this outside call; the next call gets the next index. *)
Definition next_tick : M nat :=
  fun s =>
    let w := world s in
    (Ok (tick w), mkSys (self s) (mkWorld (S (tick w)) (files w) (lastSelection w) (trace w))).

Definition set_files (f : gset string -> gset string) : M unit :=
  modify_world (fun w => mkWorld (tick w) (f (files w)) (lastSelection w) (trace w)).

(** Field updates of the object. *)
Definition with_outputFolder (v : option string) (d : DownloadChannel) :=
  mkDownloadChannel v (uploadMode d) (targetChannelId d) (downloadableFiles d)
    (requestCount d) (lastRequestTime d) (totalDownloaded d) (totalUploaded d)
    (totalMessages d) (totalProcessedMessages d) (skippedFiles d).
Definition with_uploadMode (v : bool) (d : DownloadChannel) :=
  mkDownloadChannel (outputFolder d) v (targetChannelId d) (downloadableFiles d)
    (requestCount d) (lastRequestTime d) (totalDownloaded d) (totalUploaded d)
    (totalMessages d) (totalProcessedMessages d) (skippedFiles d).
Definition with_targetChannelId (v : option Z) (d : DownloadChannel) :=
  mkDownloadChannel (outputFolder d) (uploadMode d) v (downloadableFiles d)
    (requestCount d) (lastRequestTime d) (totalDownloaded d) (totalUploaded d)
    (totalMessages d) (totalProcessedMessages d) (skippedFiles d).
Definition with_downloadableFiles (v : option (gmap string bool)) (d : DownloadChannel) :=
  mkDownloadChannel (outputFolder d) (uploadMode d) (targetChannelId d) v
    (requestCount d) (lastRequestTime d) (totalDownloaded d) (totalUploaded d)
    (totalMessages d) (totalProcessedMessages d) (skippedFiles d).
Definition with_requestCount (v : Z) (d : DownloadChannel) :=
  mkDownloadChannel (outputFolder d) (uploadMode d) (targetChannelId d) (downloadableFiles d)
    v (lastRequestTime d) (totalDownloaded d) (totalUploaded d)
    (totalMessages d) (totalProcessedMessages d) (skippedFiles d).
Definition with_lastRequestTime (v : Z) (d : DownloadChannel) :=
  mkDownloadChannel (outputFolder d) (uploadMode d) (targetChannelId d) (downloadableFiles d)
    (requestCount d) v (totalDownloaded d) (totalUploaded d)
    (totalMessages d) (totalProcessedMessages d) (skippedFiles d).
Definition with_totalDownloaded (v : Z) (d : DownloadChannel) :=
  mkDownloadChannel (outputFolder d) (uploadMode d) (targetChannelId d) (downloadableFiles d)
    (requestCount d) (lastRequestTime d) v (totalUploaded d)
    (totalMessages d) (totalProcessedMessages d) (skippedFiles d).
Definition with_totalUploaded (v : Z) (d : DownloadChannel) :=
  mkDownloadChannel (outputFolder d) (uploadMode d) (targetChannelId d) (downloadableFiles d)
    (requestCount d) (lastRequestTime d) (totalDownloaded d) v
    (totalMessages d) (totalProcessedMessages d) (skippedFiles d).
Definition with_totalProcessedMessages (v : Z) (d : DownloadChannel) :=
  mkDownloadChannel (outputFolder d) (uploadMode d) (targetChannelId d) (downloadableFiles d)
    (requestCount d) (lastRequestTime d) (totalDownloaded d) (totalUploaded d)
    (totalMessages d) v (skippedFiles d).

(** The progress counters of the object. *)
Definition counters (d : DownloadChannel) : Z * Z * Z * Z * Z :=
  (totalDownloaded d, totalUploaded d, totalMessages d, totalProcessedMessages d, skippedFiles d).

(** Field updates of [uploadOptions]. *)
Definition uo_with_message (v : string) (u : UploadOptions) :=
  mkUploadOptions v (uo_entities u) (uo_file u) (uo_supportsStreaming u)
    (uo_attributes u) (uo_mimeType u) (uo_videoNote u) (uo_voiceNote u) (uo_sticker u).
Definition uo_with_file (v : option FileArg) (u : UploadOptions) :=
  mkUploadOptions (uo_message u) (uo_entities u) v (uo_supportsStreaming u)
    (uo_attributes u) (uo_mimeType u) (uo_videoNote u) (uo_voiceNote u) (uo_sticker u).
Definition uo_with_supportsStreaming (v : bool) (u : UploadOptions) :=
  mkUploadOptions (uo_message u) (uo_entities u) (uo_file u) v
    (uo_attributes u) (uo_mimeType u) (uo_videoNote u) (uo_voiceNote u) (uo_sticker u).
Definition uo_with_document (d : Document) (u : UploadOptions) :=
  mkUploadOptions (uo_message u) (uo_entities u) (uo_file u) (uo_supportsStreaming u)
    (Some (default [] (doc_attributes d))) (doc_mimeType d)
    (uo_videoNote u) (uo_voiceNote u) (uo_sticker u).
Definition uo_with_videoNote (v : option bool) (u : UploadOptions) :=
  mkUploadOptions (uo_message u) (uo_entities u) (uo_file u) (uo_supportsStreaming u)
    (uo_attributes u) (uo_mimeType u) v (uo_voiceNote u) (uo_sticker u).
Definition uo_with_voiceNote (v : bool) (u : UploadOptions) :=
  mkUploadOptions (uo_message u) (uo_entities u) (uo_file u) (uo_supportsStreaming u)
    (uo_attributes u) (uo_mimeType u) (uo_videoNote u) v (uo_sticker u).
Definition uo_with_sticker (v : bool) (u : UploadOptions) :=
  mkUploadOptions (uo_message u) (uo_entities u) (uo_file u) (uo_supportsStreaming u)
    (uo_attributes u) (uo_mimeType u) (uo_videoNote u) (uo_voiceNote u) v.

(* ===================================================================== *)
(** * The pipeline *)
(* ===================================================================== *)

Section Pipeline.

Context {hp : Helpers} {orc : Oracle}.

(** ** Outside calls *)

(** [Date.now()] *)
Definition date_now : M Z :=
  let! n := next_tick in ret (now_at n).

(** [fs.existsSync(p)] *)
Definition fs_existsSync (p : string) : M bool :=
  let! w := get_world in ret (bool_decide (p ∈ files w)).

(** [fs.writeFileSync(p, data)] *)
Definition fs_writeFileSync (p : string) : M unit :=
  let! n := next_tick in
  do! emit (EvWriteFile p) in
  match writeFileSync_at n with
  | Some e => throw e
  | None => set_files (fun fs => {[p]} ∪ fs)
  end.

(** [fs.unlinkSync(p)] *)
Definition fs_unlinkSync (p : string) : M unit :=
  let! n := next_tick in
  do! emit (EvUnlink p) in
  match unlinkSync_at n with
  | Some e => throw e
  | None => set_files (fun fs => fs ∖ {[p]})
  end.

(** [fs.mkdirSync(p, { recursive: true })] *)
Definition fs_mkdirSync (p : string) : M unit :=
  let! n := next_tick in
  do! emit (EvMkdir p) in
  match mkdirSync_at n with
  | Some e => throw e
  | None => set_files (fun fs => {[p]} ∪ fs)
  end.

(** [appendToJSONArrayFile(filePath, data)] of [utils/helper], which is not
    among the sources: a file operation that may throw; when it returns the
    transcript file is on disk.  The event keeps the identifiers of [data],
    in order. *)
Definition appendToJSONArrayFile (filePath : string) (ids : list Z) : M unit :=
  let! n := next_tick in
  do! emit (EvRecord ids) in
  match appendToJSONArrayFile_at n with
  | Some e => throw e
  | None => set_files (fun fs => {[filePath]} ∪ fs)
  end.

(** [getAllDialogs(client)] of [modules/dialoges], which is not among the
    sources: a call of the transport that may reject; the value is the list
    of the identifiers of the dialogs. *)
Definition getAllDialogs : M (list Z) :=
  let! n := next_tick in
  do! emit EvGetAllDialogs in
  match getAllDialogs_at n with
  | inl e => throw e
  | inr dialogs => ret dialogs
  end.

(** [client.getMessages(channelId, { limit, offsetId })] *)
Definition client_getMessages (channelId limit offsetId : Z) : M (list Message) :=
  let! n := next_tick in
  do! emit (EvGetMessages channelId limit offsetId) in
  match client_getMessages_at n with
  | inl e => throw e
  | inr ms => ret ms
  end.

(** [client.getMessages(channelId, { ids })] *)
Definition client_getMessages_ids (channelId : Z) (ids : list Z) : M (list Message) :=
  let! n := next_tick in
  do! emit (EvGetDetail channelId ids) in
  match client_getMessages_at n with
  | inl e => throw e
  | inr ms => ret ms
  end.

(** [client.downloadMedia(message, { outputFile, ... })]: the byte
    transfer; when it resolves the output file is on disk. *)
Definition client_downloadMedia (id : Z) (outputFile : string) (b : TransferBranch) : M unit :=
  let! n := next_tick in
  do! emit (EvDownloadMedia id outputFile b) in
  match client_downloadMedia_at n with
  | Some e => throw e
  | None => set_files (fun fs => {[outputFile]} ∪ fs)
  end.

(** [client.forwardMessages(target, { messages: [id], fromPeer, ... })];
    the value is the truthiness of the result. *)
Definition client_forwardMessages (target id peer : Z) : M bool :=
  let! n := next_tick in
  do! emit (EvForward target id peer) in
  match client_forwardMessages_at n with
  | inl e => throw e
  | inr r => ret r
  end.

(** [client.sendMessage(target, uploadOptions)]; the value is the
    truthiness of the result. *)
Definition client_sendMessage (target : Z) (options : UploadOptions) : M bool :=
  let! n := next_tick in
  do! emit (EvSend target options) in
  match client_sendMessage_at n with
  | inl e => throw e
  | inr r => ret r
  end.

(** ** modules/messages.js *)

Definition getMessages (client : bool) (channelId limit offsetId : Z) : M (list Message) :=
  if negb client || negb (Js.truthy_num channelId)
  then throw (mkError "Client and channelId are required")
  else
    try_catch (client_getMessages channelId limit offsetId)
      (fun error => throw (mkError ("Failed to get messages: " +:+ err_message error))).

Definition getMessageDetail (client : bool) (channelId : Z) (messageIds : list Z)
  : M (list Message) :=
  if negb client || negb (Js.truthy_num channelId)
  then throw (mkError "Client, channelId, and messageIds are required")
  else
    try_catch (client_getMessages_ids channelId messageIds)
      (fun error => throw (mkError ("Failed to get message details: " +:+ err_message error))).

(** [path.join(path.dirname(mediaPath), `${message.id}${suffix}`)] *)
Definition sidecar (mediaPath : string) (id : Z) (suffix : string) : string :=
  path_join (path_dirname mediaPath) (Js.of_Z id +:+ suffix).

(** The part of [downloadMessageMedia] after the webpage block. *)
Definition downloadMedia_rest (message : Message) (media : Media) (mediaPath : string)
  : M bool :=
  match md_poll media with
  | Some _ =>
      do! fs_writeFileSync (sidecar mediaPath (m_id message) "_poll.json") in ret true
  | None =>
  match md_geo media with
  | Some _ =>
      do! fs_writeFileSync (sidecar mediaPath (m_id message) "_location.json") in ret true
  | None =>
  match md_contact media with
  | Some _ =>
      do! fs_writeFileSync (sidecar mediaPath (m_id message) "_contact.json") in ret true
  | None =>
  match md_venue media with
  | Some _ =>
      do! fs_writeFileSync (sidecar mediaPath (m_id message) "_venue.json") in ret true
  | None =>
      do! client_downloadMedia (m_id message) mediaPath MediaBranch in ret true
  end end end end.

Definition downloadMessageMedia (client : bool) (message : Message) (mediaPath : string)
  : M bool :=
  try_catch
    (if negb client || negb (Js.truthy_str (Some mediaPath)) then ret false
     else
       match m_media message with
       | Some media =>
           match md_webpage media with
           | Some webpage =>
               do! (if Js.truthy_str (wp_url webpage)
                    then fs_writeFileSync (sidecar mediaPath (m_id message) "_webpage.txt")
                    else ret tt) in
               match wp_photo webpage with
               | Some _ =>
                   downloadMedia_rest message media
                     (sidecar mediaPath (m_id message) "_webpage_image.jpeg")
               | None => ret true
               end
           | None => downloadMedia_rest message media mediaPath
           end
       | None =>
           match m_sticker message with
           | Some _ =>
               do! client_downloadMedia (m_id message)
                     (sidecar mediaPath (m_id message) "_sticker.webp") StickerBranch in
               ret true
           | None => ret false
           end
       end)
    (fun err => ret false).

(** The attributes carried over when the local file is attached
    (messages.js, lines 212-225). *)
Definition attachLocalFile (media : Media) (mediaPath : string) (uo : UploadOptions)
  : UploadOptions :=
  let uo := uo_with_file (Some (LocalFile mediaPath)) uo in
  match md_photo media with
  | Some _ => uo_with_supportsStreaming true uo
  | None =>
  match md_document media with
  | Some doc => uo_with_supportsStreaming true (uo_with_document doc uo)
  | None =>
  match md_video media with
  | Some _ => uo_with_videoNote (Some (md_videoNote media)) (uo_with_supportsStreaming true uo)
  | None => uo
  end end end.

(** The original media reference used when forwarding failed
    (messages.js, lines 242-253). *)
Definition attachMediaReference (media : Media) (uo : UploadOptions) : UploadOptions :=
  match md_photo media with
  | Some r => uo_with_file (Some (PhotoRef r)) uo
  | None =>
  match md_document media with
  | Some d => uo_with_file (Some (DocumentRef d)) uo
  | None =>
  match md_video media with
  | Some r => uo_with_file (Some (VideoRef r)) uo
  | None =>
  match md_audio media with
  | Some r => uo_with_file (Some (AudioRef r)) uo
  | None =>
  match md_voice media with
  | Some r => uo_with_voiceNote true (uo_with_file (Some (VoiceRef r)) uo)
  | None => uo
  end end end end end.

(** [pollData.answers.map((ans, i) => `${i + 1}. ${ans.text}`).join('\n')] *)
Definition pollOptions (answers : list Answer) : string :=
  Js.join Js.nl
    (imap (fun i ans => Js.of_nat (i + 1) +:+ ". " +:+ Js.tpl (ans_text ans)) answers).

Definition pollText (p : Poll) (originalCaption : string) : string :=
  "📊 Poll: " +:+ Js.tpl (poll_question p) +:+ Js.nl +:+ Js.nl +:+ "Options:" +:+ Js.nl
  +:+ pollOptions (poll_answers p) +:+ Js.nl +:+ Js.nl +:+ originalCaption.

Definition geoText (g : Geo) (originalCaption : string) : string :=
  "📍 Location: " +:+ geo_lat g +:+ ", " +:+ geo_long g
  +:+ Js.nl +:+ Js.nl +:+ originalCaption.

Definition contactText (c : Contact) (originalCaption : string) : string :=
  "👤 Contact: " +:+ Js.tpl (ct_firstName c) +:+ " " +:+ Js.or_str (ct_lastName c) ""
  +:+ Js.nl +:+ "Phone: " +:+ Js.tpl (ct_phoneNumber c)
  +:+ Js.nl +:+ Js.nl +:+ originalCaption.

Definition venueText (v : Venue) (originalCaption : string) : string :=
  "🏢 Venue: " +:+ Js.tpl (vn_title v) +:+ Js.nl +:+ "Address: " +:+ Js.tpl (vn_address v)
  +:+ Js.nl +:+ Js.nl +:+ originalCaption.

Definition webpageText (w : Webpage) (originalCaption : string) : string :=
  "🔗 " +:+ Js.or_str (wp_title w) "Webpage" +:+ Js.nl +:+ Js.tpl (wp_url w) +:+ Js.nl
  +:+ Js.or_str (wp_description w) "" +:+ Js.nl +:+ Js.nl +:+ originalCaption.

(** "Handle special media types" (messages.js, lines 257-283): the text
    replaces the caption and the [file] key is deleted. *)
Definition specialMedia (media : Media) (originalCaption : string) (uo : UploadOptions)
  : UploadOptions :=
  match md_poll media with
  | Some p => uo_with_file None (uo_with_message (pollText p originalCaption) uo)
  | None =>
  match md_geo media with
  | Some g => uo_with_file None (uo_with_message (geoText g originalCaption) uo)
  | None =>
  match md_contact media with
  | Some c => uo_with_file None (uo_with_message (contactText c originalCaption) uo)
  | None =>
  match md_venue media with
  | Some v => uo_with_file None (uo_with_message (venueText v originalCaption) uo)
  | None =>
  match md_webpage media with
  | Some w => uo_with_file None (uo_with_message (webpageText w originalCaption) uo)
  | None => uo
  end end end end end.

(** The message carries one of the structured payloads that "Handle special
    media types" turns into text. *)
Definition structured (media : Media) : bool :=
  bool_decide (is_Some (md_poll media))
  || bool_decide (is_Some (md_geo media))
  || bool_decide (is_Some (md_contact media))
  || bool_decide (is_Some (md_venue media))
  || bool_decide (is_Some (md_webpage media)).

(** [originalCaption] *)
Definition caption_of (message : Message) : string := Js.or_str (m_message message) "".

(** [mediaPath && fs.existsSync(mediaPath)], read off the world *)
Definition has_local_file (mediaPath : option string) (w : World) : bool :=
  match mediaPath with
  | Some p => Js.truthy_str (Some p) && bool_decide (p ∈ files w)
  | None => false
  end.

Definition localFileAvailable (mediaPath : option string) : M bool :=
  let! w := get_world in ret (has_local_file mediaPath w).

Definition uploadMessageToChannel (client : bool) (targetChannelId : Z)
    (message : Message) (mediaPath : option string) : M bool :=
  try_catch
    (if negb client || negb (Js.truthy_num targetChannelId)
     then throw (mkError "Client, targetChannelId, and message are required")
     else
       let originalCaption := caption_of message in
       let originalEntities := default [] (m_entities message) in
       let uploadOptions :=
         mkUploadOptions originalCaption originalEntities None false None None None false false in
       match m_media message with
       | Some media =>
           let! onDisk := localFileAvailable mediaPath in
           if onDisk then
             client_sendMessage targetChannelId
               (specialMedia media originalCaption
                  (attachLocalFile media (default "" mediaPath) uploadOptions))
           else
             let! forwarded :=
               try_catch
                 (let! result :=
                    client_forwardMessages targetChannelId (m_id message) (m_peerId message) in
                  ret (Some result))
                 (fun forwardError => ret None) in
             match forwarded with
             | Some result => ret result
             | None =>
                 client_sendMessage targetChannelId
                   (specialMedia media originalCaption
                      (attachMediaReference media uploadOptions))
             end
       | None =>
           match m_sticker message with
           | Some st =>
               client_sendMessage targetChannelId
                 (uo_with_sticker true (uo_with_file (Some (StickerRef st)) uploadOptions))
           | None =>
               if negb (Js.truthy_str (Some (trim originalCaption)))
               then ret false
               else client_sendMessage targetChannelId uploadOptions
           end
       end)
    (fun error => throw (mkError ("Failed to upload message: " +:+ err_message error))).

(** ** scripts/download-channel.js *)

Definition MAX_PARALLEL_PROCESS : nat := 5.
Definition MESSAGE_LIMIT : Z := 100.
Definition RATE_LIMIT_DELAY : Z := 1500.
Definition DOWNLOAD_DELAY : Z := 200.
Definition UPLOAD_DELAY : Z := 300.
Definition MAX_RETRIES : nat := 3.
Definition BACKOFF_BASE : Z := 1000.

(** [this.wait(ms)]: a timer of [ms] milliseconds plus a random delay below
    500 ms.  The event records [ms]; the random part is not modelled. *)
Definition wait (ms : Z) : M unit := emit (EvWait ms).

(** The state once [this.wait(ms)] is over. *)
Definition after_wait (ms : Z) (s : Sys) : Sys := snd (wait ms s).

Definition checkRateLimit : M unit :=
  let! now := date_now in
  let! this := get_self in
  let timeSinceLastRequest := now - lastRequestTime this in
  do! (if (requestCount this >? 15) && (timeSinceLastRequest <? 60000)
       then
         do! wait 60000 in
         modify_self (with_requestCount 0)
       else ret tt) in
  do! modify_self (with_lastRequestTime now) in
  modify_self (fun this => with_requestCount (requestCount this + 1) this).

(** The condition of line 74, read off the state in which
    [checkRateLimit] is called. *)
Definition cooling_condition (s : Sys) : bool :=
  (requestCount (self s) >? 15)
  && (now_at (tick (world s)) - lastRequestTime (self s) <? 60000).

(** The loop of [retryWithBackoff]: [i] is the loop counter and [left] the
    number of iterations still to run.  The value is [None] when the loop
    ends without a [return] (only when [retries] is 0). *)
Fixpoint retry_loop {A} (fn : M A) (retries i left : nat) : M (option A) :=
  match left with
  | O => ret None
  | S left' =>
      try_catch
        (do! checkRateLimit in
         let! r := fn in
         ret (Some r))
        (fun error =>
           if (i =? retries - 1)%nat then throw error
           else
             let backoffDelay := BACKOFF_BASE * 2 ^ Z.of_nat i in
             do! wait backoffDelay in
             retry_loop fn retries (S i) left')
  end.

Definition retryWithBackoff {A} (fn : M A) : M (option A) :=
  retry_loop fn MAX_RETRIES 0 MAX_RETRIES.

Definition hasContent (message : Message) : bool :=
  Js.truthy_str (m_message message)
  || bool_decide (is_Some (m_media message))
  || bool_decide (is_Some (m_sticker message))
  || m_document message
  || m_photo message
  || m_video message
  || m_audio message
  || m_voice message
  || m_poll message
  || m_geo message
  || m_contact message
  || m_venue message
  || m_webpage message.

(** [this.downloadableFiles?.[key]].  The policy is a plain object whose
    own properties are the entries of the map; a key that is not an own
    property is looked up in [Object.prototype]. *)
Definition policy_lookup (this : DownloadChannel) (key : string) : JsValue :=
  match downloadableFiles this with
  | Some policy =>
      match policy !! key with
      | Some b => JsBool b
      | None =>
          if bool_decide (key ∈ Js.Object_prototype_keys) then JsInherited key
          else JsUndefined
      end
  | None => JsUndefined
  end.

(** truthiness of such a value *)
Definition truthy (a : JsValue) : bool :=
  match a with
  | JsBool true | JsInherited _ => true
  | _ => false
  end.

(** [a || b] *)
Definition js_or (a b : JsValue) : JsValue :=
  if truthy a then a else b.

(** [path.extname(mediaPath).toLowerCase().replace(".", "")] for the media
    path of the message *)
Definition media_extension (this : DownloadChannel) (message : Message) : string :=
  let mediaPath := getMediaPath message (outputFolder this) in
  Js.remove_first_dot (toLowerCase (path_extname mediaPath)).

Definition shouldProcess (this : DownloadChannel) (message : Message) : JsValue :=
  if negb (hasContent message) then JsBool false
  else if Js.truthy_str (m_message message) && negb (bool_decide (is_Some (m_media message)))
  then JsBool true
  else
    match m_media message with
    | Some _ =>
        let mediaType := getMediaType message in
        let extension := media_extension this message in
        js_or (js_or (policy_lookup this mediaType) (policy_lookup this extension))
              (policy_lookup this "all")
    | None => JsBool true
    end.

(** Modelled from the spec: [checkFileExist] of [utils/helper] is not among
    the sources; the spec says "if that path already exists on disk", the
    path being the canonical local path [getMediaPath] computes. *)
Definition checkFileExist (message : Message) (outputFolder : option string) : M bool :=
  fs_existsSync (getMediaPath message outputFolder).

Definition downloadMessage (client : bool) (message : Message) : M (option string) :=
  try_catch
    (match m_media message with
     | None => ret None
     | Some _ =>
         let! this := get_self in
         let mediaPath := getMediaPath message (outputFolder this) in
         let! fileExists := checkFileExist message (outputFolder this) in
         if fileExists then ret (Some mediaPath)
         else
           let! result := downloadMessageMedia client message mediaPath in
           if result then
             do! modify_self (fun this => with_totalDownloaded (totalDownloaded this + 1) this) in
             ret (Some mediaPath)
           else ret None
     end)
    (fun error => ret None).

(** truthiness of [this.targetChannelId] *)
Definition target_of (this : DownloadChannel) : option Z :=
  match targetChannelId this with
  | Some z => if Js.truthy_num z then Some z else None
  | None => None
  end.

Definition uploadMessage (client : bool) (message : Message) (mediaPath : option string)
  : M bool :=
  try_catch
    (let! this := get_self in
     match uploadMode this, target_of this with
     | true, Some target =>
         let! result := uploadMessageToChannel client target message mediaPath in
         if result then
           do! modify_self (fun this => with_totalUploaded (totalUploaded this + 1) this) in
           let! onDisk := localFileAvailable mediaPath in
           do! (if onDisk
                then try_catch (fs_unlinkSync (default "" mediaPath)) (fun cleanupError => ret tt)
                else ret tt) in
           ret true
         else ret false
     | _, _ => ret false
     end)
    (fun error => ret false).

Definition processMessage (client : bool) (message : Message) (index total : nat) : M unit :=
  try_catch
    (do! emit (EvInvoke (m_id message) index total) in
     let hasContent0 :=
       Js.truthy_str (m_message message)
       && Js.truthy_str (Some (trim (default "" (m_message message)))) in
     let! r1 :=
       match m_media message with
       | Some _ =>
           let! mediaPath := downloadMessage client message in
           do! wait DOWNLOAD_DELAY in
           ret (true, mediaPath)
       | None => ret (hasContent0, None)
       end in
     let! r2 :=
       match m_sticker message with
       | Some _ =>
           let! mediaPath := downloadMessage client message in
           do! wait DOWNLOAD_DELAY in
           ret (true, mediaPath)
       | None => ret r1
       end in
     let hasContent := fst r2 in
     let mediaPath := snd r2 in
     let! this := get_self in
     do! (if uploadMode this && hasContent
          then
            let! uploadSuccess := uploadMessage client message mediaPath in
            wait UPLOAD_DELAY
          else ret tt) in
     modify_self (fun this => with_totalProcessedMessages (totalProcessedMessages this + 1) this))
    (fun error => ret tt).

(** What [path.join] throws on a first argument that is [null]. *)
Definition path_join_null : Error :=
  mkError ("The " +:+ Js.dq +:+ "path" +:+ Js.dq
           +:+ " argument must be of type string. Received null").

(** [recordMessages(messages)]: the folder is made when it is missing, and
    the projection of every message (built from the message alone by
    [hasContent], [getMediaType], [getMediaPath]) is appended to
    [all_messages.json]. *)
Definition recordMessages (messages : list Message) : M unit :=
  let! this := get_self in
  match outputFolder this with
  | None => throw path_join_null
  | Some folder =>
      let filePath := path_join folder "all_messages.json" in
      let! present := fs_existsSync folder in
      do! (if present then ret tt else fs_mkdirSync folder) in
      appendToJSONArrayFile filePath (map m_id messages)
  end.

(** [showProgress(currentBatch)] only logs. *)
Definition showProgress (currentBatch : nat) : M unit :=
  emit (EvProgress currentBatch).

(** Modelled from the spec: [getLastSelection] of [utils/file-helper] is not
    among the sources; the spec has a checkpoint store with
    [get() -> {channelId, messageOffsetId}]. *)
Definition getLastSelection : M Selection :=
  let! w := get_world in ret (lastSelection w).

(** Modelled from the spec: [updateLastSelection] of [utils/file-helper] is
    not among the sources; the spec has [put] on the checkpoint store.  A
    key that the caller does not supply ([None]) keeps its stored value. *)
Definition updateLastSelection (messageOffsetId channelId : option Z) : M unit :=
  modify_world (fun w =>
    let old := lastSelection w in
    mkWorld (tick w) (files w)
      (mkSelection
         (match channelId with Some c => Some c | None => sel_channelId old end)
         (match messageOffsetId with Some o => Some o | None => sel_messageOffsetId old end))
      (trace w)).

(** [messagesToProcess.slice(i, i + MAX_PARALLEL_PROCESS)] *)
Definition slice {A} (l : list A) (from to : nat) : list A :=
  take (to - from) (drop from l).

(** [batch.map((msg, index) => this.processMessage(client, msg, i + index, total))].
    Calling an [async] function runs it at once up to its first [await]
    that suspends; the rest runs while the caller awaits.  The calls are
    made here, one after the other, and the model runs each body whole at
    its call: [EvInvoke] and the first outside call of a message stand in
    the trace where the program makes them, the later events of a message
    stand earlier than in a run of the program.  The counters are only
    incremented, so their final values do not depend on the interleaving.
    The value stands for the promises: the identifiers of the messages of
    the batch. *)
Fixpoint invokeBatch (client : bool) (batch : list Message) (index total : nat)
  : M (list Z) :=
  match batch with
  | [] => ret []
  | msg :: rest =>
      do! processMessage client msg index total in
      let! promises := invokeBatch client rest (S index) total in
      ret (m_id msg :: promises)
  end.

(** The first loop of the scheduler (lines 352-361): it builds
    [processPromises]. *)
Equations? startBatches (client : bool) (messagesToProcess : list Message) (i : nat)
  : M (list (list Z)) by wf (length messagesToProcess - i)%nat lt :=
  startBatches client messagesToProcess i with decide (i < length messagesToProcess)%nat := {
    | left _ =>
        let batch := slice messagesToProcess i (i + MAX_PARALLEL_PROCESS) in
        let! batchPromises := invokeBatch client batch i (length messagesToProcess) in
        let! processPromises := startBatches client messagesToProcess (i + MAX_PARALLEL_PROCESS) in
        ret (batchPromises :: processPromises)
    | right _ => ret [] }.
Proof. unfold MAX_PARALLEL_PROCESS. lia. Qed.

(** The second loop of the scheduler (lines 364-371): [processPromises] from
    index [i] on, [n] being [processPromises.length]. *)
Fixpoint awaitBatches (processPromises : list (list Z)) (i n : nat) : M unit :=
  match processPromises with
  | [] => ret tt
  | _ :: rest =>
      do! emit (EvAwaitBatch i n) in
      do! (if (i <? n - 1)%nat then wait RATE_LIMIT_DELAY else ret tt) in
      awaitBatches rest (S i) n
  end.

(** Lines 352-371 of [downloadChannel]. *)
Definition runBatches (client : bool) (messagesToProcess : list Message) : M unit :=
  let! processPromises := startBatches client messagesToProcess 0 in
  awaitBatches processPromises 0 (length processPromises).

(** [messages[messages.length - 1].id] *)
Definition last_id (messages : list Message) : Z :=
  List.last (map m_id messages) 0.

(** [err.message.match(/\d+/)?.[0] || "300"] *)
Definition flood_hint (message : string) : string :=
  Js.or_str (Js.match_digits message) "300".

(** The [try] block of [downloadChannel] (lines 323-390); [recurse] is the
    call of [downloadChannel] itself. *)
Definition downloadChannel_body (recurse : Z -> M unit)
    (client : bool) (channelId offsetMsgId : Z) : M unit :=
  do! modify_self (with_outputFolder (Some (export_folder channelId))) in
  let! fetched := retryWithBackoff (getMessages client channelId MESSAGE_LIMIT offsetMsgId) in
  match fetched with
  | None => throw (mkError "Cannot read properties of undefined (reading 'length')")
  | Some [] => showProgress 0
  | Some messages =>
      let ids := map m_id messages in
      let! resolved := retryWithBackoff (getMessageDetail client channelId ids) in
      match resolved with
      | None => throw (mkError "Cannot read properties of undefined (reading 'filter')")
      | Some details =>
          let! this := get_self in
          let messagesToProcess :=
            filter (fun msg => truthy (shouldProcess this msg) = true) details in
          do! runBatches client messagesToProcess in
          do! recordMessages details in
          do! updateLastSelection (Some (last_id messages)) None in
          do! showProgress (length messagesToProcess) in
          do! wait RATE_LIMIT_DELAY in
          recurse (last_id messages)
      end
  end.

(** [downloadChannel(client, channelId, offsetMsgId)].  The function calls
    itself without bound, so the model takes the number of nested calls it
    may make; with none left the result is [OutOfFuel]. *)
Fixpoint downloadChannel (fuel : nat) (client : bool) (channelId offsetMsgId : Z) : M unit :=
  match fuel with
  | O => fun s => (OutOfFuel, s)
  | S fuel' =>
      try_catch
        (downloadChannel_body (downloadChannel fuel' client channelId)
           client channelId offsetMsgId)
        (fun err =>
           if Js.truthy_str (Some (err_message err))
              && Js.includes "FLOOD_WAIT" (err_message err)
           then
             let waitTime := Js.parseInt (flood_hint (err_message err)) * 1000 in
             do! wait waitTime in
             downloadChannel fuel' client channelId offsetMsgId
           else throw err)
  end.

(** [options] of [configureDownload]. *)
Record Options := mkOptions {
  opt_channelId : option Z;
  opt_downloadableFiles : option (gmap string bool) }.

(** The policy used when none is configured (lines 456-471). *)
Definition default_downloadableFiles : gmap string bool :=
  list_to_map
    (map (fun k => (k, true))
       ["webpage"; "poll"; "geo"; "contact"; "venue"; "sticker"; "image"; "video";
        "audio"; "voice"; "document"; "pdf"; "zip"; "all"]).

(** [selectInput(message, choices)] of [utils/input-helper], which is not
    among the sources: the prompt may reject; the value is the choice of the
    user. *)
Definition selectInput (choices : list Z) : M Z :=
  let! n := next_tick in
  do! emit (EvSelectInput choices) in
  match selectInput_at n with
  | inl e => throw e
  | inr choice => ret choice
  end.

(** [booleanInput(message)] of [utils/input-helper]: the prompt may reject;
    the value is the answer of the user. *)
Definition booleanInput : M bool :=
  let! n := next_tick in
  do! emit EvBooleanInput in
  match booleanInput_at n with
  | inl e => throw e
  | inr answer => ret answer
  end.

(** [Number(a) !== Number(b)] where [a] is a stored channel identifier, or
    undefined ([Number(undefined)] is [NaN], which differs from every
    number), and [b] a channel identifier.  Channel identifiers are the
    transport's numeric ids; on a number [Number] is the identity. *)
Definition number_differs (a : option Z) (b : Z) : bool :=
  match a with
  | Some x => negb (x =? b)
  | None => true
  end.

(** Lines 416-428 of [configureDownload]: the source channel is asked for
    when none is configured. *)
Definition selectSource : M Z :=
  let! allChannels := getAllDialogs in
  selectInput allChannels.

(** [configureDownload(options, client)]; the value is
    [{ channelId, messageOffsetId }].  A dialog stands for its identifier;
    the menus are the lists of the identifiers on offer. *)
Definition configureDownload (options : Options) : M (Z * Z) :=
  let! channelId :=
    match opt_channelId options with
    | Some c => if Js.truthy_num c then ret c else selectSource
    | None => selectSource
    end in
  let! mode := booleanInput in
  do! modify_self (with_uploadMode mode) in
  do! (if mode
       then
         let! allChannels := getAllDialogs in
         let targetOptions := filter (fun d => d <> channelId) allChannels in
         let! target := selectInput targetOptions in
         modify_self (with_targetChannelId (Some target))
       else ret tt) in
  let downloadableFiles :=
    match opt_downloadableFiles options with
    | Some policy => policy
    | None => default_downloadableFiles
    end in
  do! modify_self (with_downloadableFiles (Some downloadableFiles)) in
  let! lastSelection := getLastSelection in
  let messageOffsetId0 := default 0 (sel_messageOffsetId lastSelection) in
  let messageOffsetId :=
    if number_differs (sel_channelId lastSelection) channelId then 0 else messageOffsetId0 in
  do! updateLastSelection (Some messageOffsetId) (Some channelId) in
  ret (channelId, messageOffsetId).

End Pipeline.

(* ===================================================================== *)
(** * The spec's reading of the rate governor *)
(* ===================================================================== *)

(** Following the words of the spec (section 4.2): the gated calls that
    "have occurred within a sliding window (default 60s)" when a call is
    made at [now], [earlier] being the times of the gated calls made before
    it. *)
Definition calls_in_window (earlier : list Z) (now : Z) : nat :=
  length (List.filter (fun t => now - t <? 60000) earlier).

(** Following the words of the spec: the gate enters [Cooling] "when more
    than a configured call-count threshold (default 15) of gated calls have
    occurred within a sliding window". *)
Definition spec_enters_cooling (earlier : list Z) (now : Z) : bool :=
  (15 <? calls_in_window earlier now)%nat.

(** [n] calls of [c], one after the other *)
Fixpoint times {A} (n : nat) (c : M A) : M unit :=
  match n with
  | O => ret tt
  | S n' => do! c in times n' c
  end.

(* ===================================================================== *)
(** * What a call may do *)
(* ===================================================================== *)

(** The events that are not the byte transfer of the sticker branch of
    [downloadMessageMedia]. *)
Definition not_sticker_transfer (e : Event) : Prop :=
  match e with
  | EvDownloadMedia _ _ StickerBranch => False
  | _ => True
  end.

(** The events of the work on one message after its invocation: every event
    but the invocation of [processMessage], the scheduler's [await] of a
    batch, and the sticker transfer. *)
Definition quiet (e : Event) : Prop :=
  match e with
  | EvDownloadMedia _ _ StickerBranch => False
  | EvInvoke _ _ _ => False
  | EvAwaitBatch _ _ => False
  | _ => True
  end.

(** The invocations of [processMessage] in a trace: message identifier and
    index, in order. *)
Fixpoint invocations (evs : list Event) : list (Z * nat) :=
  match evs with
  | [] => []
  | EvInvoke id index _ :: rest => (id, index) :: invocations rest
  | _ :: rest => invocations rest
  end.

(** The invocations of a batch whose first message has index [index]. *)
Definition batch_invocations (index : nat) (batch : list Message) : list (Z * nat) :=
  imap (fun k msg => (m_id msg, (index + k)%nat)) batch.

(** The scheduler's [await] of a batch. *)
Definition is_await (e : Event) : Prop :=
  match e with
  | EvAwaitBatch _ _ => True
  | _ => False
  end.

(** The events of the second loop of the scheduler for [left] batches from
    index [i] on, [n] being the number of batches: an [await] per batch, and
    the delay after each batch but the last. *)
Fixpoint await_events (i n left : nat) : list Event :=
  match left with
  | O => []
  | S left' =>
      (EvAwaitBatch i n
       :: (if (i <? n - 1)%nat then [EvWait RATE_LIMIT_DELAY] else []))
      ++ await_events (S i) n left'
  end.

(** The number of chunks of at most 5 that [len] messages make. *)
Definition chunk_count (len : nat) : nat := ((len + 4) / 5)%nat.

(** What the scheduler itself does with a page, read off a trace: the
    invocations of [processMessage] and the [await]s of the groups, in the
    order of the trace; every other event is left out. *)
Inductive Scheduled :=
| Invoked (id : Z) (index : nat)
| Awaited (i n : nat).

Fixpoint schedule (evs : list Event) : list Scheduled :=
  match evs with
  | [] => []
  | EvInvoke id index _ :: rest => Invoked id index :: schedule rest
  | EvAwaitBatch i n :: rest => Awaited i n :: schedule rest
  | _ :: rest => schedule rest
  end.

(** From [s] to [s']: the object's fields are related by [K], and the trace
    grew by events that all satisfy [P]. *)
Definition reach (P : Event -> Prop) (K : DownloadChannel -> DownloadChannel -> Prop)
    (s s' : Sys) : Prop :=
  K (self s) (self s')
  /\ exists evs, trace (world s') = (trace (world s) ++ evs)%list /\ Forall P evs.

(** Whatever its result, the call moves the state along [reach P K]. *)
Definition reaches (P : Event -> Prop) (K : DownloadChannel -> DownloadChannel -> Prop)
    {A} (c : M A) : Prop :=
  forall s, reach P K s (snd (c s)).

(** The call ends: the recursion budget of the model plays no part. *)
Definition total {A} (c : M A) : Prop :=
  forall s, fst (c s) <> OutOfFuel.

(** The call ends and throws nothing. *)
Definition safe {A} (c : M A) : Prop :=
  forall s, exists a, fst (c s) = Ok a.

(** Each progress counter of [d'] is at least that of [d]. *)
Definition counters_le (d d' : DownloadChannel) : Prop :=
  totalDownloaded d <= totalDownloaded d'
  /\ totalUploaded d <= totalUploaded d'
  /\ totalMessages d <= totalMessages d'
  /\ totalProcessedMessages d <= totalProcessedMessages d'
  /\ skippedFiles d <= skippedFiles d'.

(** The call leaves [totalProcessedMessages] as it is. *)
Definition same_processed (d d' : DownloadChannel) : Prop :=
  totalProcessedMessages d' = totalProcessedMessages d.

(** The call ends, throws nothing, and adds [n] to
    [totalProcessedMessages]. *)
Definition adds (n : Z) {A} (c : M A) : Prop :=
  forall s,
    (exists a, fst (c s) = Ok a)
    /\ totalProcessedMessages (self (snd (c s))) = totalProcessedMessages (self s) + n.

(* ===================================================================== *)
(** * Sample inputs *)
(* ===================================================================== *)

Definition sample_helpers : Helpers :=
  mkHelpers
    (fun m => "document")
    (fun m folder => default "export" folder +:+ "/document/" +:+ Js.of_Z (m_id m) +:+ ".PDF")
    (fun p => ".PDF")
    (fun p => "export/document")
    (fun a b => a +:+ "/" +:+ b)
    (fun s => "pdf")
    (fun s => s)
    (fun c => "export/" +:+ Js.of_Z c).

(** Every outside call succeeds, every page is empty, the clock reads one
    second per call, the dialogs are the channels 42 and 43, and the user
    chooses channel 42 and answers "no". *)
Definition quiet_oracle : Oracle :=
  mkOracle (fun n => 1700000000000 + 1000 * Z.of_nat n)
    (fun _ => inr []) (fun _ => None) (fun _ => inr true) (fun _ => inr true)
    (fun _ => None) (fun _ => None) (fun _ => inr 42) (fun _ => inr false)
    (fun _ => None) (fun _ => None) (fun _ => inr [42; 43]).

(** The clock reads 59 seconds more at every call. *)
Definition slow_clock_oracle : Oracle :=
  mkOracle (fun n => 1700000000000 + 59000 * Z.of_nat n)
    (fun _ => inr []) (fun _ => None) (fun _ => inr true) (fun _ => inr true)
    (fun _ => None) (fun _ => None) (fun _ => inr 42) (fun _ => inr false)
    (fun _ => None) (fun _ => None) (fun _ => inr [42; 43]).

Definition start_world : World := mkWorld 0 ∅ (mkSelection None None) [].

Definition start_sys : Sys := mkSys new_DownloadChannel start_world.

Definition bare_message (id : Z) : Message :=
  mkMessage id None None None None 7
    false false false false false false false false false false.

Definition text_message (id : Z) (text : string) : Message :=
  mkMessage id (Some text) None None None 7
    false false false false false false false false false false.

Definition document_message (id : Z) : Message :=
  mkMessage id (Some "caption") None
    (Some (mkMedia None None None None None None
             (Some (mkDocument None (Some "application/pdf"))) None None None false))
    None 7 false false false false false false false false false false.

Definition sticker_message (id : Z) : Message :=
  mkMessage id None None None (Some "sticker-ref") 7
    false false false false false false false false false false.

(** The poll of the spec's scenario. *)
Definition poll_QAB : Poll :=
  mkPoll (Some "Q") [mkAnswer (Some "A"); mkAnswer (Some "B")].

Definition poll_message (id : Z) (caption : option string) : Message :=
  mkMessage id caption None
    (Some (mkMedia None (Some poll_QAB) None None None None None None None None false))
    None 7 false false false false false false false false false false.

(** The first three calls of [client.getMessages] are refused with a flood
    wait whose message is [text]; the clock readings in between are ticks 0,
    2 and 4, so the refused calls are ticks 1, 3 and 5. *)
Definition flood_oracle (text : string) : Oracle :=
  mkOracle (fun n => 1700000000000 + 1000 * Z.of_nat n)
    (fun n => if (n <? 6)%nat then inl (mkError text) else inr [])
    (fun _ => None) (fun _ => inr true) (fun _ => inr true)
    (fun _ => None) (fun _ => None) (fun _ => inr 42) (fun _ => inr false)
    (fun _ => None) (fun _ => None) (fun _ => inr [42; 43]).

(** Forwarding is refused; everything else succeeds. *)
Definition forward_refused_oracle : Oracle :=
  mkOracle (fun n => 1700000000000 + 1000 * Z.of_nat n)
    (fun _ => inr []) (fun _ => None)
    (fun _ => inl (mkError "CHAT_FORWARDS_RESTRICTED")) (fun _ => inr true)
    (fun _ => None) (fun _ => None) (fun _ => inr 42) (fun _ => inr false)
    (fun _ => None) (fun _ => None) (fun _ => inr [42; 43]).

(** Every transfer, forward, send and file operation throws. *)
Definition failing_oracle : Oracle :=
  mkOracle (fun n => 1700000000000 + 1000 * Z.of_nat n)
    (fun _ => inr [])
    (fun _ => Some (mkError "TIMEOUT"))
    (fun _ => inl (mkError "CHAT_FORWARDS_RESTRICTED"))
    (fun _ => inl (mkError "CHAT_WRITE_FORBIDDEN"))
    (fun _ => Some (mkError "ENOSPC")) (fun _ => Some (mkError "EPERM"))
    (fun _ => inr 42) (fun _ => inr false)
    (fun _ => Some (mkError "EACCES")) (fun _ => Some (mkError "ENOSPC"))
    (fun _ => inr [42; 43]).

(** The object in upload mode towards channel 9. *)
Definition uploading : DownloadChannel :=
  with_targetChannelId (Some 9) (with_uploadMode true new_DownloadChannel).

(** The media file of message 1 is on disk. *)
Definition sys_with_file : Sys :=
  mkSys new_DownloadChannel
    (mkWorld 0 {["export/document/1.PDF"]} (mkSelection None None) []).

(** A checkpoint of channel 111 at message 900 is stored. *)
Definition sys_with_checkpoint : Sys :=
  mkSys new_DownloadChannel (mkWorld 0 ∅ (mkSelection (Some 111) (Some 900)) []).

(** A policy that enables nothing, and one that enables documents only. *)
Definition nothing_enabled : gmap string bool :=
  {[ "document" := false; "pdf" := false; "all" := false ]}.

Definition documents_enabled : gmap string bool :=
  {[ "document" := true; "pdf" := false; "all" := false ]}.

(* ===================================================================== *)
(** * Frames: what a call leaves alone *)
(* ===================================================================== *)

(** Whatever its result, the call moves the state along [R]. *)
Definition steps (R : Sys -> Sys -> Prop) {A} (c : M A) : Prop :=
  forall s, R s (snd (c s)).

(** The outside calls of a download: file writes and byte transfers. *)
Definition download_event (e : Event) : Prop :=
  match e with
  | EvWriteFile _ | EvDownloadMedia _ _ _ => True
  | _ => False
  end.

(** The outside calls of an upload: forward, send, and the removal of the
    local file. *)
Definition upload_event (e : Event) : Prop :=
  match e with
  | EvForward _ _ _ | EvSend _ _ | EvUnlink _ => True
  | _ => False
  end.

(** The trace of [s'] is the trace of [s] followed by events that satisfy
    [P]. *)
Definition trace_grows (P : Event -> Prop) (s s' : Sys) : Prop :=
  exists evs, trace (world s') = (trace (world s) ++ evs)%list /\ Forall P evs.

(** From [s] to [s'] only [totalDownloaded] may have changed in the object,
    and it has not decreased; no file has left the disk; the checkpoint is
    as it was; the new events are those of a download. *)
Definition download_frame (s s' : Sys) : Prop :=
  self s' = with_totalDownloaded (totalDownloaded (self s')) (self s)
  /\ totalDownloaded (self s) <= totalDownloaded (self s')
  /\ files (world s) ⊆ files (world s')
  /\ lastSelection (world s') = lastSelection (world s)
  /\ trace_grows download_event s s'.

(** From [s] to [s'] only [totalUploaded] may have changed in the object,
    and it has not decreased; no file has come to the disk; the checkpoint
    is as it was; the new events are those of an upload. *)
Definition upload_frame (s s' : Sys) : Prop :=
  self s' = with_totalUploaded (totalUploaded (self s')) (self s)
  /\ totalUploaded (self s) <= totalUploaded (self s')
  /\ files (world s') ⊆ files (world s)
  /\ lastSelection (world s') = lastSelection (world s)
  /\ trace_grows upload_event s s'.

(** From [s] to [s'] the configuration of the object ([uploadMode],
    [targetChannelId], [downloadableFiles]), the counters [totalMessages]
    and [skippedFiles], and the channel of the checkpoint are as they
    were. *)
Definition driver_frame (s s' : Sys) : Prop :=
  uploadMode (self s') = uploadMode (self s)
  /\ targetChannelId (self s') = targetChannelId (self s)
  /\ downloadableFiles (self s') = downloadableFiles (self s)
  /\ totalMessages (self s') = totalMessages (self s)
  /\ skippedFiles (self s') = skippedFiles (self s)
  /\ sel_channelId (lastSelection (world s')) = sel_channelId (lastSelection (world s)).

(** The checkpoint of [s'] is that of [s]. *)
Definition selection_kept (s s' : Sys) : Prop :=
  lastSelection (world s') = lastSelection (world s).

(** The object of [s'] is that of [s]. *)
Definition self_kept (s s' : Sys) : Prop := self s' = self s.

(** The output folder of [s'] is that of [s]. *)
Definition folder_kept (s s' : Sys) : Prop :=
  outputFolder (self s') = outputFolder (self s).

(** The outside calls of [configureDownload]: the list of the dialogs and
    the prompts. *)
Definition config_event (e : Event) : Prop :=
  match e with
  | EvGetAllDialogs | EvSelectInput _ | EvBooleanInput => True
  | _ => False
  end.

(** One iteration of the [try] block of [retryWithBackoff]: the governor,
    then the operation. *)
Definition attempt {orc : Oracle} {A} (fn : M A) : M A :=
  do! checkRateLimit in fn.

(** The state after a call of [checkRateLimit] that does not cool. *)
Definition let_through {orc : Oracle} (s : Sys) : Sys :=
  mkSys
    (with_requestCount (requestCount (self s) + 1)
       (with_lastRequestTime (now_at (tick (world s))) (self s)))
    (mkWorld (S (tick (world s))) (files (world s)) (lastSelection (world s))
       (trace (world s))).

(** The events of a message in local mode: its invocation, the waits, and
    the outside calls of a download. *)
Definition local_event (e : Event) : Prop :=
  match e with
  | EvInvoke _ _ _ | EvWait _ | EvWriteFile _ | EvDownloadMedia _ _ _ => True
  | _ => False
  end.

(** Like [download_frame], with the events of a message in local mode. *)
Definition local_frame (s s' : Sys) : Prop :=
  self s' = with_totalDownloaded (totalDownloaded (self s')) (self s)
  /\ files (world s) ⊆ files (world s')
  /\ trace_grows local_event s s'.

(** The media carries a poll, a location, a contact or a venue: what
    [downloadMessageMedia] saves as a JSON file beside the media path. *)
Definition saved_as_json (media : Media) : bool :=
  bool_decide (is_Some (md_poll media))
  || bool_decide (is_Some (md_geo media))
  || bool_decide (is_Some (md_contact media))
  || bool_decide (is_Some (md_venue media)).

(** The suffixes of these files. *)
Definition json_suffixes : list string :=
  ["_poll.json"; "_location.json"; "_contact.json"; "_venue.json"].

(** The two files [downloadMessageMedia] saves for a web page preview. *)
Definition webpage_event {hp : Helpers} (mediaPath : string) (id : Z) (e : Event) : Prop :=
  e = EvWriteFile (sidecar mediaPath id "_webpage.txt")
  \/ e = EvDownloadMedia id (sidecar mediaPath id "_webpage_image.jpeg") MediaBranch.

(** What is sent keeps the formatting of the original message: its entities,
    and its caption as the text unless the media is a structured payload. *)
Definition keeps_formatting (message : Message) (o : UploadOptions) : Prop :=
  uo_entities o = default [] (m_entities message)
  /\ (uo_message o = caption_of message
      \/ exists media, m_media message = Some media /\ structured media = true).

(** The state in which the first page fetch of [downloadChannel] runs. *)
Definition page_start {hp : Helpers} (channelId : Z) (s : Sys) : Sys :=
  mkSys (with_outputFolder (Some (export_folder channelId)) (self s)) (world s).

(** The state after a call of the transport that the governor let through
    at once and that recorded the event [e]. *)
Definition gated_call {orc : Oracle} (e : Event) (s : Sys) : Sys :=
  mkSys (self (let_through s))
    (mkWorld (S (S (tick (world s)))) (files (world s)) (lastSelection (world s))
       (trace (world s) ++ [e])%list).

(** [progressPercentage] of [showProgress] (lines 302-304).  The quotient and
    the product are taken in double precision before [Math.round], so the
    value on the first branch is not the rounding of the exact ratio (23 of
    40 gives 57, not 58): [round_percent p t] stands for
    [Math.round((p / t) * 100)] on doubles, which is left open. *)
Definition progressPercentage (round_percent : Z -> Z -> Z) (this : DownloadChannel) : Z :=
  if totalMessages this >? 0
  then round_percent (totalProcessedMessages this) (totalMessages this)
  else 0.

(** Further sample inputs. *)

(** [c.toLowerCase()] and [s.toLowerCase()] on ASCII characters. *)
Definition lower_ascii (c : ascii) : ascii :=
  let n := nat_of_ascii c in
  if (65 <=? n)%nat && (n <=? 90)%nat then ascii_of_nat (n + 32) else c.

Fixpoint lower_string (s : string) : string :=
  match s with
  | EmptyString => EmptyString
  | String c rest => String (lower_ascii c) (lower_string rest)
  end.

(** [path.extname(p)] for a path whose last segment does not begin with a
    dot: the last segment from its last dot on, or the empty string. *)
Fixpoint extname_from (p : string) : option string :=
  match p with
  | EmptyString => None
  | String c rest =>
      match extname_from rest with
      | Some e => Some e
      | None =>
          if Ascii.eqb c "."%char then Some p
          else if Ascii.eqb c "/"%char then Some EmptyString
          else None
      end
  end.

Definition extname (p : string) : string := default EmptyString (extname_from p).

(** Helpers that give every message the media kind [document] and the media
    path [<folder>/document/<id>.<extension>], with functions of [path] and
    of [String.prototype] that compute. *)
Definition named_helpers (extension : string) : Helpers :=
  mkHelpers
    (fun m => "document")
    (fun m folder =>
       default "export" folder +:+ "/document/" +:+ Js.of_Z (m_id m) +:+ "." +:+ extension)
    extname
    (fun p => "export/document")
    (fun a b => a +:+ "/" +:+ b)
    lower_string
    (fun s => s)
    (fun c => "export/" +:+ Js.of_Z c).

(** The media of a web page preview with a photo and no address. *)
Definition preview_media : Media :=
  mkMedia (Some (mkWebpage None (Some "Title") None (Some "photo-ref")))
    None None None None None None None None None false.

Definition webpage_message (id : Z) : Message :=
  mkMessage id (Some "see this") None (Some preview_media) None 7
    false false false false false false false false false false.

(** The first two answers of [client.getMessages] (ticks 1 and 3) are a page
    of a document and a text; every later page is empty. *)
Definition one_page_oracle : Oracle :=
  mkOracle (fun n => 1700000000000 + 1000 * Z.of_nat n)
    (fun n => if (n <? 4)%nat then inr [document_message 5; text_message 6 "hi"] else inr [])
    (fun _ => None) (fun _ => inr true) (fun _ => inr true)
    (fun _ => None) (fun _ => None) (fun _ => inr 42) (fun _ => inr false)
    (fun _ => None) (fun _ => None) (fun _ => inr [42; 43]).

(** The object in upload mode towards channel 9, the media file of message 1
    on disk. *)
Definition uploading_with_file : Sys :=
  mkSys uploading (mkWorld 0 {["export/document/1.PDF"]} (mkSelection None None) []).

(* ===================================================================== *)
(** * Properties *)
(* ===================================================================== *)

Section Properties.

Context {hp : Helpers} {orc : Oracle}.

(** ** Content classifier *)

Lemma truthy_js_or (a b : JsValue) : truthy (js_or a b) = truthy a || truthy b.
Proof. unfold js_or. destruct (truthy a) eqn:Ha; [rewrite Ha|]; reflexivity. Qed.

Lemma truthy_policy_lookup (this : DownloadChannel) (policy : gmap string bool)
    (key : string) :
  downloadableFiles this = Some policy ->
  truthy (policy_lookup this key) = true
  <-> policy !! key = Some true
      \/ (policy !! key = None /\ key ∈ Js.Object_prototype_keys).
Proof.
  intros Hpolicy. unfold policy_lookup. rewrite Hpolicy.
  destruct (policy !! key) as [[|]|] eqn:Hkey; cbn.
  - split; [auto|reflexivity].
  - split; [discriminate|]. intros [[=]|[[=] _]].
  - destruct (bool_decide (key ∈ Js.Object_prototype_keys)) eqn:Hin; cbn.
    + apply bool_decide_eq_true in Hin. split; [auto|reflexivity].
    + apply bool_decide_eq_false in Hin. split; [discriminate|].
      intros [[=]|[_ Hyes]]. contradiction.
Qed.

Lemma all_not_inherited : "all" ∉ Js.Object_prototype_keys.
Proof. eapply bool_decide_eq_false_1. vm_compute. reflexivity. Qed.

Lemma policy_lookup_own (this : DownloadChannel) (policy : gmap string bool)
    (key : string) :
  downloadableFiles this = Some policy ->
  key ∉ Js.Object_prototype_keys ->
  policy_lookup this key
  = match policy !! key with Some b => JsBool b | None => JsUndefined end.
Proof.
  intros Hpolicy Hkey. unfold policy_lookup. rewrite Hpolicy.
  destruct (policy !! key); [reflexivity|].
  rewrite bool_decide_eq_false_2 by exact Hkey. reflexivity.
Qed.

Lemma hasContent_media (message : Message) :
  is_Some (m_media message) -> hasContent message = true.
Proof.
  intros Hm. unfold hasContent.
  rewrite (bool_decide_eq_true_2 _ Hm).
  rewrite orb_true_r. reflexivity.
Qed.

(** C5 (what the code does): [shouldProcess] returns [true] for a message
    with non-empty text and no attachment, whatever the policy, and [false]
    for a message without content.  For a message with an attachment the
    value is [policy[kind] || policy[extension] || policy.all], where the
    extension is the lowercased extension of the media path without its dot
    and every lookup falls back on [Object.prototype]: the value is truthy
    iff the kind, the extension or [all] is an own [true] or, not being an
    own property, a name of [Object.prototype].  When neither kind nor
    extension is such a name, the value is [true] iff the policy enables the
    kind, the extension or [all], and [false] when none is enabled and [all]
    is [false]: what the claim says.  When the extension is such a name
    (as for [x.constructor]) and not an own property, and the kind is
    disabled, the value is the inherited member and the message is kept,
    whatever [all] says. *)
Theorem shouldProcess_policy (this : DownloadChannel) (message : Message) :
  let kind := getMediaType message in
  let extension :=
    Js.remove_first_dot
      (toLowerCase (path_extname (getMediaPath message (outputFolder this)))) in
  (Js.truthy_str (m_message message) = true -> m_media message = None ->
   shouldProcess this message = JsBool true)
  /\ (hasContent message = false -> shouldProcess this message = JsBool false)
  /\ (forall policy : gmap string bool,
        is_Some (m_media message) ->
        downloadableFiles this = Some policy ->
        (truthy (shouldProcess this message) = true
         <-> (policy !! kind = Some true
              \/ (policy !! kind = None /\ kind ∈ Js.Object_prototype_keys))
             \/ (policy !! extension = Some true
                 \/ (policy !! extension = None /\ extension ∈ Js.Object_prototype_keys))
             \/ policy !! "all" = Some true)
        /\ (kind ∉ Js.Object_prototype_keys -> extension ∉ Js.Object_prototype_keys ->
            (shouldProcess this message = JsBool true
             <-> policy !! kind = Some true \/ policy !! extension = Some true
                 \/ policy !! "all" = Some true)
            /\ (policy !! kind <> Some true -> policy !! extension <> Some true ->
                policy !! "all" = Some false ->
                shouldProcess this message = JsBool false))
        /\ (policy !! kind = Some false -> policy !! extension = None ->
            extension ∈ Js.Object_prototype_keys ->
            shouldProcess this message = JsInherited extension)).
Proof.
  cbv zeta.
  assert (Hmedia_case : is_Some (m_media message) ->
            shouldProcess this message
            = js_or (js_or (policy_lookup this (getMediaType message))
                           (policy_lookup this
                              (Js.remove_first_dot
                                 (toLowerCase
                                    (path_extname
                                       (getMediaPath message (outputFolder this)))))))
                    (policy_lookup this "all")).
  { intros Hsome. unfold shouldProcess, media_extension.
    rewrite (hasContent_media message Hsome).
    rewrite (bool_decide_eq_true_2 _ Hsome). destruct Hsome as [media ->].
    cbn [negb]. rewrite andb_false_r. reflexivity. }
  split; [|split].
  - intros Htext Hnone. unfold shouldProcess, hasContent.
    rewrite Htext, Hnone. reflexivity.
  - intros Hno. unfold shouldProcess. rewrite Hno. reflexivity.
  - intros policy Hsome Hpolicy. rewrite (Hmedia_case Hsome).
    set (kind := getMediaType message).
    set (extension := Js.remove_first_dot _).
    split; [|split].
    + rewrite !truthy_js_or, !orb_true_iff, !(truthy_policy_lookup this policy) by exact Hpolicy.
      assert (Hall := all_not_inherited).
      tauto.
    + intros Hkind Hext.
      assert (Hall := all_not_inherited).
      rewrite !(policy_lookup_own this policy) by assumption.
      destruct (policy !! kind) as [[|]|], (policy !! extension) as [[|]|],
        (policy !! "all") as [[|]|]; cbn; split; try split; try tauto; try congruence;
        try (intros [?|[?|?]]; congruence).
    + intros Hkind Hext Hin. unfold policy_lookup. rewrite Hpolicy, Hkind, Hext.
      rewrite (bool_decide_eq_true_2 _ Hin). reflexivity.
Qed.

(** ** Rate governor *)

(** One gated call, whatever the state: the call returns, the time of the
    call is stored, and either the gate cools (one wait of 60 s, the counter
    restarts at this call) or the call is counted. *)
Lemma checkRateLimit_run (s : Sys) :
  checkRateLimit s =
  (Ok tt,
   mkSys
     (with_requestCount ((if cooling_condition s then 0 else requestCount (self s)) + 1)
        (with_lastRequestTime (now_at (tick (world s))) (self s)))
     (mkWorld (S (tick (world s))) (files (world s)) (lastSelection (world s))
        (trace (world s) ++ (if cooling_condition s then [EvWait 60000] else []))%list)).
Proof.
  unfold checkRateLimit, cooling_condition, date_now, next_tick, get_self, wait, emit,
    modify_self, modify_world, bind, ret.
  destruct s as [d w]. simpl.
  destruct ((requestCount d >? 15) && (now_at (tick w) - lastRequestTime d <? 60000));
    simpl; [reflexivity|].
  rewrite app_nil_r. reflexivity.
Qed.

(** C3 (amended): the gate never rejects; it cools, by a single wait of
    60 s after which the counter restarts, exactly when the counter of gated
    calls since the last cooling exceeds 15 and the previous gated call was
    made less than 60 s ago; otherwise it waits for nothing and counts the
    call. *)
Theorem checkRateLimit_cools_iff (s : Sys) :
  let now := now_at (tick (world s)) in
  let s' := snd (checkRateLimit s) in
  fst (checkRateLimit s) = Ok tt
  /\ lastRequestTime (self s') = now
  /\ ((requestCount (self s) > 15 /\ now - lastRequestTime (self s) < 60000) ->
      trace (world s') = (trace (world s) ++ [EvWait 60000])%list
      /\ requestCount (self s') = 1)
  /\ (~ (requestCount (self s) > 15 /\ now - lastRequestTime (self s) < 60000) ->
      trace (world s') = trace (world s)
      /\ requestCount (self s') = requestCount (self s) + 1).
Proof.
  intros now s'. subst s'. rewrite checkRateLimit_run. simpl.
  assert (Hc : cooling_condition s = true <->
               requestCount (self s) > 15 /\ now - lastRequestTime (self s) < 60000).
  { unfold cooling_condition. fold now. rewrite andb_true_iff.
    rewrite Z.gtb_gt, Z.ltb_lt. lia. }
  split; [reflexivity|]. split; [reflexivity|]. split.
  - intros Hcool. apply Hc in Hcool. rewrite Hcool. split; reflexivity.
  - intros Hwarm. destruct (cooling_condition s).
    + exfalso. apply Hwarm, Hc. reflexivity.
    + split; [apply app_nil_r|reflexivity].
Qed.

(** ** Checkpoint *)

Lemma number_differs_stored (A B : Z) :
  number_differs (Some A) B = negb (A =? B).
Proof. reflexivity. Qed.

(** Every run of [configureDownload]: what it returns and leaves when it
    returns, and what it leaves when an outside call rejects. *)
Lemma configureDownload_cases (options : Options) (s : Sys) :
  match configureDownload options s with
  | (Ok (channelId, off), s') =>
      (forall c, opt_channelId options = Some c -> Js.truthy_num c = true -> channelId = c)
      /\ off = (if number_differs (sel_channelId (lastSelection (world s))) channelId then 0
                else default 0 (sel_messageOffsetId (lastSelection (world s))))
      /\ lastSelection (world s') = mkSelection (Some channelId) (Some off)
      /\ (exists mode target,
            self s'
            = with_downloadableFiles
                (Some (default default_downloadableFiles (opt_downloadableFiles options)))
                (with_targetChannelId target (with_uploadMode mode (self s)))
            /\ (mode = false -> target = targetChannelId (self s))
            /\ (mode = true -> is_Some target))
      /\ files (world s') = files (world s)
      /\ trace_grows config_event s s'
  | (Throw e, s') =>
      lastSelection (world s') = lastSelection (world s)
      /\ (exists mode, self s' = with_uploadMode mode (self s))
      /\ files (world s') = files (world s)
      /\ trace_grows config_event s s'
  | (OutOfFuel, _) => False
  end.
Proof.
  destruct s as [d w]. destruct d, w.
  unfold configureDownload, selectSource, getAllDialogs, selectInput, booleanInput,
    getLastSelection, updateLastSelection, next_tick, get_world, modify_self, modify_world,
    emit, throw, bind, ret.
  destruct (opt_channelId options) as [c|] eqn:Hc; [destruct (Js.truthy_num c) eqn:Ht|];
    destruct (opt_downloadableFiles options) as [policy|];
    cbn;
    repeat (match goal with
            | |- context [getAllDialogs_at ?n] => destruct (getAllDialogs_at n)
            | |- context [selectInput_at ?n] => destruct (selectInput_at n)
            | |- context [booleanInput_at ?n] => destruct (booleanInput_at n) as [?|[|]]
            end; cbn).
  all: repeat match goal with
              | |- _ /\ _ => split
              | |- forall _, _ => intro
              | |- exists mode target, _ = _ /\ _ =>
                  first [ exists false; eexists; split; [reflexivity|]
                        | exists true; eexists; split; [reflexivity|] ]
              | |- exists mode, _ = with_uploadMode _ _ => eexists; reflexivity
              | |- trace_grows _ _ _ =>
                  eexists; rewrite <- ?app_assoc; split; [cbn; reflexivity|];
                  repeat constructor
              | |- _ = _ => first [reflexivity | congruence | discriminate]
              | |- is_Some _ => eexists; reflexivity
              | H : true = false |- _ => discriminate H
              | H : false = true |- _ => discriminate H
              end.
Qed.

Lemma configureDownload_returns (options : Options) (s : Sys) :
  (forall n, exists dialogs, getAllDialogs_at n = inr dialogs) ->
  (forall n, exists choice, selectInput_at n = inr choice) ->
  (forall n, exists answer, booleanInput_at n = inr answer) ->
  exists r s', configureDownload options s = (Ok r, s').
Proof.
  intros Hdialogs Hselect Hboolean.
  unfold configureDownload, selectSource, getAllDialogs, selectInput, booleanInput,
    getLastSelection, updateLastSelection, next_tick, get_world, modify_self, modify_world,
    emit, throw, bind, ret.
  destruct (opt_channelId options) as [c|]; [destruct (Js.truthy_num c)|];
    cbn;
    repeat (match goal with
            | |- context [getAllDialogs_at ?n] =>
                destruct (Hdialogs n) as [? ->]
            | |- context [selectInput_at ?n] =>
                destruct (Hselect n) as [? ->]
            | |- context [booleanInput_at ?n] =>
                destruct (Hboolean n) as [[|] ->]
            end; cbn);
    eexists _, _; reflexivity.
Qed.

(** C8: with a stored checkpoint of channel [A]: [configureDownload] returns
    when the list of the dialogs and the prompts it needs answer; whenever
    it returns, it returns a channel [B] (the configured one when there is
    one) and an offset that is 0 when [A <> B] and the stored offset (0 when
    none is stored) when [A = B], and the checkpoint store then holds that
    channel and that offset; when an outside call rejects, the checkpoint is
    as it was. *)
Theorem configureDownload_channel_switch (options : Options) (s : Sys) (A : Z) :
  sel_channelId (lastSelection (world s)) = Some A ->
  ((forall n, exists dialogs, getAllDialogs_at n = inr dialogs) ->
   (forall n, exists choice, selectInput_at n = inr choice) ->
   (forall n, exists answer, booleanInput_at n = inr answer) ->
   exists B off s', configureDownload options s = (Ok (B, off), s'))
  /\ (forall (B off : Z) (s' : Sys),
        configureDownload options s = (Ok (B, off), s') ->
        (forall c, opt_channelId options = Some c -> c <> 0 -> B = c)
        /\ lastSelection (world s') = mkSelection (Some B) (Some off)
        /\ (A <> B -> off = 0)
        /\ (A = B -> off = default 0 (sel_messageOffsetId (lastSelection (world s)))))
  /\ (forall (e : Error) (s' : Sys),
        configureDownload options s = (Throw e, s') ->
        lastSelection (world s') = lastSelection (world s)).
Proof.
  intros HA. split; [|split].
  - intros Hdialogs Hselect Hboolean.
    destruct (configureDownload_returns options s Hdialogs Hselect Hboolean)
      as ([B off] & s' & Hrun).
    exists B, off, s'. exact Hrun.
  - intros B off s' Hrun.
    pose proof (configureDownload_cases options s) as Hcases. rewrite Hrun in Hcases.
    destruct Hcases as (Hconfigured & Hoff & Hstore & _).
    rewrite HA, number_differs_stored in Hoff.
    split; [|split; [exact Hstore|split]].
    + intros c Hc Hne. apply (Hconfigured c Hc).
      unfold Js.truthy_num. apply negb_true_iff, Z.eqb_neq. exact Hne.
    + intros Hne. rewrite Hoff. apply Z.eqb_neq in Hne. rewrite Hne. reflexivity.
    + intros Heq. rewrite Hoff. apply Z.eqb_eq in Heq. rewrite Heq. reflexivity.
  - intros e s' Hrun.
    pose proof (configureDownload_cases options s) as Hcases. rewrite Hrun in Hcases.
    apply Hcases.
Qed.

(** ** Rules for [reaches], [total] and [safe] *)

Section Invariants.

Variable P : Event -> Prop.
Variable K : DownloadChannel -> DownloadChannel -> Prop.
Hypothesis K_refl : forall d, K d d.
Hypothesis K_trans : forall a b c, K a b -> K b c -> K a c.

Lemma reach_refl (s : Sys) : reach P K s s.
Proof.
  split; [apply K_refl|]. exists []. rewrite app_nil_r. split; [reflexivity|constructor].
Qed.

Lemma reach_trans (a b c : Sys) : reach P K a b -> reach P K b c -> reach P K a c.
Proof.
  intros [Hk1 (e1 & Ht1 & Hp1)] [Hk2 (e2 & Ht2 & Hp2)]. split.
  - eapply K_trans; eassumption.
  - exists (e1 ++ e2)%list. rewrite Ht2, Ht1, app_assoc. split; [reflexivity|].
    apply Forall_app. split; assumption.
Qed.

Lemma reaches_ret {A} (a : A) : reaches P K (ret a).
Proof. intros s. apply reach_refl. Qed.

Lemma reaches_throw {A} (e : Error) : reaches P K (@throw A e).
Proof. intros s. apply reach_refl. Qed.

Lemma reaches_bind {A B} (c : M A) (k : A -> M B) :
  reaches P K c -> (forall a, reaches P K (k a)) -> reaches P K (bind c k).
Proof.
  intros Hc Hk s. unfold bind. specialize (Hc s).
  destruct (c s) as [[a| e |] s1]; simpl in *; try exact Hc.
  eapply reach_trans; [exact Hc|apply Hk].
Qed.

Lemma reaches_try_catch {A} (c : M A) (h : Error -> M A) :
  reaches P K c -> (forall e, reaches P K (h e)) -> reaches P K (try_catch c h).
Proof.
  intros Hc Hh s. unfold try_catch. specialize (Hc s).
  destruct (c s) as [[a| e |] s1]; simpl in *; try exact Hc.
  eapply reach_trans; [exact Hc|apply Hh].
Qed.

Lemma reaches_get_self : reaches P K get_self.
Proof. intros s. apply reach_refl. Qed.

Lemma reaches_get_world : reaches P K get_world.
Proof. intros s. apply reach_refl. Qed.

Lemma reaches_modify_self (f : DownloadChannel -> DownloadChannel) :
  (forall d, K d (f d)) -> reaches P K (modify_self f).
Proof.
  intros Hf s. split; [apply Hf|]. exists []. simpl. rewrite app_nil_r.
  split; [reflexivity|constructor].
Qed.

Lemma reaches_same_trace (f : World -> World) :
  (forall w, trace (f w) = trace w) -> reaches P K (modify_world f).
Proof.
  intros Hf s. split; [apply K_refl|]. exists []. simpl. rewrite app_nil_r, Hf.
  split; [reflexivity|constructor].
Qed.

Lemma reaches_next_tick : reaches P K next_tick.
Proof.
  intros s. split; [apply K_refl|]. exists []. simpl. rewrite app_nil_r.
  split; [reflexivity|constructor].
Qed.

Lemma reaches_set_files (f : gset string -> gset string) : reaches P K (set_files f).
Proof. apply reaches_same_trace. reflexivity. Qed.

Lemma reaches_emit (e : Event) : P e -> reaches P K (emit e).
Proof.
  intros He s. split; [apply K_refl|]. exists [e]. simpl.
  split; [reflexivity|]. constructor; [exact He|constructor].
Qed.

Lemma total_ret {A} (a : A) : total (ret a).
Proof. intros s. discriminate. Qed.

Lemma total_throw {A} (e : Error) : total (@throw A e).
Proof. intros s. discriminate. Qed.

Lemma safe_total {A} (c : M A) : safe c -> total c.
Proof. intros Hc s. destruct (Hc s) as [a Ha]. rewrite Ha. discriminate. Qed.

Lemma total_bind {A B} (c : M A) (k : A -> M B) :
  total c -> (forall a, total (k a)) -> total (bind c k).
Proof.
  intros Hc Hk s. unfold bind. specialize (Hc s).
  destruct (c s) as [[a| e |] s1]; simpl in *; [apply Hk|discriminate|contradiction].
Qed.

Lemma total_try_catch {A} (c : M A) (h : Error -> M A) :
  total c -> (forall e, total (h e)) -> total (try_catch c h).
Proof.
  intros Hc Hh s. unfold try_catch. specialize (Hc s).
  destruct (c s) as [[a| e |] s1]; simpl in *; [discriminate|apply Hh|contradiction].
Qed.

Lemma safe_ret {A} (a : A) : safe (ret a).
Proof. intros s. exists a. reflexivity. Qed.

Lemma safe_bind {A B} (c : M A) (k : A -> M B) :
  safe c -> (forall a, safe (k a)) -> safe (bind c k).
Proof.
  intros Hc Hk s. unfold bind. destruct (Hc s) as [a Ha].
  destruct (c s) as [r s1]. simpl in Ha. subst r. apply Hk.
Qed.

(** A [try] whose handler throws nothing throws nothing. *)
Lemma safe_try_catch {A} (c : M A) (h : Error -> M A) :
  total c -> (forall e, safe (h e)) -> safe (try_catch c h).
Proof.
  intros Hc Hh s. unfold try_catch. specialize (Hc s).
  destruct (c s) as [[a| e |] s1]; simpl in *; [eexists; reflexivity|apply Hh|contradiction].
Qed.

Lemma safe_get_self : safe get_self.
Proof. intros s. eexists. reflexivity. Qed.

Lemma safe_get_world : safe get_world.
Proof. intros s. eexists. reflexivity. Qed.

Lemma safe_modify_self (f : DownloadChannel -> DownloadChannel) : safe (modify_self f).
Proof. intros s. eexists. reflexivity. Qed.

Lemma safe_modify_world (f : World -> World) : safe (modify_world f).
Proof. intros s. eexists. reflexivity. Qed.

Lemma safe_next_tick : safe next_tick.
Proof. intros s. eexists. reflexivity. Qed.

(** *** The functions of the pipeline *)

Hypothesis P_quiet : forall e, quiet e -> P e.
Hypothesis P_invoke : forall id index total, P (EvInvoke id index total).
Hypothesis P_await : forall i n, P (EvAwaitBatch i n).
Hypothesis K_outputFolder : forall v d, K d (with_outputFolder v d).
Hypothesis K_requestCount : forall v d, K d (with_requestCount v d).
Hypothesis K_lastRequestTime : forall v d, K d (with_lastRequestTime v d).
Hypothesis K_totalDownloaded :
  forall d, K d (with_totalDownloaded (totalDownloaded d + 1) d).
Hypothesis K_totalUploaded :
  forall d, K d (with_totalUploaded (totalUploaded d + 1) d).
Hypothesis K_totalProcessed :
  forall d, K d (with_totalProcessedMessages (totalProcessedMessages d + 1) d).

Create HintDb pipeline.

Hint Resolve safe_ret safe_get_self safe_get_world safe_next_tick safe_modify_self
  safe_modify_world total_ret total_throw : pipeline.

Ltac mrun :=
  repeat match goal with
  | |- forall _, _ => intro
  | |- reaches _ _ (bind _ _) => apply reaches_bind
  | |- reaches _ _ (try_catch _ _) => apply reaches_try_catch
  | |- reaches _ _ (ret _) => apply reaches_ret
  | |- reaches _ _ (throw _) => apply reaches_throw
  | |- reaches _ _ get_self => apply reaches_get_self
  | |- reaches _ _ get_world => apply reaches_get_world
  | |- reaches _ _ next_tick => apply reaches_next_tick
  | |- reaches _ _ (set_files _) => apply reaches_set_files
  | |- reaches _ _ (emit _) =>
      apply reaches_emit; first [apply P_quiet; exact I | apply P_invoke | apply P_await]
  | |- reaches _ _ (modify_self _) => apply reaches_modify_self; intro; solve [auto]
  | |- total (bind _ _) => apply total_bind
  | |- total (try_catch _ _) => apply total_try_catch
  | |- total (ret _) => apply total_ret
  | |- total (throw _) => apply total_throw
  | |- safe (bind _ _) => apply safe_bind
  | |- safe (ret _) => apply safe_ret
  | |- safe get_self => apply safe_get_self
  | |- safe get_world => apply safe_get_world
  | |- safe next_tick => apply safe_next_tick
  | |- safe (modify_self _) => apply safe_modify_self
  | |- safe (modify_world _) => apply safe_modify_world
  | |- safe (try_catch _ _) => apply safe_try_catch
  | |- reaches _ _ (if ?b then _ else _) => destruct b
  | |- total (if ?b then _ else _) => destruct b
  | |- safe (if ?b then _ else _) => destruct b
  | |- reaches _ _ (match ?x with _ => _ end) => destruct x
  | |- total (match ?x with _ => _ end) => destruct x
  | |- safe (match ?x with _ => _ end) => destruct x
  | |- total _ => solve [apply safe_total; auto with pipeline]
  | |- _ => solve [auto with pipeline]
  end.

Lemma safe_emit (e : Event) : safe (emit e).
Proof. unfold emit. mrun. Qed.

Lemma safe_set_files (f : gset string -> gset string) : safe (set_files f).
Proof. unfold set_files. mrun. Qed.

Lemma safe_wait (ms : Z) : safe (wait ms).
Proof. apply safe_emit. Qed.

Lemma reaches_wait (ms : Z) : reaches P K (wait ms).
Proof. unfold wait. mrun. Qed.

Hint Resolve safe_emit safe_set_files safe_wait reaches_wait : pipeline.

Lemma reaches_date_now : reaches P K date_now.
Proof. unfold date_now. mrun. Qed.

Lemma safe_date_now : safe date_now.
Proof. unfold date_now. mrun. Qed.

Lemma reaches_fs_existsSync (p : string) : reaches P K (fs_existsSync p).
Proof. unfold fs_existsSync. mrun. Qed.

Lemma safe_fs_existsSync (p : string) : safe (fs_existsSync p).
Proof. unfold fs_existsSync. mrun. Qed.

Lemma reaches_fs_writeFileSync (p : string) : reaches P K (fs_writeFileSync p).
Proof. unfold fs_writeFileSync. mrun. Qed.

Lemma total_fs_writeFileSync (p : string) : total (fs_writeFileSync p).
Proof. unfold fs_writeFileSync. mrun. Qed.

Lemma reaches_fs_unlinkSync (p : string) : reaches P K (fs_unlinkSync p).
Proof. unfold fs_unlinkSync. mrun. Qed.

Lemma total_fs_unlinkSync (p : string) : total (fs_unlinkSync p).
Proof. unfold fs_unlinkSync. mrun. Qed.

Lemma reaches_client_getMessages (channelId limit offsetId : Z) :
  reaches P K (client_getMessages channelId limit offsetId).
Proof. unfold client_getMessages. mrun. Qed.

Lemma reaches_client_getMessages_ids (channelId : Z) (ids : list Z) :
  reaches P K (client_getMessages_ids channelId ids).
Proof. unfold client_getMessages_ids. mrun. Qed.

Lemma reaches_client_downloadMedia (id : Z) (outputFile : string) :
  reaches P K (client_downloadMedia id outputFile MediaBranch).
Proof. unfold client_downloadMedia. mrun. Qed.

Lemma total_client_downloadMedia (id : Z) (outputFile : string) (b : TransferBranch) :
  total (client_downloadMedia id outputFile b).
Proof. unfold client_downloadMedia. mrun. Qed.

Lemma reaches_client_forwardMessages (target id peer : Z) :
  reaches P K (client_forwardMessages target id peer).
Proof. unfold client_forwardMessages. mrun. Qed.

Lemma total_client_forwardMessages (target id peer : Z) :
  total (client_forwardMessages target id peer).
Proof. unfold client_forwardMessages. mrun. Qed.

Lemma reaches_client_sendMessage (target : Z) (options : UploadOptions) :
  reaches P K (client_sendMessage target options).
Proof. unfold client_sendMessage. mrun. Qed.

Lemma total_client_sendMessage (target : Z) (options : UploadOptions) :
  total (client_sendMessage target options).
Proof. unfold client_sendMessage. mrun. Qed.

Hint Resolve reaches_date_now safe_date_now reaches_fs_existsSync safe_fs_existsSync
  reaches_fs_writeFileSync total_fs_writeFileSync reaches_fs_unlinkSync
  total_fs_unlinkSync reaches_client_getMessages reaches_client_getMessages_ids
  reaches_client_downloadMedia total_client_downloadMedia
  reaches_client_forwardMessages total_client_forwardMessages
  reaches_client_sendMessage total_client_sendMessage : pipeline.

Lemma reaches_getMessages (client : bool) (channelId limit offsetId : Z) :
  reaches P K (getMessages client channelId limit offsetId).
Proof. unfold getMessages. mrun. Qed.

Lemma reaches_getMessageDetail (client : bool) (channelId : Z) (ids : list Z) :
  reaches P K (getMessageDetail client channelId ids).
Proof. unfold getMessageDetail. mrun. Qed.

Lemma reaches_downloadMedia_rest (message : Message) (media : Media) (mediaPath : string) :
  reaches P K (downloadMedia_rest message media mediaPath).
Proof. unfold downloadMedia_rest. mrun. Qed.

Lemma total_downloadMedia_rest (message : Message) (media : Media) (mediaPath : string) :
  total (downloadMedia_rest message media mediaPath).
Proof. unfold downloadMedia_rest. mrun. Qed.

Hint Resolve reaches_getMessages reaches_getMessageDetail reaches_downloadMedia_rest
  total_downloadMedia_rest : pipeline.

(** With a [media] field, [downloadMessageMedia] stays clear of the sticker
    branch. *)
Lemma reaches_downloadMessageMedia (client : bool) (message : Message) (mediaPath : string) :
  is_Some (m_media message) ->
  reaches P K (downloadMessageMedia client message mediaPath).
Proof.
  intros [media Hmedia]. unfold downloadMessageMedia. rewrite Hmedia. mrun.
Qed.

Lemma safe_downloadMessageMedia (client : bool) (message : Message) (mediaPath : string) :
  safe (downloadMessageMedia client message mediaPath).
Proof. unfold downloadMessageMedia. mrun. Qed.

Lemma reaches_localFileAvailable (mediaPath : option string) :
  reaches P K (localFileAvailable mediaPath).
Proof. unfold localFileAvailable. mrun. Qed.

Lemma safe_localFileAvailable (mediaPath : option string) :
  safe (localFileAvailable mediaPath).
Proof. unfold localFileAvailable. mrun. Qed.

Hint Resolve safe_downloadMessageMedia reaches_localFileAvailable
  safe_localFileAvailable : pipeline.

Lemma reaches_uploadMessageToChannel (client : bool) (target : Z) (message : Message)
    (mediaPath : option string) :
  reaches P K (uploadMessageToChannel client target message mediaPath).
Proof. unfold uploadMessageToChannel. mrun. Qed.

Lemma total_uploadMessageToChannel (client : bool) (target : Z) (message : Message)
    (mediaPath : option string) :
  total (uploadMessageToChannel client target message mediaPath).
Proof. unfold uploadMessageToChannel. mrun. Qed.

Lemma reaches_checkRateLimit : reaches P K checkRateLimit.
Proof. unfold checkRateLimit. mrun. Qed.

Lemma reaches_checkFileExist (message : Message) (folder : option string) :
  reaches P K (checkFileExist message folder).
Proof. unfold checkFileExist. mrun. Qed.

Lemma safe_checkFileExist (message : Message) (folder : option string) :
  safe (checkFileExist message folder).
Proof. unfold checkFileExist. mrun. Qed.

Hint Resolve reaches_uploadMessageToChannel total_uploadMessageToChannel
  reaches_checkRateLimit reaches_checkFileExist safe_checkFileExist : pipeline.

Lemma reaches_downloadMessage (client : bool) (message : Message) :
  reaches P K (downloadMessage client message).
Proof.
  unfold downloadMessage. destruct (m_media message) as [media|] eqn:Hmedia; mrun.
  apply reaches_downloadMessageMedia. rewrite Hmedia. eexists. reflexivity.
Qed.

Lemma safe_downloadMessage (client : bool) (message : Message) :
  safe (downloadMessage client message).
Proof. unfold downloadMessage. mrun. Qed.

Lemma reaches_uploadMessage (client : bool) (message : Message) (mediaPath : option string) :
  reaches P K (uploadMessage client message mediaPath).
Proof. unfold uploadMessage. mrun. Qed.

Lemma safe_uploadMessage (client : bool) (message : Message) (mediaPath : option string) :
  safe (uploadMessage client message mediaPath).
Proof. unfold uploadMessage. mrun. Qed.

Hint Resolve reaches_downloadMessage safe_downloadMessage reaches_uploadMessage
  safe_uploadMessage : pipeline.

Lemma reaches_processMessage (client : bool) (message : Message) (index total : nat) :
  reaches P K (processMessage client message index total).
Proof. unfold processMessage. mrun. Qed.

Lemma safe_processMessage (client : bool) (message : Message) (index total : nat) :
  safe (processMessage client message index total).
Proof. unfold processMessage. mrun. Qed.

Hint Resolve reaches_processMessage safe_processMessage : pipeline.

Lemma reaches_retry_loop {A} (fn : M A) (retries i left : nat) :
  reaches P K fn -> reaches P K (retry_loop fn retries i left).
Proof.
  intros Hfn. revert i. induction left as [|left IH]; intros i; simpl; mrun.
Qed.

Lemma reaches_retryWithBackoff {A} (fn : M A) :
  reaches P K fn -> reaches P K (retryWithBackoff fn).
Proof. apply reaches_retry_loop. Qed.

Lemma reaches_fs_mkdirSync (p : string) : reaches P K (fs_mkdirSync p).
Proof. unfold fs_mkdirSync. mrun. Qed.

Lemma reaches_appendToJSONArrayFile (filePath : string) (ids : list Z) :
  reaches P K (appendToJSONArrayFile filePath ids).
Proof. unfold appendToJSONArrayFile. mrun. Qed.

Hint Resolve reaches_fs_mkdirSync reaches_appendToJSONArrayFile : pipeline.

Lemma reaches_recordMessages (messages : list Message) :
  reaches P K (recordMessages messages).
Proof. unfold recordMessages. mrun. Qed.

Lemma reaches_showProgress (n : nat) : reaches P K (showProgress n).
Proof. unfold showProgress. mrun. Qed.

Lemma reaches_updateLastSelection (off ch : option Z) :
  reaches P K (updateLastSelection off ch).
Proof. unfold updateLastSelection. apply reaches_same_trace. reflexivity. Qed.

Hint Resolve reaches_retryWithBackoff reaches_recordMessages reaches_showProgress
  reaches_updateLastSelection : pipeline.

Lemma reaches_invokeBatch (client : bool) (batch : list Message) (index total : nat) :
  reaches P K (invokeBatch client batch index total).
Proof.
  revert index. induction batch as [|msg rest IH]; intros index; simpl; mrun.
Qed.

Lemma safe_invokeBatch (client : bool) (batch : list Message) (index total : nat) :
  safe (invokeBatch client batch index total).
Proof.
  revert index. induction batch as [|msg rest IH]; intros index; simpl; mrun.
Qed.

Hint Resolve reaches_invokeBatch safe_invokeBatch : pipeline.

Lemma reaches_startBatches (client : bool) (messagesToProcess : list Message) (i : nat) :
  reaches P K (startBatches client messagesToProcess i).
Proof.
  funelim (startBatches client messagesToProcess i); mrun.
  match goal with
  | IH : list Z -> Sys -> reaches _ _ _ |- _ => intros s0; exact (IH [] s0 s0)
  end.
Qed.

Lemma safe_startBatches (client : bool) (messagesToProcess : list Message) (i : nat) :
  safe (startBatches client messagesToProcess i).
Proof.
  funelim (startBatches client messagesToProcess i); mrun.
  match goal with
  | IH : list Z -> Sys -> safe _ |- _ => intros s0; exact (IH [] s0 s0)
  end.
Qed.

Lemma reaches_awaitBatches (processPromises : list (list Z)) (i n : nat) :
  reaches P K (awaitBatches processPromises i n).
Proof.
  revert i. induction processPromises as [|p rest IH]; intros i; simpl; mrun.
Qed.

Lemma safe_awaitBatches (processPromises : list (list Z)) (i n : nat) :
  safe (awaitBatches processPromises i n).
Proof.
  revert i. induction processPromises as [|p rest IH]; intros i; simpl; mrun.
Qed.

Hint Resolve reaches_startBatches safe_startBatches reaches_awaitBatches
  safe_awaitBatches : pipeline.

Lemma reaches_runBatches (client : bool) (messagesToProcess : list Message) :
  reaches P K (runBatches client messagesToProcess).
Proof. unfold runBatches. mrun. Qed.

Lemma safe_runBatches (client : bool) (messagesToProcess : list Message) :
  safe (runBatches client messagesToProcess).
Proof. unfold runBatches. mrun. Qed.

Hint Resolve reaches_runBatches safe_runBatches : pipeline.

Lemma reaches_downloadChannel_body (recurse : Z -> M unit)
    (client : bool) (channelId offsetMsgId : Z) :
  (forall o, reaches P K (recurse o)) ->
  reaches P K (downloadChannel_body recurse client channelId offsetMsgId).
Proof. intros Hrec. unfold downloadChannel_body. mrun. Qed.

Lemma reaches_downloadChannel (fuel : nat) (client : bool) (channelId offsetMsgId : Z) :
  reaches P K (downloadChannel fuel client channelId offsetMsgId).
Proof.
  revert offsetMsgId. induction fuel as [|fuel IH]; intros offsetMsgId.
  - intros s. apply reach_refl.
  - cbn [downloadChannel]. apply reaches_try_catch.
    + apply reaches_downloadChannel_body. exact IH.
    + mrun.
Qed.

(** *** Counting the processed messages *)

Hypothesis K_same :
  forall d d', K d d' -> totalProcessedMessages d' = totalProcessedMessages d.

Lemma adds_zero {A} (c : M A) : safe c -> reaches P K c -> adds 0 c.
Proof.
  intros Hs Hr s. split; [apply Hs|].
  destruct (Hr s) as [Hk _]. rewrite (K_same _ _ Hk). lia.
Qed.

Lemma adds_bind {A B} (n m : Z) (c : M A) (k : A -> M B) :
  adds n c -> (forall a, adds m (k a)) -> adds (n + m) (bind c k).
Proof.
  intros Hc Hk s. unfold bind. destruct (Hc s) as [[a Ha] Hn].
  destruct (c s) as [r s1]. simpl in Ha, Hn. subst r.
  destruct (Hk a s1) as [Hok Hm]. split; [exact Hok|]. rewrite Hm, Hn. lia.
Qed.

Lemma adds_after {A B} (n : Z) (c : M A) (k : A -> M B) :
  safe c -> reaches P K c -> (forall a, adds n (k a)) -> adds n (bind c k).
Proof.
  intros Hs Hr Hk. replace n with (0 + n) by lia.
  apply adds_bind; [apply adds_zero; assumption|exact Hk].
Qed.

Lemma adds_try_catch {A} (n : Z) (c : M A) (h : Error -> M A) :
  adds n c -> adds n (try_catch c h).
Proof.
  intros Hc s. unfold try_catch. destruct (Hc s) as [[a Ha] Hn].
  destruct (c s) as [r s1]. simpl in Ha, Hn. subst r. split; [eexists; reflexivity|exact Hn].
Qed.

Lemma adds_count :
  adds 1 (modify_self
            (fun this => with_totalProcessedMessages (totalProcessedMessages this + 1) this)).
Proof. intros s. split; [eexists; reflexivity|reflexivity]. Qed.

Lemma adds_processMessage (client : bool) (message : Message) (index total : nat) :
  adds 1 (processMessage client message index total).
Proof.
  unfold processMessage. apply adds_try_catch.
  repeat (apply adds_after; [mrun|mrun|intros ?]).
  apply adds_count.
Qed.

Lemma adds_invokeBatch (client : bool) (batch : list Message) (index total : nat) :
  adds (Z.of_nat (length batch)) (invokeBatch client batch index total).
Proof.
  revert index. induction batch as [|msg rest IH]; intros index.
  - simpl. apply adds_zero; mrun.
  - cbn [invokeBatch length].
    replace (Z.of_nat (S (length rest))) with (1 + Z.of_nat (length rest)) by lia.
    apply adds_bind; [apply adds_processMessage|intros _].
    replace (Z.of_nat (length rest)) with (Z.of_nat (length rest) + 0) by lia.
    apply adds_bind; [apply IH|intros promises]. apply adds_zero; mrun.
Qed.

Lemma length_slice {A} (l : list A) (i : nat) :
  length (slice l i (i + MAX_PARALLEL_PROCESS)) = Nat.min MAX_PARALLEL_PROCESS (length l - i).
Proof.
  unfold slice. rewrite length_take, length_drop.
  replace (i + MAX_PARALLEL_PROCESS - i)%nat with MAX_PARALLEL_PROCESS by lia. reflexivity.
Qed.

Lemma adds_startBatches (client : bool) (messagesToProcess : list Message) (i : nat) :
  adds (Z.of_nat (length messagesToProcess - i))
    (startBatches client messagesToProcess i).
Proof.
  funelim (startBatches client messagesToProcess i).
  - cbv zeta.
    replace (Z.of_nat (length messagesToProcess - i))
      with (Z.of_nat (length (slice messagesToProcess i (i + MAX_PARALLEL_PROCESS)))
            + (Z.of_nat (length messagesToProcess - (i + MAX_PARALLEL_PROCESS)) + 0))
      by (rewrite length_slice; lia).
    apply adds_bind; [apply adds_invokeBatch|intros batchPromises].
    apply adds_bind; [|intros processPromises; apply adds_zero; mrun].
    match goal with
    | IH : list Z -> Sys -> adds _ _ |- _ => intros s0; exact (IH [] s0 s0)
    end.
  - replace (length messagesToProcess - i)%nat with 0%nat by lia.
    apply adds_zero; mrun.
Qed.

Lemma adds_runBatches (client : bool) (messagesToProcess : list Message) :
  adds (Z.of_nat (length messagesToProcess)) (runBatches client messagesToProcess).
Proof.
  unfold runBatches.
  replace (Z.of_nat (length messagesToProcess))
    with (Z.of_nat (length messagesToProcess - 0) + 0) by lia.
  apply adds_bind; [apply adds_startBatches|intros processPromises].
  apply adds_zero; mrun.
Qed.

(** *** The trace of one invocation *)

(** [processMessage] records its invocation first; what follows are events
    of the work on the message. *)
Lemma processMessage_trace (client : bool) (message : Message) (index total : nat)
    (s : Sys) :
  exists evs,
    trace (world (snd (processMessage client message index total s)))
    = (trace (world s) ++ EvInvoke (m_id message) index total :: evs)%list
    /\ Forall P evs.
Proof.
  unfold processMessage.
  match goal with
  | |- context [try_catch (bind (emit ?e) ?k) ?h] =>
      assert (Hk : forall a, reaches P K (k a)) by mrun;
      assert (Hh : forall err, reaches P K (h err)) by mrun;
      generalize dependent k; generalize dependent h
  end.
  intros h Hh k Hk.
  pose proof (reaches_try_catch (k tt) h (Hk tt) Hh
                (snd (emit (EvInvoke (m_id message) index total) s)))
    as [_ (evs & Htrace & Hevs)].
  exists evs. split; [|exact Hevs].
  unfold try_catch, bind in *. simpl in *.
  rewrite Htrace, <- app_assoc. reflexivity.
Qed.

End Invariants.

(** *** The relations used below *)

Lemma quiet_not_sticker_transfer (e : Event) : quiet e -> not_sticker_transfer e.
Proof. destruct e as [| | | ? ? []| | | | | | | | | | | |]; simpl; tauto. Qed.

Lemma same_processed_refl (d : DownloadChannel) : same_processed d d.
Proof. reflexivity. Qed.

Lemma same_processed_trans (a b c : DownloadChannel) :
  same_processed a b -> same_processed b c -> same_processed a c.
Proof. unfold same_processed. intros Hab Hbc. congruence. Qed.

Lemma counters_le_refl (d : DownloadChannel) : counters_le d d.
Proof. unfold counters_le. lia. Qed.

Lemma counters_le_trans (a b c : DownloadChannel) :
  counters_le a b -> counters_le b c -> counters_le a c.
Proof. unfold counters_le. lia. Qed.

(** The side conditions of the rules, for the relations above. *)
Ltac side_conditions :=
  first
    [ exact same_processed_refl | exact same_processed_trans
    | exact counters_le_refl | exact counters_le_trans
    | exact quiet_not_sticker_transfer
    | intros; exact I
    | intros; reflexivity
    | intros; unfold counters_le; simpl; lia
    | intros; assumption ].

(** The progress counters are only ever incremented: no call of the page
    driver lowers one of them. *)
Lemma downloadChannel_keeps_counters (fuel : nat) (client : bool)
    (channelId offsetMsgId : Z) :
  reaches (fun _ => True) counters_le (downloadChannel fuel client channelId offsetMsgId).
Proof.
  apply reaches_downloadChannel; side_conditions.
Qed.

Lemma downloadChannel_body_keeps_counters (fuel : nat) (client : bool)
    (channelId offsetMsgId : Z) :
  reaches (fun _ => True) counters_le
    (downloadChannel_body (downloadChannel fuel client channelId)
       client channelId offsetMsgId).
Proof.
  apply reaches_downloadChannel_body;
    first [side_conditions | intros; apply downloadChannel_keeps_counters].
Qed.

(** ** Page driver: flood wait *)

Lemma includes_nonempty (needle hay : string) :
  needle <> "" -> Js.includes needle hay = true -> Js.truthy_str (Some hay) = true.
Proof.
  intros Hneedle. destruct hay as [|c rest]; simpl; [|reflexivity].
  destruct needle; [contradiction|]. simpl. discriminate.
Qed.

Lemma match_digits_nonempty (s hint : string) :
  Js.match_digits s = Some hint -> exists c rest, hint = String c rest.
Proof.
  induction s as [|c rest IH]; simpl; [discriminate|].
  destruct (Js.is_digit c) eqn:Hc; [|exact IH].
  intros [= <-]. eauto.
Qed.

Lemma match_digits_none (s : string) :
  Js.has_digit s = false -> Js.match_digits s = None.
Proof.
  induction s as [|c rest IH]; simpl; [reflexivity|].
  destruct (Js.is_digit c); simpl; [discriminate|exact IH].
Qed.

Lemma flood_hint_found (message hint : string) :
  Js.match_digits message = Some hint -> flood_hint message = hint.
Proof.
  intros Hm. unfold flood_hint. rewrite Hm.
  destruct (match_digits_nonempty _ _ Hm) as (c & rest & ->). reflexivity.
Qed.

Lemma flood_hint_default (message : string) :
  Js.has_digit message = false -> Js.parseInt (flood_hint message) = 300.
Proof.
  intros Hd. unfold flood_hint. rewrite (match_digits_none _ Hd). reflexivity.
Qed.

(** What [downloadChannel] does with an error thrown in its [try] block. *)
Lemma downloadChannel_catch (fuel : nat) (client : bool) (channelId offsetMsgId : Z)
    (s s1 : Sys) (err : Error) :
  downloadChannel_body (downloadChannel fuel client channelId)
    client channelId offsetMsgId s = (Throw err, s1) ->
  Js.includes "FLOOD_WAIT" (err_message err) = true ->
  downloadChannel (S fuel) client channelId offsetMsgId s =
  downloadChannel fuel client channelId offsetMsgId
    (after_wait (Js.parseInt (flood_hint (err_message err)) * 1000) s1).
Proof.
  intros Hbody Hflood.
  assert (Hmsg : Js.truthy_str (Some (err_message err)) = true)
    by (apply (includes_nonempty "FLOOD_WAIT"); [discriminate|exact Hflood]).
  cbn [downloadChannel]. unfold try_catch at 1. rewrite Hbody.
  rewrite Hmsg, Hflood. cbn [andb].
  unfold bind, after_wait, wait, emit, modify_world. reflexivity.
Qed.

(** C7: when the [try] block of the page driver throws a flood-wait error,
    the driver waits for the seconds that the first run of decimal digits in
    the error message gives, then calls itself with the same [channelId] and
    the same, not advanced, [offsetMsgId]; the result is the result of that
    call (the error goes no further); the wait leaves the object's fields as
    they were, and no progress counter is lower than when the page was
    started. *)
Theorem flood_wait_retries_same_page (fuel : nat) (client : bool)
    (channelId offsetMsgId : Z) (s s1 : Sys) (err : Error) (hint : string) :
  downloadChannel_body (downloadChannel fuel client channelId)
    client channelId offsetMsgId s = (Throw err, s1) ->
  Js.includes "FLOOD_WAIT" (err_message err) = true ->
  Js.match_digits (err_message err) = Some hint ->
  downloadChannel (S fuel) client channelId offsetMsgId s =
  downloadChannel fuel client channelId offsetMsgId
    (after_wait (Js.parseInt hint * 1000) s1)
  /\ self (after_wait (Js.parseInt hint * 1000) s1) = self s1
  /\ counters_le (self s) (self s1)
  /\ trace (world (after_wait (Js.parseInt hint * 1000) s1)) =
     (trace (world s1) ++ [EvWait (Js.parseInt hint * 1000)])%list.
Proof.
  intros Hbody Hflood Hhint.
  rewrite (downloadChannel_catch _ _ _ _ _ _ _ Hbody Hflood).
  rewrite (flood_hint_found _ _ Hhint).
  pose proof (downloadChannel_body_keeps_counters fuel client channelId offsetMsgId s)
    as [Hle _].
  rewrite Hbody in Hle. simpl in Hle.
  split; [reflexivity|]. split; [reflexivity|]. split; [exact Hle|reflexivity].
Qed.

(** C10: when the message of the flood-wait error has no decimal digit, the
    driver waits for 300 seconds before it calls itself with the same
    [channelId] and [offsetMsgId]. *)
Theorem flood_wait_default (fuel : nat) (client : bool)
    (channelId offsetMsgId : Z) (s s1 : Sys) (err : Error) :
  downloadChannel_body (downloadChannel fuel client channelId)
    client channelId offsetMsgId s = (Throw err, s1) ->
  Js.includes "FLOOD_WAIT" (err_message err) = true ->
  Js.has_digit (err_message err) = false ->
  downloadChannel (S fuel) client channelId offsetMsgId s =
  downloadChannel fuel client channelId offsetMsgId (after_wait 300000 s1)
  /\ trace (world (after_wait 300000 s1)) = (trace (world s1) ++ [EvWait 300000])%list.
Proof.
  intros Hbody Hflood Hdigits.
  rewrite (downloadChannel_catch _ _ _ _ _ _ _ Hbody Hflood).
  rewrite (flood_hint_default _ Hdigits).
  split; reflexivity.
Qed.

(** ** Per-message pipeline *)

(** C2: whatever the transport and the file system answer, in particular
    when a download or an upload throws, [processMessage] ends without
    throwing and adds one to [totalProcessedMessages]; so the scheduler goes
    through every message of the page, and the counter grows by their
    number. *)
Theorem failures_are_counted (client : bool) :
  (forall (message : Message) (index total : nat) (s : Sys),
     fst (processMessage client message index total s) = Ok tt
     /\ totalProcessedMessages (self (snd (processMessage client message index total s)))
        = totalProcessedMessages (self s) + 1)
  /\ (forall (messagesToProcess : list Message) (s : Sys),
        fst (runBatches client messagesToProcess s) = Ok tt
        /\ totalProcessedMessages (self (snd (runBatches client messagesToProcess s)))
           = totalProcessedMessages (self s) + Z.of_nat (length messagesToProcess)).
Proof.
  split.
  - intros message index total s.
    assert (Hadd : adds 1 (processMessage client message index total))
      by (apply (adds_processMessage (fun _ => True) same_processed); side_conditions).
    destruct (Hadd s) as [[[] Hok] Hcount]. split; assumption.
  - intros messagesToProcess s.
    assert (Hadd : adds (Z.of_nat (length messagesToProcess))
                     (runBatches client messagesToProcess))
      by (apply (adds_runBatches (fun _ => True) same_processed); side_conditions).
    destruct (Hadd s) as [[[] Hok] Hcount]. split; assumption.
Qed.

(** C9: for a message without a [media] field [downloadMessage] returns null
    and changes nothing, sticker or not; and no event of [processMessage],
    whatever the message, is the byte transfer of the sticker branch of
    [downloadMessageMedia]. *)
Theorem sticker_branch_not_reached (client : bool) (message : Message) :
  (m_media message = None ->
   forall s, downloadMessage client message s = (Ok None, s))
  /\ (forall (index total : nat) (s : Sys),
        exists evs,
          trace (world (snd (processMessage client message index total s)))
          = (trace (world s) ++ evs)%list
          /\ Forall not_sticker_transfer evs).
Proof.
  split.
  - intros Hnone s. unfold downloadMessage. rewrite Hnone. reflexivity.
  - intros index total s.
    assert (Hreach : reaches not_sticker_transfer (fun _ _ => True)
                       (processMessage client message index total))
      by (apply reaches_processMessage; side_conditions).
    apply (Hreach s).
Qed.

(** C6: for a message with media whose canonical local path is on disk,
    [downloadMessage] returns that path and leaves the object and the world
    as they are: no transfer is asked of the transport and
    [totalDownloaded] is not incremented; called twice, it returns the same
    path both times and still changes nothing. *)
Theorem downloadMessage_idempotent (client : bool) (message : Message) (media : Media)
    (s : Sys) :
  m_media message = Some media ->
  getMediaPath message (outputFolder (self s)) ∈ files (world s) ->
  downloadMessage client message s
  = (Ok (Some (getMediaPath message (outputFolder (self s)))), s)
  /\ (let! first := downloadMessage client message in
      let! second := downloadMessage client message in
      ret (first, second)) s
     = (Ok (Some (getMediaPath message (outputFolder (self s))),
            Some (getMediaPath message (outputFolder (self s)))), s).
Proof.
  intros Hmedia Hdisk.
  assert (Hone : downloadMessage client message s
                 = (Ok (Some (getMediaPath message (outputFolder (self s)))), s)).
  { unfold downloadMessage, checkFileExist, fs_existsSync, try_catch, bind, get_self,
      get_world, ret. rewrite Hmedia. cbn [fst snd].
    rewrite (bool_decide_eq_true_2 _ Hdisk). reflexivity. }
  split; [exact Hone|].
  unfold bind at 1. rewrite Hone. unfold bind at 1. rewrite Hone. reflexivity.
Qed.

(** ** Upload of structured payloads *)

Lemma append_assoc (a b c : string) : (a +:+ b) +:+ c = a +:+ (b +:+ c).
Proof.
  induction a as [|x a IH]; [reflexivity|].
  change (String x ((a +:+ b) +:+ c) = String x (a +:+ (b +:+ c))).
  rewrite IH. reflexivity.
Qed.

Lemma specialMedia_poll (media : Media) (p : Poll) (caption : string) (uo : UploadOptions) :
  md_poll media = Some p ->
  uo_message (specialMedia media caption uo) = pollText p caption.
Proof. intros Hp. unfold specialMedia. rewrite Hp. reflexivity. Qed.

(** The spec's scenario: the text of the poll with question "Q" and answers
    "A" and "B" contains "Q", "1. A" and "2. B", whatever the caption. *)
Lemma pollText_scenario (caption : string) :
  Js.includes "Q" (pollText poll_QAB caption) = true
  /\ Js.includes "1. A" (pollText poll_QAB caption) = true
  /\ Js.includes "2. B" (pollText poll_QAB caption) = true.
Proof. repeat split; vm_compute; reflexivity. Qed.

Lemma try_catch_rethrow_state {A} (c : M A) (f : Error -> Error) (s : Sys) :
  snd (try_catch c (fun e => throw (f e)) s) = snd (c s).
Proof. unfold try_catch, throw. destruct (c s) as [[a|e|] s1]; reflexivity. Qed.

Lemma client_sendMessage_trace (target : Z) (options : UploadOptions) (s : Sys) :
  trace (world (snd (client_sendMessage target options s)))
  = (trace (world s) ++ [EvSend target options])%list.
Proof.
  unfold client_sendMessage, next_tick, emit, modify_world, bind, ret, throw. simpl.
  destruct (client_sendMessage_at (tick (world s))); reflexivity.
Qed.

Lemma client_sendMessage_run (target : Z) (o : UploadOptions) (s : Sys) :
  client_sendMessage target o s =
  (match client_sendMessage_at (tick (world s)) with inl e => Throw e | inr r => Ok r end,
   mkSys (self s)
     (mkWorld (S (tick (world s))) (files (world s)) (lastSelection (world s))
        (trace (world s) ++ [EvSend target o])%list)).
Proof.
  unfold client_sendMessage, next_tick, emit, modify_world, throw, bind, ret.
  cbn. destruct (client_sendMessage_at _); reflexivity.
Qed.

Lemma client_forwardMessages_run (target id peer : Z) (s : Sys) :
  client_forwardMessages target id peer s =
  (match client_forwardMessages_at (tick (world s)) with inl e => Throw e | inr r => Ok r end,
   mkSys (self s)
     (mkWorld (S (tick (world s))) (files (world s)) (lastSelection (world s))
        (trace (world s) ++ [EvForward target id peer])%list)).
Proof.
  unfold client_forwardMessages, next_tick, emit, modify_world, throw, bind, ret.
  cbn. destruct (client_forwardMessages_at _); reflexivity.
Qed.

Lemma localFileAvailable_run (mediaPath : option string) (s : Sys) :
  localFileAvailable mediaPath s = (Ok (has_local_file mediaPath (world s)), s).
Proof. reflexivity. Qed.

(** C4 (amended): for a message with a structured payload (poll, location,
    contact, venue, web page, the first of these that the media carries):
    when a local copy of the media is on disk, [uploadMessageToChannel]
    makes one send; when there is none and forwarding the original message
    throws, it makes that one send after the forward; in both cases the send
    has no [file] key and its text is the glyph and the fields of that
    payload, then an empty line and the original caption.  When there is no
    local copy and the forward returns, the message is forwarded, nothing
    is sent, and the result is that of the forward. *)
Theorem structured_payload_sent_as_text (target : Z) (message : Message) (media : Media)
    (mediaPath : option string) (s : Sys) :
  Js.truthy_num target = true ->
  m_media message = Some media ->
  structured media = true ->
  let caption := Js.or_str (m_message message) "" in
  let text :=
    match md_poll media, md_geo media, md_contact media, md_venue media,
          md_webpage media with
    | Some poll, _, _, _, _ =>
        "📊 Poll: " +:+ Js.tpl (poll_question poll) +:+ Js.nl +:+ Js.nl
        +:+ "Options:" +:+ Js.nl
        +:+ Js.join Js.nl
              (imap (fun i ans => Js.of_nat (i + 1) +:+ ". " +:+ Js.tpl (ans_text ans))
                 (poll_answers poll))
        +:+ Js.nl +:+ Js.nl +:+ caption
    | None, Some geo, _, _, _ =>
        "📍 Location: " +:+ geo_lat geo +:+ ", " +:+ geo_long geo
        +:+ Js.nl +:+ Js.nl +:+ caption
    | None, None, Some contact, _, _ =>
        "👤 Contact: " +:+ Js.tpl (ct_firstName contact) +:+ " "
        +:+ Js.or_str (ct_lastName contact) "" +:+ Js.nl
        +:+ "Phone: " +:+ Js.tpl (ct_phoneNumber contact)
        +:+ Js.nl +:+ Js.nl +:+ caption
    | None, None, None, Some venue, _ =>
        "🏢 Venue: " +:+ Js.tpl (vn_title venue) +:+ Js.nl
        +:+ "Address: " +:+ Js.tpl (vn_address venue)
        +:+ Js.nl +:+ Js.nl +:+ caption
    | None, None, None, None, Some webpage =>
        "🔗 " +:+ Js.or_str (wp_title webpage) "Webpage" +:+ Js.nl
        +:+ Js.tpl (wp_url webpage) +:+ Js.nl
        +:+ Js.or_str (wp_description webpage) ""
        +:+ Js.nl +:+ Js.nl +:+ caption
    | None, None, None, None, None => caption
    end in
  let forward := EvForward target (m_id message) (m_peerId message) in
  let r := uploadMessageToChannel true target message mediaPath s in
  (has_local_file mediaPath (world s) = true ->
   exists options,
     trace (world (snd r)) = (trace (world s) ++ [EvSend target options])%list
     /\ uo_file options = None
     /\ uo_message options = text)
  /\ (has_local_file mediaPath (world s) = false ->
      forall e, client_forwardMessages_at (tick (world s)) = inl e ->
      exists options,
        trace (world (snd r)) = (trace (world s) ++ [forward; EvSend target options])%list
        /\ uo_file options = None
        /\ uo_message options = text)
  /\ (has_local_file mediaPath (world s) = false ->
      forall result, client_forwardMessages_at (tick (world s)) = inr result ->
      r = (Ok result,
           mkSys (self s)
             (mkWorld (S (tick (world s))) (files (world s)) (lastSelection (world s))
                (trace (world s) ++ [forward])%list))).
Proof.
  intros Htarget Hmedia Hstructured. cbv zeta.
  match goal with
  | |- (_ -> exists o, _ /\ _ /\ uo_message o = ?t) /\ _ => set (text := t)
  end.
  assert (Hspecial : forall uo,
            uo_file (specialMedia media (caption_of message) uo) = None
            /\ uo_message (specialMedia media (caption_of message) uo) = text).
  { intros uo. subst text. unfold specialMedia, structured in *.
    destruct (md_poll media) as [poll|]; [split; reflexivity|].
    destruct (md_geo media) as [geo|]; [split; reflexivity|].
    destruct (md_contact media) as [contact|]; [split; reflexivity|].
    destruct (md_venue media) as [venue|]; [split; reflexivity|].
    destruct (md_webpage media) as [webpage|]; [split; reflexivity|].
    rewrite !bool_decide_eq_false_2 in Hstructured by (intros [? ?]; discriminate).
    discriminate. }
  unfold uploadMessageToChannel. rewrite Htarget, Hmedia. cbn [negb orb].
  split; [|split].
  - intros Hdisk. rewrite try_catch_rethrow_state.
    unfold bind at 1. rewrite localFileAvailable_run, Hdisk.
    eexists. rewrite client_sendMessage_trace. split; [reflexivity|]. apply Hspecial.
  - intros Hdisk e He. rewrite try_catch_rethrow_state.
    unfold bind at 1. rewrite localFileAvailable_run, Hdisk.
    unfold try_catch, bind, ret. rewrite client_forwardMessages_run, He.
    cbn [fst snd]. eexists. rewrite client_sendMessage_trace.
    cbn [world self tick files lastSelection trace]. rewrite <- app_assoc.
    split; [reflexivity|]. apply Hspecial.
  - intros Hdisk result Hresult.
    unfold try_catch at 1. unfold bind at 1. rewrite localFileAvailable_run, Hdisk.
    unfold try_catch, bind, ret. rewrite client_forwardMessages_run, Hresult.
    reflexivity.
Qed.

(** ** Batch scheduler *)

Lemma invocations_app (a b : list Event) :
  invocations (a ++ b) = (invocations a ++ invocations b)%list.
Proof.
  induction a as [|e a IH]; [reflexivity|].
  destruct e; simpl; rewrite ?IH; reflexivity.
Qed.

Lemma invocations_quiet (evs : list Event) : Forall quiet evs -> invocations evs = [].
Proof.
  induction 1 as [|e evs He _ IH]; [reflexivity|].
  destruct e; simpl in *; try exact IH. contradiction.
Qed.

Lemma quiet_not_await (e : Event) : quiet e -> ~ is_await e.
Proof. destruct e; simpl; tauto. Qed.

(** One invocation: the call returns, its trace starts with the invocation
    and holds no other invocation and no [await] of the scheduler. *)
Lemma processMessage_shape (client : bool) (message : Message) (index total : nat)
    (s : Sys) :
  exists s' evs,
    processMessage client message index total s = (Ok tt, s')
    /\ trace (world s') = (trace (world s) ++ evs)%list
    /\ invocations evs = [(m_id message, index)]
    /\ Forall (fun e => ~ is_await e) evs.
Proof.
  destruct (safe_processMessage client message index total s) as [[] Hok].
  assert (Ht : exists evs,
             trace (world (snd (processMessage client message index total s)))
             = (trace (world s) ++ EvInvoke (m_id message) index total :: evs)%list
             /\ Forall quiet evs)
    by (apply (processMessage_trace quiet (fun _ _ => True)); side_conditions).
  destruct Ht as (evs & Htrace & Hquiet).
  destruct (processMessage client message index total s) as [r s'] eqn:Hrun.
  simpl in Hok, Htrace. subst r.
  exists s', (EvInvoke (m_id message) index total :: evs). split; [reflexivity|].
  split; [exact Htrace|]. split.
  - simpl. rewrite (invocations_quiet _ Hquiet). reflexivity.
  - constructor; [simpl; tauto|].
    eapply Forall_impl; [exact Hquiet|]. intros e. apply quiet_not_await.
Qed.

Lemma batch_invocations_cons (index : nat) (msg : Message) (rest : list Message) :
  batch_invocations index (msg :: rest)
  = (m_id msg, index) :: batch_invocations (S index) rest.
Proof.
  unfold batch_invocations. cbn [imap]. rewrite Nat.add_0_r. f_equal.
  apply imap_ext. intros k m _. simpl. f_equal. lia.
Qed.

Lemma batch_invocations_app (index : nat) (a b : list Message) :
  batch_invocations index (a ++ b)
  = (batch_invocations index a ++ batch_invocations (index + length a) b)%list.
Proof.
  unfold batch_invocations. rewrite imap_app. f_equal.
  apply imap_ext. intros k m _. simpl. f_equal. lia.
Qed.

Lemma invokeBatch_shape (client : bool) (batch : list Message) (index total : nat)
    (s : Sys) :
  exists s' evs,
    invokeBatch client batch index total s = (Ok (map m_id batch), s')
    /\ trace (world s') = (trace (world s) ++ evs)%list
    /\ invocations evs = batch_invocations index batch
    /\ Forall (fun e => ~ is_await e) evs.
Proof.
  revert index s. induction batch as [|msg rest IH]; intros index s.
  - exists s, []. simpl. rewrite app_nil_r. repeat split. constructor.
  - destruct (processMessage_shape client msg index total s)
      as (s1 & evs1 & Hrun1 & Htrace1 & Hinv1 & Hawait1).
    destruct (IH (S index) s1) as (s2 & evs2 & Hrun2 & Htrace2 & Hinv2 & Hawait2).
    exists s2, (evs1 ++ evs2)%list. cbn [invokeBatch map].
    unfold bind at 1. rewrite Hrun1. unfold bind at 1. rewrite Hrun2.
    split; [reflexivity|]. split; [rewrite Htrace2, Htrace1, app_assoc; reflexivity|].
    split.
    + rewrite invocations_app, Hinv1, Hinv2, batch_invocations_cons. reflexivity.
    + apply Forall_app. split; assumption.
Qed.

Lemma slice_drop {A} (l : list A) (i : nat) :
  drop i l = (slice l i (i + MAX_PARALLEL_PROCESS) ++ drop (i + MAX_PARALLEL_PROCESS) l)%list.
Proof.
  unfold slice. replace (i + MAX_PARALLEL_PROCESS - i)%nat with MAX_PARALLEL_PROCESS by lia.
  rewrite <- (drop_drop l MAX_PARALLEL_PROCESS i). symmetry. apply take_drop.
Qed.

Lemma chunk_count_step (len i : nat) :
  (i < len)%nat ->
  chunk_count (len - i) = S (chunk_count (len - (i + MAX_PARALLEL_PROCESS))).
Proof.
  intros Hlt. unfold chunk_count, MAX_PARALLEL_PROCESS.
  destruct (Nat.le_gt_cases 5 (len - i)) as [Hbig|Hsmall].
  - replace (len - i + 4)%nat with (len - (i + 5) + 4 + 1 * 5)%nat by lia.
    rewrite Nat.div_add by lia. lia.
  - replace (len - (i + 5))%nat with 0%nat by lia.
    change ((0 + 4) / 5)%nat with 0%nat.
    assert (Hq : ((len - i + 4) / 5 = 1)%nat); [|lia].
    symmetry. apply (Nat.div_unique _ _ 1 (len - i - 1)); lia.
Qed.

(** The first loop: the promise groups are the contiguous chunks of at most
    5 messages, and every message of the page is invoked, in order, with no
    [await] of the scheduler in between. *)
Lemma startBatches_shape (client : bool) (messagesToProcess : list Message) (i : nat)
    (s : Sys) :
  exists s' processPromises evs,
    startBatches client messagesToProcess i s = (Ok processPromises, s')
    /\ trace (world s') = (trace (world s) ++ evs)%list
    /\ invocations evs = batch_invocations i (drop i messagesToProcess)
    /\ Forall (fun e => ~ is_await e) evs
    /\ concat processPromises = map m_id (drop i messagesToProcess)
    /\ Forall (fun p => (1 <= length p <= MAX_PARALLEL_PROCESS)%nat) processPromises
    /\ length processPromises = chunk_count (length messagesToProcess - i).
Proof.
  revert s. funelim (startBatches client messagesToProcess i); intros s.
  - cbv zeta.
    destruct (invokeBatch_shape client
                (slice messagesToProcess i (i + MAX_PARALLEL_PROCESS)) i
                (length messagesToProcess) s)
      as (s1 & evs1 & Hrun1 & Htrace1 & Hinv1 & Hawait1).
    match goal with
    | IH : list Z -> Sys -> forall s : Sys, exists _ _ _, _ |- _ =>
        destruct (IH [] s s1)
          as (s2 & ps & evs2 & Hrun2 & Htrace2 & Hinv2 & Hawait2 & Hcat & Hsize & Hlen)
    end.
    exists s2, (map m_id (slice messagesToProcess i (i + MAX_PARALLEL_PROCESS)) :: ps),
      (evs1 ++ evs2)%list.
    unfold bind at 1. rewrite Hrun1. unfold bind at 1. rewrite Hrun2.
    split; [reflexivity|].
    split; [rewrite Htrace2, Htrace1, app_assoc; reflexivity|].
    split.
    { rewrite invocations_app, Hinv1, Hinv2.
      rewrite (slice_drop messagesToProcess i).
      rewrite batch_invocations_app, length_slice.
      destruct (Nat.le_gt_cases MAX_PARALLEL_PROCESS (length messagesToProcess - i))
        as [Hbig|Hsmall].
      - rewrite Nat.min_l by exact Hbig. reflexivity.
      - rewrite (drop_ge messagesToProcess (i + MAX_PARALLEL_PROCESS)) by lia.
        reflexivity. }
    split; [apply Forall_app; split; assumption|].
    split.
    { cbn [concat]. rewrite Hcat, <- map_app, <- slice_drop. reflexivity. }
    split.
    { constructor; [|exact Hsize]. rewrite length_map, length_slice.
      unfold MAX_PARALLEL_PROCESS. lia. }
    cbn [length]. rewrite Hlen. symmetry. apply chunk_count_step. assumption.
  - exists s, [], []. split; [reflexivity|].
    rewrite app_nil_r, drop_ge by lia.
    replace (length messagesToProcess - i)%nat with 0%nat by lia.
    repeat split; constructor.
Qed.

Lemma awaitBatches_shape (processPromises : list (list Z)) (i n : nat) (s : Sys) :
  awaitBatches processPromises i n s
  = (Ok tt,
     mkSys (self s)
       (mkWorld (tick (world s)) (files (world s)) (lastSelection (world s))
          (trace (world s) ++ await_events i n (length processPromises))%list)).
Proof.
  revert i s. induction processPromises as [|p rest IH]; intros i s.
  - simpl. rewrite app_nil_r. destruct s as [d []]. reflexivity.
  - cbn [awaitBatches length await_events].
    unfold bind at 1. unfold emit at 1, modify_world at 1.
    unfold bind at 1.
    destruct (i <? n - 1)%nat.
    + unfold wait, emit, modify_world. rewrite IH. simpl.
      rewrite <- !app_assoc. reflexivity.
    + unfold ret at 1. rewrite IH. simpl. rewrite <- !app_assoc. reflexivity.
Qed.

(** The scheduler on any page: every message is invoked, in order, before
    the first [await]; then each of the [chunk_count] batches is awaited,
    with the delay after each batch but the last. *)
Lemma runBatches_shape (client : bool) (messagesToProcess : list Message) (s : Sys) :
  exists started,
    fst (runBatches client messagesToProcess s) = Ok tt
    /\ trace (world (snd (runBatches client messagesToProcess s)))
       = (trace (world s) ++ started
          ++ await_events 0 (chunk_count (length messagesToProcess))
               (chunk_count (length messagesToProcess)))%list
    /\ invocations started = batch_invocations 0 messagesToProcess
    /\ Forall (fun e => ~ is_await e) started.
Proof.
  destruct (startBatches_shape client messagesToProcess 0 s)
    as (s1 & ps & evs & Hrun & Htrace & Hinv & Hawait & _ & _ & Hlen).
  exists evs. unfold runBatches, bind. rewrite Hrun, awaitBatches_shape. simpl.
  rewrite Nat.sub_0_r in Hlen. rewrite Hlen, Htrace, <- app_assoc.
  repeat split; assumption.
Qed.

End Properties.

(* ===================================================================== *)
(** * Further properties of the pipeline *)
(* ===================================================================== *)

Section Coverage.

Context {hp : Helpers} {orc : Oracle}.

(** ** Rules for [steps] *)

Section Frames.

Variable R : Sys -> Sys -> Prop.
Hypothesis R_refl : forall s, R s s.
Hypothesis R_trans : forall a b c, R a b -> R b c -> R a c.

Lemma steps_ret {A} (a : A) : steps R (ret a).
Proof. intros s. apply R_refl. Qed.

Lemma steps_throw {A} (e : Error) : steps R (@throw A e).
Proof. intros s. apply R_refl. Qed.

Lemma steps_get_self : steps R get_self.
Proof. intros s. apply R_refl. Qed.

Lemma steps_get_world : steps R get_world.
Proof. intros s. apply R_refl. Qed.

Lemma steps_bind {A B} (c : M A) (k : A -> M B) :
  steps R c -> (forall a, steps R (k a)) -> steps R (bind c k).
Proof.
  intros Hc Hk s. unfold bind. specialize (Hc s).
  destruct (c s) as [[a| e |] s1]; simpl in *; try exact Hc.
  eapply R_trans; [exact Hc|apply Hk].
Qed.

Lemma steps_try_catch {A} (c : M A) (h : Error -> M A) :
  steps R c -> (forall e, steps R (h e)) -> steps R (try_catch c h).
Proof.
  intros Hc Hh s. unfold try_catch. specialize (Hc s).
  destruct (c s) as [[a| e |] s1]; simpl in *; try exact Hc.
  eapply R_trans; [exact Hc|apply Hh].
Qed.

Hypothesis R_tick : steps R next_tick.
Hypothesis R_add : forall p, steps R (set_files (fun fs => {[p]} ∪ fs)).
Hypothesis R_remove : forall p, steps R (set_files (fun fs => fs ∖ {[p]})).
Hypothesis R_wait : forall ms, steps R (emit (EvWait ms)).
Hypothesis R_get : forall c l o, steps R (emit (EvGetMessages c l o)).
Hypothesis R_detail : forall c ids, steps R (emit (EvGetDetail c ids)).
Hypothesis R_transfer : forall id f, steps R (emit (EvDownloadMedia id f MediaBranch)).
Hypothesis R_forward : forall t id p, steps R (emit (EvForward t id p)).
Hypothesis R_send : forall t o, steps R (emit (EvSend t o)).
Hypothesis R_write : forall p, steps R (emit (EvWriteFile p)).
Hypothesis R_unlink : forall p, steps R (emit (EvUnlink p)).
Hypothesis R_invoke : forall id i n, steps R (emit (EvInvoke id i n)).
Hypothesis R_await : forall i n, steps R (emit (EvAwaitBatch i n)).
Hypothesis R_record : forall ids, steps R (emit (EvRecord ids)).
Hypothesis R_progress : forall n, steps R (emit (EvProgress n)).
Hypothesis R_mkdir : forall p, steps R (emit (EvMkdir p)).
Hypothesis R_outputFolder : forall v, steps R (modify_self (with_outputFolder v)).
Hypothesis R_count_reset : steps R (modify_self (with_requestCount 0)).
Hypothesis R_last : forall now, steps R (modify_self (with_lastRequestTime now)).
Hypothesis R_count :
  steps R (modify_self (fun this => with_requestCount (requestCount this + 1) this)).
Hypothesis R_downloaded :
  steps R (modify_self (fun this => with_totalDownloaded (totalDownloaded this + 1) this)).
Hypothesis R_uploaded :
  steps R (modify_self (fun this => with_totalUploaded (totalUploaded this + 1) this)).
Hypothesis R_processed :
  steps R (modify_self
             (fun this => with_totalProcessedMessages (totalProcessedMessages this + 1) this)).
Hypothesis R_checkpoint : forall o, steps R (updateLastSelection (Some o) None).

Ltac frun :=
  repeat match goal with
  | |- forall _, _ => intro
  | |- steps _ (bind _ _) => apply steps_bind
  | |- steps _ (try_catch _ _) => apply steps_try_catch
  | |- steps _ (ret _) => apply steps_ret
  | |- steps _ (throw _) => apply steps_throw
  | |- steps _ get_self => apply steps_get_self
  | |- steps _ get_world => apply steps_get_world
  | |- steps _ (wait _) => unfold wait
  | |- steps _ (if ?b then _ else _) => destruct b
  | |- steps _ (match ?x with _ => _ end) => destruct x
  | |- _ => solve [auto]
  end.

Lemma steps_date_now : steps R date_now.
Proof. unfold date_now. frun. Qed.

Lemma steps_fs_existsSync (p : string) : steps R (fs_existsSync p).
Proof. unfold fs_existsSync. frun. Qed.

Lemma steps_fs_writeFileSync (p : string) : steps R (fs_writeFileSync p).
Proof. unfold fs_writeFileSync. frun. Qed.

Lemma steps_fs_unlinkSync (p : string) : steps R (fs_unlinkSync p).
Proof. unfold fs_unlinkSync. frun. Qed.

Lemma steps_client_getMessages (channelId limit offsetId : Z) :
  steps R (client_getMessages channelId limit offsetId).
Proof. unfold client_getMessages. frun. Qed.

Lemma steps_client_getMessages_ids (channelId : Z) (ids : list Z) :
  steps R (client_getMessages_ids channelId ids).
Proof. unfold client_getMessages_ids. frun. Qed.

Lemma steps_client_downloadMedia (id : Z) (outputFile : string) :
  steps R (client_downloadMedia id outputFile MediaBranch).
Proof. unfold client_downloadMedia. frun. Qed.

Lemma steps_client_forwardMessages (target id peer : Z) :
  steps R (client_forwardMessages target id peer).
Proof. unfold client_forwardMessages. frun. Qed.

Lemma steps_client_sendMessage (target : Z) (options : UploadOptions) :
  steps R (client_sendMessage target options).
Proof. unfold client_sendMessage. frun. Qed.

Local Hint Resolve steps_date_now steps_fs_existsSync steps_fs_writeFileSync
  steps_fs_unlinkSync steps_client_getMessages steps_client_getMessages_ids
  steps_client_downloadMedia steps_client_forwardMessages steps_client_sendMessage : core.

Lemma steps_getMessages (client : bool) (channelId limit offsetId : Z) :
  steps R (getMessages client channelId limit offsetId).
Proof. unfold getMessages. frun. Qed.

Lemma steps_getMessageDetail (client : bool) (channelId : Z) (ids : list Z) :
  steps R (getMessageDetail client channelId ids).
Proof. unfold getMessageDetail. frun. Qed.

Lemma steps_downloadMedia_rest (message : Message) (media : Media) (mediaPath : string) :
  steps R (downloadMedia_rest message media mediaPath).
Proof. unfold downloadMedia_rest. frun. Qed.

Local Hint Resolve steps_getMessages steps_getMessageDetail steps_downloadMedia_rest : core.

Lemma steps_downloadMessageMedia (client : bool) (message : Message) (mediaPath : string) :
  is_Some (m_media message) ->
  steps R (downloadMessageMedia client message mediaPath).
Proof.
  intros [media Hmedia]. unfold downloadMessageMedia. rewrite Hmedia. frun.
Qed.

Lemma steps_localFileAvailable (mediaPath : option string) :
  steps R (localFileAvailable mediaPath).
Proof. unfold localFileAvailable. frun. Qed.

Local Hint Resolve steps_localFileAvailable : core.

Lemma steps_uploadMessageToChannel (client : bool) (target : Z) (message : Message)
    (mediaPath : option string) :
  steps R (uploadMessageToChannel client target message mediaPath).
Proof. unfold uploadMessageToChannel. frun. Qed.

Lemma steps_checkRateLimit : steps R checkRateLimit.
Proof. unfold checkRateLimit. frun. Qed.

Lemma steps_checkFileExist (message : Message) (folder : option string) :
  steps R (checkFileExist message folder).
Proof. unfold checkFileExist. frun. Qed.

Local Hint Resolve steps_uploadMessageToChannel steps_checkRateLimit
  steps_checkFileExist : core.

Lemma steps_downloadMessage (client : bool) (message : Message) :
  steps R (downloadMessage client message).
Proof.
  unfold downloadMessage. destruct (m_media message) as [media|] eqn:Hmedia; frun.
  apply steps_downloadMessageMedia. rewrite Hmedia. eexists. reflexivity.
Qed.

Lemma steps_uploadMessage (client : bool) (message : Message) (mediaPath : option string) :
  steps R (uploadMessage client message mediaPath).
Proof. unfold uploadMessage. frun. Qed.

Local Hint Resolve steps_downloadMessage steps_uploadMessage : core.

Lemma steps_processMessage (client : bool) (message : Message) (index total : nat) :
  steps R (processMessage client message index total).
Proof. unfold processMessage. frun. Qed.

Lemma steps_retry_loop {A} (fn : M A) (retries i left : nat) :
  steps R fn -> steps R (retry_loop fn retries i left).
Proof.
  intros Hfn. revert i. induction left as [|left IH]; intros i; simpl; frun.
Qed.

Lemma steps_retryWithBackoff {A} (fn : M A) :
  steps R fn -> steps R (retryWithBackoff fn).
Proof. apply steps_retry_loop. Qed.

Local Hint Resolve steps_processMessage steps_retryWithBackoff : core.

Lemma steps_invokeBatch (client : bool) (batch : list Message) (index total : nat) :
  steps R (invokeBatch client batch index total).
Proof.
  revert index. induction batch as [|msg rest IH]; intros index; simpl; frun.
Qed.

Local Hint Resolve steps_invokeBatch : core.

Lemma steps_startBatches (client : bool) (messagesToProcess : list Message) (i : nat) :
  steps R (startBatches client messagesToProcess i).
Proof.
  funelim (startBatches client messagesToProcess i); frun.
  match goal with
  | IH : list Z -> Sys -> steps _ _ |- _ => intros s0; exact (IH [] s0 s0)
  end.
Qed.

Lemma steps_awaitBatches (processPromises : list (list Z)) (i n : nat) :
  steps R (awaitBatches processPromises i n).
Proof.
  revert i. induction processPromises as [|p rest IH]; intros i; simpl; frun.
Qed.

Local Hint Resolve steps_startBatches steps_awaitBatches : core.

Lemma steps_runBatches (client : bool) (messagesToProcess : list Message) :
  steps R (runBatches client messagesToProcess).
Proof. unfold runBatches. frun. Qed.

Local Hint Resolve steps_runBatches : core.

Lemma steps_fs_mkdirSync (p : string) : steps R (fs_mkdirSync p).
Proof. unfold fs_mkdirSync. frun. Qed.

Lemma steps_appendToJSONArrayFile (filePath : string) (ids : list Z) :
  steps R (appendToJSONArrayFile filePath ids).
Proof. unfold appendToJSONArrayFile. frun. Qed.

Local Hint Resolve steps_fs_mkdirSync steps_appendToJSONArrayFile : core.

Lemma steps_recordMessages (messages : list Message) :
  steps R (recordMessages messages).
Proof. unfold recordMessages. frun. Qed.

Local Hint Resolve steps_recordMessages : core.

Lemma steps_downloadChannel_body (recurse : Z -> M unit)
    (client : bool) (channelId offsetMsgId : Z) :
  (forall o, steps R (recurse o)) ->
  steps R (downloadChannel_body recurse client channelId offsetMsgId).
Proof.
  intros Hrec. unfold downloadChannel_body, showProgress. frun.
Qed.

Lemma steps_downloadChannel (fuel : nat) (client : bool) (channelId offsetMsgId : Z) :
  steps R (downloadChannel fuel client channelId offsetMsgId).
Proof.
  revert offsetMsgId. induction fuel as [|fuel IH]; intros offsetMsgId.
  - intros s. apply R_refl.
  - cbn [downloadChannel]. apply steps_try_catch.
    + apply steps_downloadChannel_body. exact IH.
    + frun.
Qed.

End Frames.

(** ** The frames are preorders that the outside calls respect *)

Lemma trace_grows_same (P : Event -> Prop) (s s' : Sys) :
  trace (world s') = trace (world s) -> trace_grows P s s'.
Proof. intros Ht. exists []. rewrite app_nil_r. split; [exact Ht|constructor]. Qed.

Lemma trace_grows_one (P : Event -> Prop) (s s' : Sys) (e : Event) :
  trace (world s') = (trace (world s) ++ [e])%list -> P e -> trace_grows P s s'.
Proof. intros Ht He. exists [e]. split; [exact Ht|]. constructor; [exact He|constructor]. Qed.

Lemma trace_grows_trans (P : Event -> Prop) (a b c : Sys) :
  trace_grows P a b -> trace_grows P b c -> trace_grows P a c.
Proof.
  intros (e1 & Ht1 & Hp1) (e2 & Ht2 & Hp2). exists (e1 ++ e2)%list.
  rewrite Ht2, Ht1, app_assoc. split; [reflexivity|]. apply Forall_app. split; assumption.
Qed.

Lemma with_totalDownloaded_same (d : DownloadChannel) :
  with_totalDownloaded (totalDownloaded d) d = d.
Proof. destruct d. reflexivity. Qed.

Lemma with_totalUploaded_same (d : DownloadChannel) :
  with_totalUploaded (totalUploaded d) d = d.
Proof. destruct d. reflexivity. Qed.

Lemma download_frame_refl (s : Sys) : download_frame s s.
Proof.
  unfold download_frame. rewrite with_totalDownloaded_same.
  repeat split; [lia|set_solver|apply trace_grows_same; reflexivity].
Qed.

Lemma download_frame_trans (a b c : Sys) :
  download_frame a b -> download_frame b c -> download_frame a c.
Proof.
  intros (Hs1 & Hd1 & Hf1 & Hl1 & Ht1) (Hs2 & Hd2 & Hf2 & Hl2 & Ht2).
  repeat split.
  - rewrite Hs2, Hs1. reflexivity.
  - lia.
  - set_solver.
  - congruence.
  - eapply trace_grows_trans; eassumption.
Qed.

Lemma upload_frame_refl (s : Sys) : upload_frame s s.
Proof.
  unfold upload_frame. rewrite with_totalUploaded_same.
  repeat split; [lia|set_solver|apply trace_grows_same; reflexivity].
Qed.

Lemma upload_frame_trans (a b c : Sys) :
  upload_frame a b -> upload_frame b c -> upload_frame a c.
Proof.
  intros (Hs1 & Hd1 & Hf1 & Hl1 & Ht1) (Hs2 & Hd2 & Hf2 & Hl2 & Ht2).
  repeat split.
  - rewrite Hs2, Hs1. reflexivity.
  - lia.
  - set_solver.
  - congruence.
  - eapply trace_grows_trans; eassumption.
Qed.

Lemma driver_frame_refl (s : Sys) : driver_frame s s.
Proof. repeat split. Qed.

Lemma driver_frame_trans (a b c : Sys) :
  driver_frame a b -> driver_frame b c -> driver_frame a c.
Proof.
  unfold driver_frame. intros (? & ? & ? & ? & ? & ?) (? & ? & ? & ? & ? & ?).
  repeat split; congruence.
Qed.

Lemma selection_kept_trans (a b c : Sys) :
  selection_kept a b -> selection_kept b c -> selection_kept a c.
Proof. unfold selection_kept. congruence. Qed.

Lemma self_kept_trans (a b c : Sys) : self_kept a b -> self_kept b c -> self_kept a c.
Proof. unfold self_kept. congruence. Qed.

(** A step of one outside call or one field update, for each frame. *)
Lemma folder_kept_trans (a b c : Sys) :
  folder_kept a b -> folder_kept b c -> folder_kept a c.
Proof. unfold folder_kept. congruence. Qed.

Ltac files_step :=
  apply elem_of_subseteq; intros ?;
  rewrite ?elem_of_union, ?elem_of_difference; tauto.

Ltac frame_step :=
  intros; intros [d w]; destruct d, w;
  first
    [ solve [repeat split]
    | solve [unfold download_frame; cbn; repeat split;
             first [reflexivity | lia | files_step
                   | apply trace_grows_same; reflexivity
                   | eapply trace_grows_one; [reflexivity|exact I]]]
    | solve [unfold upload_frame; cbn; repeat split;
             first [reflexivity | lia | files_step
                   | apply trace_grows_same; reflexivity
                   | eapply trace_grows_one; [reflexivity|exact I]]] ].

(** The side conditions of the rules for [steps], for each frame. *)
Ltac frame_facts :=
  try exact download_frame_refl; try exact download_frame_trans;
  try exact upload_frame_refl; try exact upload_frame_trans;
  try exact driver_frame_refl; try exact driver_frame_trans;
  try exact selection_kept_trans; try exact self_kept_trans;
  try exact folder_kept_trans;
  try (intros ?; reflexivity);
  try frame_step.

Lemma downloadMessageMedia_self_kept (client : bool) (message : Message)
    (mediaPath : string) :
  is_Some (m_media message) ->
  steps self_kept (downloadMessageMedia client message mediaPath).
Proof. intros Hm. apply steps_downloadMessageMedia. all: try exact Hm. all: frame_facts. Qed.

Lemma uploadMessageToChannel_self_kept (client : bool) (target : Z) (message : Message)
    (mediaPath : option string) :
  steps self_kept (uploadMessageToChannel client target message mediaPath).
Proof. apply steps_uploadMessageToChannel. all: frame_facts. Qed.

(** ** Content classifier *)

(** X1: for a message without [media] the policy is never consulted:
    [shouldProcess] returns [hasContent], so a sticker, or a message with
    only a top-level poll, passes whatever the policy says; and no message
    without content passes, with or without media. *)
Theorem shouldProcess_without_media (this : DownloadChannel) (message : Message) :
  (m_media message = None -> shouldProcess this message = JsBool (hasContent message))
  /\ (truthy (shouldProcess this message) = true -> hasContent message = true).
Proof.
  split.
  - intros Hnone. unfold shouldProcess. rewrite Hnone.
    destruct (hasContent message); [|reflexivity]. cbn [negb].
    destruct (Js.truthy_str (m_message message) && _); reflexivity.
  - unfold shouldProcess. destruct (hasContent message); [reflexivity|].
    cbn. discriminate.
Qed.

(** X2: when the policy has [all] set, [shouldProcess] is truthy exactly for
    the messages with content; this is the case after every run of
    [configureDownload] that returns and had no configured policy (the
    default policy). *)
Theorem all_flag_keeps_every_content (this : DownloadChannel) (options : Options)
    (s : Sys) (message : Message) :
  (policy_lookup this "all" = JsBool true ->
   truthy (shouldProcess this message) = hasContent message)
  /\ (forall r s',
        configureDownload options s = (Ok r, s') ->
        opt_downloadableFiles options = None ->
        truthy (shouldProcess (self s') message) = hasContent message).
Proof.
  assert (Hall : forall d, policy_lookup d "all" = JsBool true ->
                           truthy (shouldProcess d message) = hasContent message).
  { intros d Hd. unfold shouldProcess. destruct (hasContent message); [|reflexivity].
    cbn [negb]. destruct (Js.truthy_str (m_message message) && _); [reflexivity|].
    destruct (m_media message); [|reflexivity].
    rewrite truthy_js_or, Hd. apply orb_true_r. }
  split; [apply Hall|].
  intros [channelId off] s' Hrun Hdefault. apply Hall.
  pose proof (configureDownload_cases options s) as Hcases. rewrite Hrun in Hcases.
  destruct Hcases as (_ & _ & _ & (mode & target & Hself & _) & _).
  rewrite Hself, Hdefault. reflexivity.
Qed.

(** ** Rate governor and retry *)

Lemma cooling_condition_low (s : Sys) :
  requestCount (self s) <= 15 -> cooling_condition s = false.
Proof.
  intros Hlow. unfold cooling_condition.
  replace (requestCount (self s) >? 15) with false; [reflexivity|].
  symmetry. rewrite Z.gtb_ltb. apply Z.ltb_ge. exact Hlow.
Qed.

Lemma checkRateLimit_lets_through (s : Sys) :
  requestCount (self s) <= 15 -> checkRateLimit s = (Ok tt, let_through s).
Proof.
  intros Hlow. rewrite checkRateLimit_run, (cooling_condition_low s Hlow).
  unfold let_through. rewrite app_nil_r. reflexivity.
Qed.

(** X3: the governor lets a burst through: as long as the counter of gated
    calls stays within 16, [n] calls of [checkRateLimit] in a row wait for
    nothing, however close in time they are, and only count. *)
Theorem checkRateLimit_burst (n : nat) (s : Sys)
    (Hroom : requestCount (self s) + Z.of_nat n <= 16) :
  fst (times n checkRateLimit s) = Ok tt
  /\ trace (world (snd (times n checkRateLimit s))) = trace (world s)
  /\ requestCount (self (snd (times n checkRateLimit s)))
     = requestCount (self s) + Z.of_nat n
  /\ tick (world (snd (times n checkRateLimit s))) = (tick (world s) + n)%nat.
Proof.
  revert s Hroom. induction n as [|n IH]; intros s Hroom.
  - cbn. repeat split; lia.
  - cbn [times]. unfold bind at 1 2 3 4.
    rewrite checkRateLimit_lets_through by lia.
    destruct (IH (let_through s)) as (Hok & Htrace & Hcount & Htick).
    { cbn. lia. }
    rewrite Hok, Htrace, Hcount, Htick. cbn. repeat split; lia.
Qed.

Lemma retry_loop_success {A} (fn : M A) (retries i left : nat) (s s1 : Sys) (a : A) :
  attempt fn s = (Ok a, s1) ->
  retry_loop fn retries i (S left) s = (Ok (Some a), s1).
Proof.
  unfold attempt. intros Hrun. cbn [retry_loop]. unfold try_catch, bind in *.
  destruct (checkRateLimit s) as [[[]|e|] s0]; try discriminate.
  destruct (fn s0) as [[a0|e|] s0']; try discriminate.
  injection Hrun as <- <-. reflexivity.
Qed.

Lemma retry_loop_failure {A} (fn : M A) (retries i left : nat) (s s1 : Sys) (e : Error) :
  attempt fn s = (Throw e, s1) ->
  retry_loop fn retries i (S left) s =
  if (i =? retries - 1)%nat then (Throw e, s1)
  else retry_loop fn retries (S i) left (after_wait (BACKOFF_BASE * 2 ^ Z.of_nat i) s1).
Proof.
  unfold attempt. intros Hrun. cbn [retry_loop]. unfold try_catch, bind in *.
  destruct (checkRateLimit s) as [[[]|e0|] s0].
  - destruct (fn s0) as [[a0|e0|] s0']; try discriminate.
    injection Hrun as <- <-. destruct (i =? retries - 1)%nat; reflexivity.
  - injection Hrun as <- <-. destruct (i =? retries - 1)%nat; reflexivity.
  - discriminate.
Qed.

Lemma retryWithBackoff_exhausted {A} (fn : M A) (s s1 s2 s3 : Sys) (e1 e2 e3 : Error) :
  attempt fn s = (Throw e1, s1) ->
  attempt fn (after_wait 1000 s1) = (Throw e2, s2) ->
  attempt fn (after_wait 2000 s2) = (Throw e3, s3) ->
  retryWithBackoff fn s = (Throw e3, s3).
Proof.
  intros H1 H2 H3. unfold retryWithBackoff, MAX_RETRIES.
  rewrite (retry_loop_failure fn 3 0 2 s s1 e1 H1). cbn [Nat.eqb Nat.sub].
  change (BACKOFF_BASE * 2 ^ Z.of_nat 0) with 1000.
  rewrite (retry_loop_failure fn 3 1 1 _ s2 e2 H2). cbn [Nat.eqb Nat.sub].
  change (BACKOFF_BASE * 2 ^ Z.of_nat 1) with 2000.
  rewrite (retry_loop_failure fn 3 2 0 _ s3 e3 H3). reflexivity.
Qed.

(** X4: [retryWithBackoff] gives up after three attempts: when the
    operation, each time after the governor let it through, throws three
    times, with a wait of 1 s after the first failure and of 2 s after the
    second, the third error is thrown as it is, and no wait follows it. *)
Theorem retry_gives_up_after_three {A} (fn : M A) (s s1 s2 s3 : Sys) (e1 e2 e3 : Error)
    (H1 : attempt fn s = (Throw e1, s1))
    (H2 : attempt fn (after_wait 1000 s1) = (Throw e2, s2))
    (H3 : attempt fn (after_wait 2000 s2) = (Throw e3, s3)) :
  retryWithBackoff fn s = (Throw e3, s3).
Proof.
  unfold retryWithBackoff, MAX_RETRIES.
  rewrite (retry_loop_failure fn 3 0 2 s s1 e1 H1). cbn [Nat.eqb Nat.sub].
  change (BACKOFF_BASE * 2 ^ Z.of_nat 0) with 1000.
  rewrite (retry_loop_failure fn 3 1 1 _ s2 e2 H2). cbn [Nat.eqb Nat.sub].
  change (BACKOFF_BASE * 2 ^ Z.of_nat 1) with 2000.
  rewrite (retry_loop_failure fn 3 2 0 _ s3 e3 H3). reflexivity.
Qed.

(** X5: [retryWithBackoff] returns the value of the first attempt that
    succeeds and makes no further attempt: at once when the first succeeds,
    after a wait of 1 s when the second does, after waits of 1 s and 2 s
    when the third does; the state is the one the successful attempt
    left. *)
Theorem retry_returns_first_success {A} (fn : M A) (s s1 s2 s3 : Sys) (e1 e2 : Error) (a : A) :
  (attempt fn s = (Ok a, s1) -> retryWithBackoff fn s = (Ok (Some a), s1))
  /\ (attempt fn s = (Throw e1, s1) ->
      attempt fn (after_wait 1000 s1) = (Ok a, s2) ->
      retryWithBackoff fn s = (Ok (Some a), s2))
  /\ (attempt fn s = (Throw e1, s1) ->
      attempt fn (after_wait 1000 s1) = (Throw e2, s2) ->
      attempt fn (after_wait 2000 s2) = (Ok a, s3) ->
      retryWithBackoff fn s = (Ok (Some a), s3)).
Proof.
  unfold retryWithBackoff, MAX_RETRIES. repeat split.
  - intros H1. exact (retry_loop_success fn 3 0 2 s s1 a H1).
  - intros H1 H2. rewrite (retry_loop_failure fn 3 0 2 s s1 e1 H1). cbn [Nat.eqb Nat.sub].
    change (BACKOFF_BASE * 2 ^ Z.of_nat 0) with 1000.
    exact (retry_loop_success fn 3 1 1 _ s2 a H2).
  - intros H1 H2 H3. rewrite (retry_loop_failure fn 3 0 2 s s1 e1 H1). cbn [Nat.eqb Nat.sub].
    change (BACKOFF_BASE * 2 ^ Z.of_nat 0) with 1000.
    rewrite (retry_loop_failure fn 3 1 1 _ s2 e2 H2). cbn [Nat.eqb Nat.sub].
    change (BACKOFF_BASE * 2 ^ Z.of_nat 1) with 2000.
    exact (retry_loop_success fn 3 2 0 _ s3 a H3).
Qed.

(** ** Download and upload of one message *)

(** X6: [downloadMessage] never throws and is confined to the download
    side: of the object it changes [totalDownloaded] only, which never
    decreases; it removes no file, leaves the checkpoint alone, and the only
    outside calls it makes are file writes and byte transfers: nothing is
    sent, forwarded or deleted. *)
Theorem downloadMessage_confined (client : bool) (message : Message) (s : Sys) :
  (exists r, fst (downloadMessage client message s) = Ok r)
  /\ download_frame s (snd (downloadMessage client message s)).
Proof.
  split.
  - apply safe_downloadMessage.
  - revert s. apply steps_downloadMessage. all: frame_facts.
Qed.

Lemma downloadMessage_run (client : bool) (message : Message) (s : Sys) :
  is_Some (m_media message) ->
  let mediaPath := getMediaPath message (outputFolder (self s)) in
  downloadMessage client message s =
  if bool_decide (mediaPath ∈ files (world s)) then (Ok (Some mediaPath), s)
  else
    match downloadMessageMedia client message mediaPath s with
    | (Ok true, s1) =>
        (Ok (Some mediaPath),
         mkSys (with_totalDownloaded (totalDownloaded (self s1) + 1) (self s1)) (world s1))
    | (Ok false, s1) => (Ok None, s1)
    | (Throw _, s1) => (Ok None, s1)
    | (OutOfFuel, s1) => (OutOfFuel, s1)
    end.
Proof.
  intros [media Hmedia]. cbv zeta.
  unfold downloadMessage, try_catch, checkFileExist, fs_existsSync, bind, get_self,
    get_world, modify_self, ret.
  rewrite Hmedia. cbn [fst snd self world].
  destruct (bool_decide _); [reflexivity|].
  destruct (downloadMessageMedia _ _ _ s) as [[[|]|e|] s1]; reflexivity.
Qed.

(** X7: what [downloadMessage] returns and what it counts: the result is
    [null] or the canonical path of the message; a path already on disk is
    returned with the state untouched; otherwise the path is returned
    exactly when [totalDownloaded] was incremented, by one. *)
Theorem downloadMessage_counts_what_it_fetches (client : bool) (message : Message) (s : Sys) :
  let mediaPath := getMediaPath message (outputFolder (self s)) in
  let r := downloadMessage client message s in
  (mediaPath ∈ files (world s) -> is_Some (m_media message) -> r = (Ok (Some mediaPath), s))
  /\ ((fst r = Ok None /\ totalDownloaded (self (snd r)) = totalDownloaded (self s))
      \/ (fst r = Ok (Some mediaPath)
          /\ (mediaPath ∈ files (world s)
              \/ totalDownloaded (self (snd r)) = totalDownloaded (self s) + 1))).
Proof.
  cbv zeta.
  destruct (m_media message) as [media|] eqn:Hmedia.
  2:{ unfold downloadMessage. rewrite Hmedia.
      split; [intros _ [? [=]]|]. left. split; reflexivity. }
  rewrite (downloadMessage_run client message s) by (rewrite Hmedia; eauto). cbv zeta.
  set (mediaPath := getMediaPath message (outputFolder (self s))).
  destruct (bool_decide (mediaPath ∈ files (world s))) eqn:Hdisk.
  - apply bool_decide_eq_true in Hdisk. split; [reflexivity|].
    right. split; [reflexivity|]. left. exact Hdisk.
  - apply bool_decide_eq_false in Hdisk. split; [intros Hin; contradiction|].
    destruct (safe_downloadMessageMedia client message mediaPath s) as [b Hb].
    assert (Hkept := downloadMessageMedia_self_kept client message mediaPath
                       ltac:(rewrite Hmedia; eauto) s).
    unfold self_kept in Hkept.
    destruct (downloadMessageMedia client message mediaPath s) as [r s1].
    cbn [fst snd] in Hb, Hkept. subst r. destruct b; cbn.
    + right. split; [reflexivity|]. right. rewrite Hkept. reflexivity.
    + left. split; [reflexivity|]. rewrite Hkept. reflexivity.
Qed.

(** X8: [uploadMessage] never throws and is confined to the upload side: of
    the object it changes [totalUploaded] only, which never decreases; it
    creates no file, leaves the checkpoint alone, and the only outside calls
    it makes are a forward, a send and the deletion of a file. *)
Theorem uploadMessage_confined (client : bool) (message : Message)
    (mediaPath : option string) (s : Sys) :
  (exists r, fst (uploadMessage client message mediaPath s) = Ok r)
  /\ upload_frame s (snd (uploadMessage client message mediaPath s)).
Proof.
  split.
  - apply safe_uploadMessage.
  - revert s. apply steps_uploadMessage. all: frame_facts.
Qed.

Lemma fs_unlinkSync_run (p : string) (s : Sys) :
  try_catch (fs_unlinkSync p) (fun _ => ret tt) s =
  (Ok tt,
   mkSys (self s)
     (mkWorld (S (tick (world s)))
        (match unlinkSync_at (tick (world s)) with
         | Some _ => files (world s)
         | None => files (world s) ∖ {[p]}
         end)
        (lastSelection (world s)) (trace (world s) ++ [EvUnlink p])%list)).
Proof.
  unfold try_catch, fs_unlinkSync, bind, next_tick, emit, set_files, modify_world, throw, ret.
  cbn. destruct (unlinkSync_at _); reflexivity.
Qed.

(** The state after the successful upload of a message by [uploadMessage]:
    the count, then the cleanup of the local file. *)
Lemma uploadMessage_run (client : bool) (message : Message) (mediaPath : option string)
    (target : Z) (s : Sys) :
  uploadMode (self s) = true ->
  target_of (self s) = Some target ->
  uploadMessage client message mediaPath s =
  match uploadMessageToChannel client target message mediaPath s with
  | (Ok true, s1) =>
      let s2 :=
        mkSys (with_totalUploaded (totalUploaded (self s1) + 1) (self s1)) (world s1) in
      if has_local_file mediaPath (world s1)
      then (Ok true, snd (try_catch (fs_unlinkSync (default "" mediaPath)) (fun _ => ret tt) s2))
      else (Ok true, s2)
  | (Ok false, s1) => (Ok false, s1)
  | (Throw _, s1) => (Ok false, s1)
  | (OutOfFuel, s1) => (OutOfFuel, s1)
  end.
Proof.
  intros Hmode Htarget.
  unfold uploadMessage, try_catch at 1, bind at 1 2, get_self.
  rewrite Hmode, Htarget.
  destruct (uploadMessageToChannel client target message mediaPath s) as [[[|]|e|] s1];
    try reflexivity.
  unfold modify_self, localFileAvailable, get_world, bind at 1 2 3 4. unfold ret at 1.
  cbn beta iota zeta. cbn [fst snd self world].
  destruct (has_local_file mediaPath (world s1)); [|reflexivity].
  rewrite fs_unlinkSync_run. reflexivity.
Qed.

(** X9: [uploadMessage] returns [true] exactly when it incremented
    [totalUploaded], by one; with upload mode off or no target channel it
    returns [false] and does nothing at all; a failure of the upload, or of
    the cleanup after it, is never thrown. *)
Theorem uploadMessage_counts_what_it_sends (client : bool) (message : Message)
    (mediaPath : option string) (s : Sys) :
  let r := uploadMessage client message mediaPath s in
  (exists b, fst r = Ok b
             /\ totalUploaded (self (snd r))
                = totalUploaded (self s) + (if b then 1 else 0))
  /\ (uploadMode (self s) = false \/ target_of (self s) = None -> r = (Ok false, s)).
Proof.
  cbv zeta.
  destruct (uploadMode (self s)) eqn:Hmode.
  2:{ unfold uploadMessage, try_catch, bind, get_self. rewrite Hmode.
      split; [exists false; split; [reflexivity|cbn; lia]|reflexivity]. }
  destruct (target_of (self s)) as [target|] eqn:Htarget.
  2:{ unfold uploadMessage, try_catch, bind, get_self. rewrite Hmode, Htarget.
      split; [exists false; split; [reflexivity|cbn; lia]|reflexivity]. }
  split; [|intros [[=]|[=]]].
  rewrite (uploadMessage_run client message mediaPath target s Hmode Htarget).
  assert (Htotal := total_uploadMessageToChannel client target message mediaPath s).
  assert (Hkept := uploadMessageToChannel_self_kept client target message mediaPath s).
  unfold self_kept in Hkept.
  destruct (uploadMessageToChannel client target message mediaPath s) as [[[|]|e|] s1];
    cbn [fst snd] in Htotal, Hkept.
  - exists true. cbv zeta. destruct (has_local_file mediaPath (world s1)).
    + rewrite fs_unlinkSync_run. cbn. split; [reflexivity|]. rewrite Hkept. reflexivity.
    + cbn. split; [reflexivity|]. rewrite Hkept. reflexivity.
  - exists false. cbn. split; [reflexivity|]. rewrite Hkept. lia.
  - exists false. cbn. split; [reflexivity|]. rewrite Hkept. lia.
  - contradiction.
Qed.

(** ** Transfers of one message *)

Lemma target_of_truthy (this : DownloadChannel) (target : Z) :
  target_of this = Some target -> Js.truthy_num target = true.
Proof.
  unfold target_of. destruct (targetChannelId this) as [z|]; [|discriminate].
  destruct (Js.truthy_num z) eqn:Hz; [|discriminate]. intros [= <-]. exact Hz.
Qed.

Lemma has_local_file_on_disk (p : string) (w : World) :
  Js.truthy_str (Some p) = true -> p ∈ files w -> has_local_file (Some p) w = true.
Proof.
  intros Hp Hin. unfold has_local_file. rewrite Hp. cbn [andb].
  apply bool_decide_eq_true_2. exact Hin.
Qed.

(** X10: in upload mode, a message with media whose local file is on disk
    is sent from that file and the file is then deleted: one send carrying
    the local path (or, for a structured payload, the text that replaces
    it), then one [unlink] of the path; [totalUploaded] is incremented and
    the result is [true] also when the deletion fails, in which case the
    file stays. *)
Theorem upload_then_cleanup (message : Message) (media : Media) (p : string)
    (target : Z) (s : Sys)
    (Hmode : uploadMode (self s) = true)
    (Htarget : target_of (self s) = Some target)
    (Hmedia : m_media message = Some media)
    (Hpath : Js.truthy_str (Some p) = true)
    (Hdisk : p ∈ files (world s))
    (Hsent : client_sendMessage_at (tick (world s)) = inr true) :
  uploadMessage true message (Some p) s =
  (Ok true,
   mkSys (with_totalUploaded (totalUploaded (self s) + 1) (self s))
     (mkWorld (S (S (tick (world s))))
        (match unlinkSync_at (S (tick (world s))) with
         | Some _ => files (world s)
         | None => files (world s) ∖ {[p]}
         end)
        (lastSelection (world s))
        (trace (world s)
         ++ [EvSend target
               (specialMedia media (caption_of message)
                  (attachLocalFile media p
                     (mkUploadOptions (caption_of message) (default [] (m_entities message))
                        None false None None None false false)));
             EvUnlink p])%list)).
Proof.
  rewrite (uploadMessage_run true message (Some p) target s Hmode Htarget).
  assert (Hrun : uploadMessageToChannel true target message (Some p) s =
    (Ok true,
     mkSys (self s)
       (mkWorld (S (tick (world s))) (files (world s)) (lastSelection (world s))
          (trace (world s)
           ++ [EvSend target
                 (specialMedia media (caption_of message)
                    (attachLocalFile media p
                       (mkUploadOptions (caption_of message)
                          (default [] (m_entities message))
                          None false None None None false false)))])%list))).
  { unfold uploadMessageToChannel. rewrite (target_of_truthy _ _ Htarget), Hmedia.
    unfold localFileAvailable, get_world, try_catch, bind, ret. cbn [negb orb fst snd].
    rewrite (has_local_file_on_disk p (world s) Hpath Hdisk).
    unfold client_sendMessage, next_tick, emit, modify_world, bind, ret.
    cbn [fst snd self world tick files lastSelection trace default].
    rewrite Hsent. reflexivity. }
  rewrite Hrun. cbv zeta. cbn [world self].
  rewrite (has_local_file_on_disk p _ Hpath) by exact Hdisk.
  rewrite fs_unlinkSync_run. cbn [snd self world tick files lastSelection trace default].
  rewrite <- app_assoc. reflexivity.
Qed.

Lemma saved_as_json_rest (message : Message) (media : Media) (mediaPath : string) :
  saved_as_json media = true ->
  exists suffix, suffix ∈ json_suffixes
    /\ downloadMedia_rest message media mediaPath =
       (do! fs_writeFileSync (sidecar mediaPath (m_id message) suffix) in ret true).
Proof.
  unfold saved_as_json, downloadMedia_rest, json_suffixes. intros Hjson.
  destruct (md_poll media); [eexists; split; [|reflexivity]; set_solver|].
  destruct (md_geo media); [eexists; split; [|reflexivity]; set_solver|].
  destruct (md_contact media); [eexists; split; [|reflexivity]; set_solver|].
  destruct (md_venue media); [eexists; split; [|reflexivity]; set_solver|].
  discriminate.
Qed.

Lemma fs_writeFileSync_run (p : string) (s : Sys) :
  fs_writeFileSync p s =
  (match writeFileSync_at (tick (world s)) with Some e => Throw e | None => Ok tt end,
   mkSys (self s)
     (mkWorld (S (tick (world s)))
        (match writeFileSync_at (tick (world s)) with
         | Some _ => files (world s)
         | None => {[p]} ∪ files (world s)
         end)
        (lastSelection (world s)) (trace (world s) ++ [EvWriteFile p])%list)).
Proof.
  unfold fs_writeFileSync, next_tick, emit, set_files, modify_world, throw, bind, ret.
  cbn. destruct (writeFileSync_at _); reflexivity.
Qed.

(** X11: a poll, location, contact or venue (without a web page) is saved
    as one JSON file beside the media path and nothing is transferred; when
    the write succeeds [downloadMessage] counts it in [totalDownloaded] and
    returns the canonical media path, not the file written; when the write
    fails it returns [null] and counts nothing. *)
Theorem json_payload_saved_beside (message : Message) (media : Media) (s : Sys) :
  let mediaPath := getMediaPath message (outputFolder (self s)) in
  forall (Hmedia : m_media message = Some media)
         (Hplain : md_webpage media = None)
         (Hjson : saved_as_json media = true)
         (Hpath : Js.truthy_str (Some mediaPath) = true)
         (Hnew : mediaPath ∉ files (world s)),
  exists suffix, suffix ∈ json_suffixes /\
    let beside := sidecar mediaPath (m_id message) suffix in
    downloadMessage true message s =
    match writeFileSync_at (tick (world s)) with
    | None =>
        (Ok (Some mediaPath),
         mkSys (with_totalDownloaded (totalDownloaded (self s) + 1) (self s))
           (mkWorld (S (tick (world s))) ({[beside]} ∪ files (world s))
              (lastSelection (world s)) (trace (world s) ++ [EvWriteFile beside])%list))
    | Some _ =>
        (Ok None,
         mkSys (self s)
           (mkWorld (S (tick (world s))) (files (world s))
              (lastSelection (world s)) (trace (world s) ++ [EvWriteFile beside])%list))
    end.
Proof.
  intros mediaPath Hmedia Hplain Hjson Hpath Hnew.
  destruct (saved_as_json_rest message media mediaPath Hjson) as (suffix & Hin & Hrest).
  exists suffix. split; [exact Hin|]. cbv zeta.
  rewrite (downloadMessage_run true message s) by (rewrite Hmedia; eauto). cbv zeta.
  fold mediaPath. rewrite bool_decide_eq_false_2 by exact Hnew.
  unfold downloadMessageMedia. rewrite Hpath, Hmedia, Hplain, Hrest.
  cbn [negb orb]. unfold try_catch, bind. rewrite fs_writeFileSync_run.
  destruct (writeFileSync_at (tick (world s))); reflexivity.
Qed.

Lemma client_downloadMedia_run (id : Z) (f : string) (b : TransferBranch) (s : Sys) :
  client_downloadMedia id f b s =
  (match client_downloadMedia_at (tick (world s)) with Some e => Throw e | None => Ok tt end,
   mkSys (self s)
     (mkWorld (S (tick (world s)))
        (match client_downloadMedia_at (tick (world s)) with
         | Some _ => files (world s)
         | None => {[f]} ∪ files (world s)
         end)
        (lastSelection (world s)) (trace (world s) ++ [EvDownloadMedia id f b])%list)).
Proof.
  unfold client_downloadMedia, next_tick, emit, set_files, modify_world, throw, bind, ret.
  cbn. destruct (client_downloadMedia_at _); reflexivity.
Qed.

Lemma not_saved_as_json_rest (message : Message) (media : Media) (mediaPath : string) :
  saved_as_json media = false ->
  downloadMedia_rest message media mediaPath =
  (do! client_downloadMedia (m_id message) mediaPath MediaBranch in ret true).
Proof.
  unfold saved_as_json, downloadMedia_rest. intros Hjson.
  destruct (md_poll media); [discriminate|].
  destruct (md_geo media); [discriminate|].
  destruct (md_contact media); [discriminate|].
  destruct (md_venue media); [discriminate|]. reflexivity.
Qed.

(** X12: for a web page preview (without poll, location, contact or venue)
    [downloadMessageMedia] never writes the media path it was given: it
    only writes [<id>_webpage.txt] and transfers the photo to
    [<id>_webpage_image.jpeg], both beside it; without a photo nothing is
    transferred. *)
Theorem webpage_preview_saved_beside (client : bool) (message : Message) (media : Media)
    (webpage : Webpage) (mediaPath : string) (s : Sys)
    (Hmedia : m_media message = Some media)
    (Hwebpage : md_webpage media = Some webpage)
    (Hjson : saved_as_json media = false) :
  let s' := snd (downloadMessageMedia client message mediaPath s) in
  trace_grows (webpage_event mediaPath (m_id message)) s s'
  /\ files (world s') ⊆
     {[sidecar mediaPath (m_id message) "_webpage.txt";
       sidecar mediaPath (m_id message) "_webpage_image.jpeg"]} ∪ files (world s)
  /\ (wp_photo webpage = None ->
      trace_grows (fun e => e = EvWriteFile (sidecar mediaPath (m_id message) "_webpage.txt"))
        s s').
Proof.
  cbv zeta. unfold downloadMessageMedia, trace_grows, webpage_event.
  rewrite Hmedia, Hwebpage.
  destruct (negb client || negb (Js.truthy_str (Some mediaPath))).
  { cbn. repeat split; [exists []| apply union_subseteq_r | exists []];
      rewrite ?app_nil_r; auto. }
  destruct (Js.truthy_str (wp_url webpage)), (wp_photo webpage) as [photo|];
    try rewrite (not_saved_as_json_rest message media _ Hjson);
    unfold try_catch, bind, ret; rewrite ?fs_writeFileSync_run;
    destruct (writeFileSync_at (tick (world s)));
    cbn [fst snd]; rewrite ?client_downloadMedia_run;
    cbn [fst snd self world tick files lastSelection trace];
    repeat match goal with
           | |- context [client_downloadMedia_at ?n] => destruct (client_downloadMedia_at n)
           end;
    cbn [fst snd self world tick files lastSelection trace].
  all: repeat split; try discriminate.
  all: try match goal with
           | |- _ ⊆ _ =>
               apply elem_of_subseteq; intros x;
               rewrite ?elem_of_union, ?elem_of_singleton; tauto
           end.
  all: rewrite <- ?app_assoc.
  all: try (eexists; split; [reflexivity|]; repeat constructor; auto; fail).
  all: try (exists []; rewrite app_nil_r; split; [reflexivity|constructor]).
Qed.

Lemma specialMedia_entities (media : Media) (c : string) (u : UploadOptions) :
  uo_entities (specialMedia media c u) = uo_entities u.
Proof.
  unfold specialMedia.
  destruct (md_poll media), (md_geo media), (md_contact media), (md_venue media),
    (md_webpage media); reflexivity.
Qed.

Lemma specialMedia_plain (media : Media) (c : string) (u : UploadOptions) :
  structured media = false -> specialMedia media c u = u.
Proof.
  unfold structured, specialMedia.
  destruct (md_poll media), (md_geo media), (md_contact media), (md_venue media),
    (md_webpage media); try discriminate; reflexivity.
Qed.

Lemma attachLocalFile_text (media : Media) (p : string) (u : UploadOptions) :
  uo_entities (attachLocalFile media p u) = uo_entities u
  /\ uo_message (attachLocalFile media p u) = uo_message u.
Proof.
  unfold attachLocalFile.
  destruct (md_photo media), (md_document media), (md_video media); split; reflexivity.
Qed.

Lemma attachMediaReference_text (media : Media) (u : UploadOptions) :
  uo_entities (attachMediaReference media u) = uo_entities u
  /\ uo_message (attachMediaReference media u) = uo_message u.
Proof.
  unfold attachMediaReference.
  destruct (md_photo media), (md_document media), (md_video media), (md_audio media),
    (md_voice media); split; reflexivity.
Qed.

Lemma keeps_formatting_special (message : Message) (media : Media) (u : UploadOptions) :
  m_media message = Some media ->
  uo_entities u = default [] (m_entities message) ->
  uo_message u = caption_of message ->
  keeps_formatting message (specialMedia media (caption_of message) u).
Proof.
  intros Hmedia Hent Hmsg. split.
  - rewrite specialMedia_entities. exact Hent.
  - destruct (structured media) eqn:Hst.
    + right. eauto.
    + left. rewrite (specialMedia_plain media _ u Hst). exact Hmsg.
Qed.

(** X13: [uploadMessageToChannel] touches neither the object, the files nor
    the checkpoint, and makes at most one forward followed by at most one
    send, both to the target it was given.  A forward is tried only for a
    message with media and no local file.  Whatever is sent carries the
    entities of the original message unchanged, and its caption as the text
    unless the media is a structured payload. *)
Theorem uploadMessageToChannel_shape (client : bool) (target : Z) (message : Message)
    (mediaPath : option string) (s : Sys) :
  let s' := snd (uploadMessageToChannel client target message mediaPath s) in
  let forward := EvForward target (m_id message) (m_peerId message) in
  self s' = self s
  /\ files (world s') = files (world s)
  /\ lastSelection (world s') = lastSelection (world s)
  /\ exists evs,
       trace (world s') = (trace (world s) ++ evs)%list
       /\ (evs = [] \/ evs = [forward]
           \/ exists o, keeps_formatting message o
                        /\ (evs = [EvSend target o] \/ evs = [forward; EvSend target o]))
       /\ (In forward evs ->
           is_Some (m_media message) /\ has_local_file mediaPath (world s) = false).
Proof.
  cbv zeta. unfold uploadMessageToChannel. rewrite try_catch_rethrow_state.
  match goal with |- context [snd (?c s)] => remember (snd (c s)) as s' eqn:Hs' end.
  assert (Hnothing : forall P : list Event -> Prop, s' = s ->
            self s' = self s /\ files (world s') = files (world s)
            /\ lastSelection (world s') = lastSelection (world s)
            /\ exists evs, trace (world s') = (trace (world s) ++ evs)%list
                 /\ (evs = [] \/ P evs) /\ (In (EvForward target (m_id message) (m_peerId message)) evs ->
                     is_Some (m_media message) /\ has_local_file mediaPath (world s) = false)).
  { intros P ->. repeat split. exists []. rewrite app_nil_r.
    refine (conj eq_refl (conj (or_introl eq_refl) _)). intros []. }
  destruct (negb client || negb (Js.truthy_num target)).
  { apply (Hnothing (fun evs => _ \/ _)). subst s'. reflexivity. }
  destruct (m_media message) as [media|] eqn:Hmedia.
  - unfold bind at 1 in Hs'. rewrite localFileAvailable_run in Hs'.
    destruct (has_local_file mediaPath (world s)) eqn:Hlocal.
    + rewrite client_sendMessage_run in Hs'. subst s'. cbn. repeat split.
      eexists. split; [reflexivity|]. split.
      * right. right. eexists. split; [|left; reflexivity].
        apply keeps_formatting_special; [exact Hmedia| |];
          apply (attachLocalFile_text media).
      * intros [[=]|[]].
    + unfold try_catch, bind, ret in Hs'. rewrite client_forwardMessages_run in Hs'.
      destruct (client_forwardMessages_at (tick (world s))) as [e|r]; cbn [fst snd] in Hs'.
      * rewrite client_sendMessage_run in Hs'. subst s'. cbn. repeat split.
        eexists. rewrite <- app_assoc. split; [reflexivity|]. split.
        -- right. right. eexists. split; [|right; reflexivity].
           apply keeps_formatting_special; [exact Hmedia| |];
             apply (attachMediaReference_text media).
        -- intros _. split; [eauto|reflexivity].
      * subst s'. cbn. repeat split. eexists. split; [reflexivity|]. split.
        -- right. left. reflexivity.
        -- intros _. split; [eauto|reflexivity].
  - destruct (m_sticker message) as [st|].
    + rewrite client_sendMessage_run in Hs'. subst s'. cbn. repeat split.
      eexists. split; [reflexivity|]. split.
      * right. right. eexists. split; [|left; reflexivity]. split; [reflexivity|left; reflexivity].
      * intros [[=]|[]].
    + destruct (negb (Js.truthy_str (Some (trim (caption_of message))))).
      * apply (Hnothing (fun evs => _ \/ _)). subst s'. reflexivity.
      * rewrite client_sendMessage_run in Hs'. subst s'. cbn. repeat split.
        eexists. split; [reflexivity|]. split.
        -- right. right. eexists. split; [|left; reflexivity].
           split; [reflexivity|left; reflexivity].
        -- intros [[=]|[]].
Qed.

(** ** The page driver *)

Lemma bind_ok {A B} (c : M A) (k : A -> M B) (s s1 : Sys) (a : A) :
  c s = (Ok a, s1) -> bind c k s = k a s1.
Proof. intros Hc. unfold bind. rewrite Hc. reflexivity. Qed.

Lemma try_catch_ok {A} (c : M A) (h : Error -> M A) (s s1 : Sys) (a : A) :
  c s = (Ok a, s1) -> try_catch c h s = (Ok a, s1).
Proof. intros Hc. unfold try_catch. rewrite Hc. reflexivity. Qed.

Lemma bind_throw {A B} (c : M A) (k : A -> M B) (s s1 : Sys) (e : Error) :
  c s = (Throw e, s1) -> bind c k s = (Throw e, s1).
Proof. intros Hc. unfold bind. rewrite Hc. reflexivity. Qed.


Lemma includes_wrapped_getMessages (m : string) :
  Js.includes "FLOOD_WAIT" ("Failed to get messages: " +:+ m) = Js.includes "FLOOD_WAIT" m.
Proof. reflexivity. Qed.

Lemma match_digits_wrapped_getMessages (m : string) :
  Js.match_digits ("Failed to get messages: " +:+ m) = Js.match_digits m.
Proof. reflexivity. Qed.

Lemma includes_wrapped_getMessageDetail (m : string) :
  Js.includes "FLOOD_WAIT" ("Failed to get message details: " +:+ m)
  = Js.includes "FLOOD_WAIT" m.
Proof. reflexivity. Qed.

Lemma match_digits_wrapped_getMessageDetail (m : string) :
  Js.match_digits ("Failed to get message details: " +:+ m) = Js.match_digits m.
Proof. reflexivity. Qed.

Lemma attempt_let_through {A} (fn : M A) (s : Sys) :
  requestCount (self s) <= 15 -> attempt fn s = fn (let_through s).
Proof.
  intros Hlow. unfold attempt, bind. rewrite (checkRateLimit_lets_through s Hlow).
  destruct (fn (let_through s)) as [[a|e|] s1]; reflexivity.
Qed.

Lemma getMessages_run (channelId limit offsetId : Z) (s : Sys) :
  Js.truthy_num channelId = true ->
  getMessages true channelId limit offsetId s =
  (match client_getMessages_at (tick (world s)) with
   | inl e => Throw (mkError ("Failed to get messages: " +:+ err_message e))
   | inr ms => Ok ms
   end,
   mkSys (self s)
     (mkWorld (S (tick (world s))) (files (world s)) (lastSelection (world s))
        (trace (world s) ++ [EvGetMessages channelId limit offsetId])%list)).
Proof.
  intros Hc. unfold getMessages. rewrite Hc. cbn [negb orb].
  unfold client_getMessages, next_tick, emit, modify_world, throw, try_catch, bind, ret.
  cbn. destruct (client_getMessages_at _); reflexivity.
Qed.

Ltac refused_attempt H :=
  rewrite attempt_let_through by (cbn; lia);
  rewrite getMessages_run by assumption;
  cbn [let_through after_wait wait emit modify_world snd fst self world tick files
       lastSelection trace requestCount with_requestCount with_lastRequestTime
       with_outputFolder];
  rewrite H; reflexivity.

Lemma fetch_refused_three_times (channelId offsetMsgId : Z) (s : Sys) (e1 e2 e3 : Error) :
  Js.truthy_num channelId = true ->
  requestCount (self s) <= 13 ->
  client_getMessages_at (1 + tick (world s)) = inl e1 ->
  client_getMessages_at (3 + tick (world s)) = inl e2 ->
  client_getMessages_at (5 + tick (world s)) = inl e3 ->
  exists s3,
    retryWithBackoff (getMessages true channelId MESSAGE_LIMIT offsetMsgId) s
    = (Throw (mkError ("Failed to get messages: " +:+ err_message e3)), s3)
    /\ trace (world s3)
       = (trace (world s)
          ++ [EvGetMessages channelId MESSAGE_LIMIT offsetMsgId; EvWait 1000;
              EvGetMessages channelId MESSAGE_LIMIT offsetMsgId; EvWait 2000;
              EvGetMessages channelId MESSAGE_LIMIT offsetMsgId])%list
    /\ tick (world s3) = (6 + tick (world s))%nat
    /\ lastSelection (world s3) = lastSelection (world s)
    /\ files (world s3) = files (world s)
    /\ counters (self s3) = counters (self s)
    /\ outputFolder (self s3) = outputFolder (self s)
    /\ requestCount (self s3) = requestCount (self s) + 3.
Proof.
  intros Hc Hlow H1 H2 H3. cbn [Nat.add] in H1, H2, H3.
  eexists. split.
  - eapply retryWithBackoff_exhausted.
    + refused_attempt H1.
    + refused_attempt H2.
    + refused_attempt H3.
  - cbn. rewrite <- !app_assoc. repeat split. lia.
Qed.

Lemma downloadChannel_body_fetch (recurse : Z -> M unit) (client : bool)
    (channelId offsetMsgId : Z) (s : Sys) :
  downloadChannel_body recurse client channelId offsetMsgId s =
  match retryWithBackoff (getMessages client channelId MESSAGE_LIMIT offsetMsgId)
          (page_start channelId s) with
  | (Ok None, s1) =>
      (Throw (mkError "Cannot read properties of undefined (reading 'length')"), s1)
  | (Ok (Some []), s1) => showProgress 0 s1
  | (Ok (Some messages), s1) =>
      match retryWithBackoff (getMessageDetail client channelId (map m_id messages)) s1 with
      | (Ok None, s2) =>
          (Throw (mkError "Cannot read properties of undefined (reading 'filter')"), s2)
      | (Ok (Some details), s2) =>
          let messagesToProcess :=
            filter (fun msg => truthy (shouldProcess (self s2) msg) = true) details in
          (do! runBatches client messagesToProcess in
           do! recordMessages details in
           do! updateLastSelection (Some (last_id messages)) None in
           do! showProgress (length messagesToProcess) in
           do! wait RATE_LIMIT_DELAY in
           recurse (last_id messages)) s2
      | (Throw e, s2) => (Throw e, s2)
      | (OutOfFuel, s2) => (OutOfFuel, s2)
      end
  | (Throw e, s1) => (Throw e, s1)
  | (OutOfFuel, s1) => (OutOfFuel, s1)
  end.
Proof.
  unfold downloadChannel_body, page_start, bind at 1 2, modify_self. cbn [fst snd].
  destruct (retryWithBackoff _ _) as [[[[|m ms]|]|e|] s1]; try reflexivity.
  unfold bind at 1.
  destruct (retryWithBackoff _ s1) as [[[details|]|e|] s2]; try reflexivity.
Qed.

(** X14: a flood wait on the page fetch, from the transport's answers on:
    with room left in the governor, when the transport refuses the fetch
    three times and the third refusal is a flood wait with a hint, the
    driver has fetched three times with backoffs of 1 s and 2 s, then waits
    the hinted seconds and calls itself with the same offset; the prefix
    that [getMessages] puts before the error hides neither the marker nor
    the hint; checkpoint and progress counters are as before. *)
Theorem flood_wait_on_fetch (fuel : nat) (channelId offsetMsgId : Z) (s : Sys)
    (e1 e2 e3 : Error) (hint : string)
    (Hchannel : Js.truthy_num channelId = true)
    (Hroom : requestCount (self s) <= 13)
    (H1 : client_getMessages_at (1 + tick (world s)) = inl e1)
    (H2 : client_getMessages_at (3 + tick (world s)) = inl e2)
    (H3 : client_getMessages_at (5 + tick (world s)) = inl e3)
    (Hflood : Js.includes "FLOOD_WAIT" (err_message e3) = true)
    (Hhint : Js.match_digits (err_message e3) = Some hint) :
  exists s',
    downloadChannel (S fuel) true channelId offsetMsgId s
    = downloadChannel fuel true channelId offsetMsgId s'
    /\ trace (world s')
       = (trace (world s)
          ++ [EvGetMessages channelId MESSAGE_LIMIT offsetMsgId; EvWait 1000;
              EvGetMessages channelId MESSAGE_LIMIT offsetMsgId; EvWait 2000;
              EvGetMessages channelId MESSAGE_LIMIT offsetMsgId;
              EvWait (Js.parseInt hint * 1000)])%list
    /\ lastSelection (world s') = lastSelection (world s)
    /\ counters (self s') = counters (self s).
Proof.
  destruct (fetch_refused_three_times channelId offsetMsgId (page_start channelId s)
              e1 e2 e3 Hchannel Hroom H1 H2 H3)
    as (s3 & Hretry & Htrace & _ & Hsel & _ & Hcount & _).
  eexists. split.
  - erewrite downloadChannel_catch.
    + reflexivity.
    + rewrite downloadChannel_body_fetch, Hretry. reflexivity.
    + cbn [err_message]. rewrite includes_wrapped_getMessages. exact Hflood.
  - cbn [err_message]. rewrite (flood_hint_found _ hint)
      by (rewrite match_digits_wrapped_getMessages; exact Hhint).
    cbn. rewrite Htrace, Hsel, Hcount, <- app_assoc. repeat split.
Qed.

(** X15: any other failure of the page fetch ends the run: when the
    transport refuses the fetch three times and the third error is no flood
    wait, [downloadChannel] throws that error, with the prefix of
    [getMessages], after backoffs of 1 s and 2 s and no further wait;
    checkpoint and progress counters are as before. *)
Theorem fetch_failure_is_fatal (fuel : nat) (channelId offsetMsgId : Z) (s : Sys)
    (e1 e2 e3 : Error)
    (Hchannel : Js.truthy_num channelId = true)
    (Hroom : requestCount (self s) <= 13)
    (H1 : client_getMessages_at (1 + tick (world s)) = inl e1)
    (H2 : client_getMessages_at (3 + tick (world s)) = inl e2)
    (H3 : client_getMessages_at (5 + tick (world s)) = inl e3)
    (Hother : Js.includes "FLOOD_WAIT" (err_message e3) = false) :
  exists s',
    downloadChannel (S fuel) true channelId offsetMsgId s
    = (Throw (mkError ("Failed to get messages: " +:+ err_message e3)), s')
    /\ trace (world s')
       = (trace (world s)
          ++ [EvGetMessages channelId MESSAGE_LIMIT offsetMsgId; EvWait 1000;
              EvGetMessages channelId MESSAGE_LIMIT offsetMsgId; EvWait 2000;
              EvGetMessages channelId MESSAGE_LIMIT offsetMsgId])%list
    /\ lastSelection (world s') = lastSelection (world s)
    /\ counters (self s') = counters (self s).
Proof.
  destruct (fetch_refused_three_times channelId offsetMsgId (page_start channelId s)
              e1 e2 e3 Hchannel Hroom H1 H2 H3)
    as (s3 & Hretry & Htrace & _ & Hsel & _ & Hcount & _).
  exists s3. split; [|repeat split; assumption].
  cbn [downloadChannel]. unfold try_catch.
  rewrite downloadChannel_body_fetch, Hretry. cbn [err_message].
  rewrite includes_wrapped_getMessages, Hother, andb_false_r. reflexivity.
Qed.

Lemma getMessageDetail_run (channelId : Z) (ids : list Z) (s : Sys) :
  Js.truthy_num channelId = true ->
  getMessageDetail true channelId ids s =
  (match client_getMessages_at (tick (world s)) with
   | inl e => Throw (mkError ("Failed to get message details: " +:+ err_message e))
   | inr ms => Ok ms
   end,
   mkSys (self s)
     (mkWorld (S (tick (world s))) (files (world s)) (lastSelection (world s))
        (trace (world s) ++ [EvGetDetail channelId ids])%list)).
Proof.
  intros Hc. unfold getMessageDetail. rewrite Hc. cbn [negb orb].
  unfold client_getMessages_ids, next_tick, emit, modify_world, throw, try_catch, bind, ret.
  cbn. destruct (client_getMessages_at _); reflexivity.
Qed.

Lemma fetch_answered (channelId offsetMsgId : Z) (s : Sys) (messages : list Message) :
  Js.truthy_num channelId = true ->
  requestCount (self s) <= 15 ->
  client_getMessages_at (1 + tick (world s)) = inr messages ->
  retryWithBackoff (getMessages true channelId MESSAGE_LIMIT offsetMsgId) s
  = (Ok (Some messages), gated_call (EvGetMessages channelId MESSAGE_LIMIT offsetMsgId) s).
Proof.
  intros Hc Hlow Hanswer. cbn [Nat.add] in Hanswer.
  apply retry_loop_success.
  rewrite attempt_let_through by exact Hlow.
  rewrite getMessages_run by exact Hc. cbn [let_through world tick]. rewrite Hanswer.
  reflexivity.
Qed.

Lemma detail_answered (channelId : Z) (ids : list Z) (s : Sys) (details : list Message) :
  Js.truthy_num channelId = true ->
  requestCount (self s) <= 15 ->
  client_getMessages_at (1 + tick (world s)) = inr details ->
  retryWithBackoff (getMessageDetail true channelId ids) s
  = (Ok (Some details), gated_call (EvGetDetail channelId ids) s).
Proof.
  intros Hc Hlow Hanswer. cbn [Nat.add] in Hanswer.
  apply retry_loop_success.
  rewrite attempt_let_through by exact Hlow.
  rewrite getMessageDetail_run by exact Hc. cbn [let_through world tick]. rewrite Hanswer.
  reflexivity.
Qed.

(** X16: an empty page ends the run: [downloadChannel] fetches once, logs
    the progress of an empty batch and returns without calling itself
    again (whatever the recursion budget); the checkpoint, the files and
    the progress counters are untouched, and [outputFolder] is the export
    folder of the channel. *)
Theorem empty_page_ends_the_run (fuel : nat) (channelId offsetMsgId : Z) (s : Sys)
    (Hchannel : Js.truthy_num channelId = true)
    (Hroom : requestCount (self s) <= 15)
    (Hempty : client_getMessages_at (1 + tick (world s)) = inr []) :
  exists s',
    downloadChannel (S fuel) true channelId offsetMsgId s = (Ok tt, s')
    /\ trace (world s')
       = (trace (world s)
          ++ [EvGetMessages channelId MESSAGE_LIMIT offsetMsgId; EvProgress 0])%list
    /\ lastSelection (world s') = lastSelection (world s)
    /\ files (world s') = files (world s)
    /\ counters (self s') = counters (self s)
    /\ outputFolder (self s') = Some (export_folder channelId).
Proof.
  eexists. split.
  - cbn [downloadChannel]. unfold try_catch.
    rewrite downloadChannel_body_fetch.
    rewrite (fetch_answered channelId offsetMsgId (page_start channelId s) []
               Hchannel Hroom Hempty).
    reflexivity.
  - cbn. rewrite <- app_assoc. repeat split.
Qed.

Lemma downloadChannel_throws_no_flood (fuel : nat) (client : bool)
    (channelId offsetMsgId : Z) (s s' : Sys) (e : Error) :
  downloadChannel fuel client channelId offsetMsgId s = (Throw e, s') ->
  Js.includes "FLOOD_WAIT" (err_message e) = false.
Proof.
  revert offsetMsgId s s' e. induction fuel as [|fuel IH]; intros offsetMsgId s s' e.
  - discriminate.
  - cbn [downloadChannel]. unfold try_catch.
    destruct (downloadChannel_body _ _ _ _ s) as [[[]|err|] s1]; try discriminate.
    destruct (Js.truthy_str (Some (err_message err))
              && Js.includes "FLOOD_WAIT" (err_message err)) eqn:Hflood.
    + unfold bind, wait, emit, modify_world. cbn [fst snd].
      match goal with
      | |- context [downloadChannel fuel client channelId offsetMsgId ?s0] =>
          destruct (downloadChannel fuel client channelId offsetMsgId s0)
            as [[[]|e0|] s2] eqn:Hnested
      end; try discriminate.
      intros [= <- <-]. exact (IH _ _ _ _ Hnested).
    + intros [= <- <-]. destruct (err_message err) as [|c rest] eqn:Hmsg.
      * reflexivity.
      * exact Hflood.
Qed.

Lemma try_catch_no_flood {A} (c : M A) (h : Error -> M A) (s : Sys) :
  (forall e s', c s = (Throw e, s') -> h e s' = (Throw e, s')) ->
  try_catch c h s = c s.
Proof.
  intros Hh. unfold try_catch. destruct (c s) as [[a|e|] s'] eqn:Hc; try reflexivity.
  apply Hh. reflexivity.
Qed.

Lemma runBatches_adds (client : bool) (messagesToProcess : list Message) :
  adds (Z.of_nat (length messagesToProcess)) (runBatches client messagesToProcess).
Proof.
  apply (adds_runBatches (fun _ => True) same_processed);
    first [ exact same_processed_refl | exact same_processed_trans
          | intros; exact I | intros; reflexivity | intros; assumption ].
Qed.

Lemma runBatches_frames (client : bool) (messagesToProcess : list Message) :
  steps selection_kept (runBatches client messagesToProcess)
  /\ steps driver_frame (runBatches client messagesToProcess).
Proof. split; apply steps_runBatches. all: frame_facts. Qed.

Lemma runBatches_folder_kept (client : bool) (messagesToProcess : list Message) :
  steps folder_kept (runBatches client messagesToProcess).
Proof. apply steps_runBatches. all: frame_facts. Qed.

Lemma invocations_await_events (i n left : nat) : invocations (await_events i n left) = [].
Proof.
  revert i. induction left as [|left IH]; intros i; [reflexivity|].
  cbn [await_events]. rewrite invocations_app, IH.
  destruct (i <? n - 1)%nat; reflexivity.
Qed.

Lemma recordMessages_self (messages : list Message) (s : Sys) :
  self (snd (recordMessages messages s)) = self s.
Proof.
  revert s. change (steps self_kept (recordMessages messages)).
  apply steps_recordMessages. all: frame_facts.
Qed.

(** [recordMessages] when the file system accepts the folder and the
    transcript. *)
Lemma recordMessages_ok (messages : list Message) (folder : string) (s : Sys) :
  outputFolder (self s) = Some folder ->
  (forall n, mkdirSync_at n = None) ->
  (forall n, appendToJSONArrayFile_at n = None) ->
  exists s' made,
    recordMessages messages s = (Ok tt, s')
    /\ self s' = self s
    /\ lastSelection (world s') = lastSelection (world s)
    /\ trace (world s') = (trace (world s) ++ made ++ [EvRecord (map m_id messages)])%list
    /\ invocations made = [].
Proof.
  intros Hfolder Hmkdir Happend.
  unfold recordMessages, fs_existsSync, fs_mkdirSync, appendToJSONArrayFile, set_files,
    next_tick, emit, modify_world, get_world, get_self, throw, bind, ret.
  cbn [fst snd self world]. rewrite Hfolder.
  destruct (bool_decide (folder ∈ files (world s)));
    cbn [fst snd self world tick files lastSelection trace];
    rewrite ?Hmkdir; cbn [fst snd self world tick files lastSelection trace];
    rewrite Happend; cbn [fst snd self world tick files lastSelection trace].
  - exists (mkSys (self s)
              (mkWorld (S (tick (world s)))
                 ({[path_join folder "all_messages.json"]} ∪ files (world s))
                 (lastSelection (world s))
                 (trace (world s) ++ [EvRecord (map m_id messages)]))), [].
    repeat split.
  - eexists _, [EvMkdir folder]. split; [reflexivity|].
    cbn. rewrite <- app_assoc. repeat split.
Qed.

(** [recordMessages] when the transcript cannot be written. *)
Lemma recordMessages_fails (messages : list Message) (folder : string) (s : Sys)
    (e : Error) :
  outputFolder (self s) = Some folder ->
  (forall n, mkdirSync_at n = None) ->
  (forall n, appendToJSONArrayFile_at n = Some e) ->
  exists s',
    recordMessages messages s = (Throw e, s')
    /\ lastSelection (world s') = lastSelection (world s).
Proof.
  intros Hfolder Hmkdir Happend.
  unfold recordMessages, fs_existsSync, fs_mkdirSync, appendToJSONArrayFile, set_files,
    next_tick, emit, modify_world, get_world, get_self, throw, bind, ret.
  cbn [fst snd self world]. rewrite Hfolder.
  destruct (bool_decide (folder ∈ files (world s)));
    cbn [fst snd self world tick files lastSelection trace];
    rewrite ?Hmkdir; cbn [fst snd self world tick files lastSelection trace];
    rewrite Happend; eexists; split; reflexivity.
Qed.

(** X17: a page that is not empty, from the transport's answers on.  After
    the fetch and the detail fetch the scheduler runs over the details that
    [shouldProcess] keeps.  When the file system accepts the folder and the
    transcript, every detail (kept or not) is recorded, the checkpoint
    offset becomes the id of the last fetched message while its channel is
    kept, the progress is logged, the driver waits 1.5 s and calls itself
    with that id as offset; [totalProcessedMessages] has grown by the number
    of kept details.  When the transcript cannot be written, the error (no
    flood wait) is thrown and the checkpoint is not advanced. *)
Theorem page_advances (fuel : nat) (channelId offsetMsgId : Z) (s : Sys)
    (messages details : list Message)
    (Hchannel : Js.truthy_num channelId = true)
    (Hroom : requestCount (self s) <= 14)
    (Hpage : client_getMessages_at (1 + tick (world s)) = inr messages)
    (Hsome : messages <> [])
    (Hdetails : client_getMessages_at (3 + tick (world s)) = inr details)
    (Hmkdir : forall n, mkdirSync_at n = None) :
  let kept :=
    filter (fun msg => truthy (shouldProcess
                                 (with_outputFolder (Some (export_folder channelId)) (self s))
                                 msg) = true) details in
  ((forall n, appendToJSONArrayFile_at n = None) ->
   exists s' evs,
     downloadChannel (S fuel) true channelId offsetMsgId s
     = downloadChannel fuel true channelId (last_id messages) s'
     /\ lastSelection (world s')
        = mkSelection (sel_channelId (lastSelection (world s))) (Some (last_id messages))
     /\ totalProcessedMessages (self s')
        = totalProcessedMessages (self s) + Z.of_nat (length kept)
     /\ trace (world s')
        = (trace (world s)
           ++ [EvGetMessages channelId MESSAGE_LIMIT offsetMsgId;
               EvGetDetail channelId (map m_id messages)]
           ++ evs
           ++ [EvRecord (map m_id details); EvProgress (length kept);
               EvWait RATE_LIMIT_DELAY])%list
     /\ invocations evs = batch_invocations 0 kept)
  /\ (forall e,
        (forall n, appendToJSONArrayFile_at n = Some e) ->
        Js.includes "FLOOD_WAIT" (err_message e) = false ->
        exists s',
          downloadChannel (S fuel) true channelId offsetMsgId s = (Throw e, s')
          /\ lastSelection (world s') = lastSelection (world s)
          /\ totalProcessedMessages (self s')
             = totalProcessedMessages (self s) + Z.of_nat (length kept)).
Proof.
  intros kept.
  set (s1 := gated_call (EvGetMessages channelId MESSAGE_LIMIT offsetMsgId)
               (page_start channelId s)).
  set (s2 := gated_call (EvGetDetail channelId (map m_id messages)) s1).
  assert (Hkept : filter (fun msg => truthy (shouldProcess (self s2) msg) = true) details
                  = kept).
  { reflexivity. }
  destruct (runBatches_shape true kept s2) as (started & Hok & Htrace & Hinv & _).
  destruct (runBatches_adds true kept s2) as [_ Hcount].
  destruct (runBatches_frames true kept) as [Hsel _]. specialize (Hsel s2).
  unfold selection_kept in Hsel.
  pose proof (runBatches_folder_kept true kept s2) as Hfolder. unfold folder_kept in Hfolder.
  destruct (runBatches true kept s2) as [r sb] eqn:Hrun.
  cbn [fst snd] in Hok, Htrace, Hcount, Hsel, Hfolder. subst r.
  assert (Hbatches : forall recurse,
    downloadChannel_body recurse true channelId offsetMsgId s
    = (do! recordMessages details in
       do! updateLastSelection (Some (last_id messages)) None in
       do! showProgress (length kept) in
       do! wait RATE_LIMIT_DELAY in
       recurse (last_id messages)) sb).
  { intros recurse. rewrite downloadChannel_body_fetch.
    rewrite (fetch_answered channelId offsetMsgId (page_start channelId s) messages
               Hchannel ltac:(cbn; lia) Hpage).
    destruct messages as [|m ms]; [contradiction|]. cbv beta iota. fold s1.
    rewrite (detail_answered channelId (map m_id (m :: ms)) s1 details
               Hchannel ltac:(cbn; lia) Hdetails).
    cbv beta iota zeta. fold s2. rewrite Hkept.
    unfold bind at 1. rewrite Hrun. reflexivity. }
  change (outputFolder (self s2)) with (Some (export_folder channelId)) in Hfolder.
  split.
  - intros Happend.
    destruct (recordMessages_ok details (export_folder channelId) sb Hfolder Hmkdir Happend)
      as (sr & made & Hrecord & Hself & Hchk & Hrec & Hmade).
    assert (Hbody : exists s',
      downloadChannel_body (downloadChannel fuel true channelId) true channelId offsetMsgId s
      = downloadChannel fuel true channelId (last_id messages) s'
      /\ self s' = self sr
      /\ lastSelection (world s')
         = mkSelection (sel_channelId (lastSelection (world sr))) (Some (last_id messages))
      /\ trace (world s')
         = (trace (world sr) ++ [EvProgress (length kept); EvWait RATE_LIMIT_DELAY])%list).
    { eexists. split.
      - rewrite Hbatches. erewrite bind_ok by exact Hrecord.
        unfold updateLastSelection, showProgress, wait, emit, modify_world, bind.
        cbn [fst snd]. reflexivity.
      - cbn. rewrite <- !app_assoc. repeat split. }
    destruct Hbody as (s' & Hbody & Hself' & Hchk' & Hrec').
    exists s', (started
                ++ await_events 0 (chunk_count (length kept)) (chunk_count (length kept))
                ++ made)%list.
    split; [|split; [|split; [|split]]].
    + cbn [downloadChannel]. rewrite try_catch_no_flood; [exact Hbody|].
      intros e s0 Hthrow. rewrite Hbody in Hthrow.
      rewrite (downloadChannel_throws_no_flood _ _ _ _ _ _ _ Hthrow), andb_false_r.
      reflexivity.
    + rewrite Hchk', Hchk, Hsel. reflexivity.
    + rewrite Hself', Hself, Hcount. reflexivity.
    + rewrite Hrec', Hrec, Htrace. cbn. rewrite <- !app_assoc. reflexivity.
    + rewrite !invocations_app, Hinv, invocations_await_events, Hmade, !app_nil_r.
      reflexivity.
  - intros e Happend Hother.
    destruct (recordMessages_fails details (export_folder channelId) sb e
                Hfolder Hmkdir Happend) as (sr & Hrecord & Hchk).
    exists sr. split; [|split].
    + cbn [downloadChannel]. unfold try_catch. rewrite Hbatches.
      erewrite bind_throw by exact Hrecord.
      rewrite Hother, andb_false_r. reflexivity.
    + rewrite Hchk, Hsel. reflexivity.
    + assert (Hself : self sr = self sb).
      { pose proof (recordMessages_self details sb) as Hs. rewrite Hrecord in Hs. exact Hs. }
      rewrite Hself, Hcount. reflexivity.
Qed.

(** X18: a flood wait never leaves the driver: an error that
    [downloadChannel] throws does not carry the flood-wait marker, since
    every error that does is answered by a wait and a new call. *)
Theorem flood_wait_never_escapes (fuel : nat) (client : bool)
    (channelId offsetMsgId : Z) (s : Sys) :
  match fst (downloadChannel fuel client channelId offsetMsgId s) with
  | Throw e => Js.includes "FLOOD_WAIT" (err_message e) = false
  | _ => True
  end.
Proof.
  destruct (downloadChannel fuel client channelId offsetMsgId s) as [[[]|e|] s'] eqn:Hrun;
    cbn [fst]; try exact I.
  exact (downloadChannel_throws_no_flood _ _ _ _ _ _ _ Hrun).
Qed.

(** X19: the page driver never touches the configuration: whatever the
    pages, the failures and the depth of the recursion, [downloadChannel]
    leaves [uploadMode], [targetChannelId], the policy, [totalMessages],
    [skippedFiles] and the channel of the checkpoint as they were (so
    [totalMessages] and [skippedFiles] stay at the 0 of the constructor). *)
Theorem downloadChannel_keeps_configuration (fuel : nat) (client : bool)
    (channelId offsetMsgId : Z) (s : Sys) :
  driver_frame s (snd (downloadChannel fuel client channelId offsetMsgId s)).
Proof. revert s. apply steps_downloadChannel. all: frame_facts. Qed.

(** ** One message through the pipeline *)

Lemma trace_grows_weaken (P Q : Event -> Prop) (s s' : Sys) :
  (forall e, P e -> Q e) -> trace_grows P s s' -> trace_grows Q s s'.
Proof.
  intros HPQ (evs & Ht & Hp). exists evs. split; [exact Ht|].
  eapply Forall_impl; eassumption.
Qed.

Lemma local_frame_trans (a b c : Sys) :
  local_frame a b -> local_frame b c -> local_frame a c.
Proof.
  intros (Hs1 & Hf1 & Ht1) (Hs2 & Hf2 & Ht2). split; [|split].
  - rewrite Hs2, Hs1. reflexivity.
  - etransitivity; eassumption.
  - eapply trace_grows_trans; eassumption.
Qed.

Lemma local_frame_event (e : Event) (s : Sys) :
  local_event e -> local_frame s (snd (emit e s)).
Proof.
  intros He. destruct s as [d w]. destruct d, w.
  split; [reflexivity|]. split; [reflexivity|].
  eapply trace_grows_one; [reflexivity|exact He].
Qed.

Lemma local_frame_download (s s' : Sys) : download_frame s s' -> local_frame s s'.
Proof.
  intros (Hs & _ & Hf & _ & Ht). split; [exact Hs|]. split; [exact Hf|].
  eapply trace_grows_weaken; [|exact Ht]. intros []; cbn; auto.
Qed.

(** The download step of [processMessage] (lines 232-236 and 241-245). *)
Lemma download_step_local (client : bool) (message : Message) (s : Sys) :
  exists mediaPath s',
    (let! mediaPath := downloadMessage client message in
     do! wait DOWNLOAD_DELAY in
     ret (true, mediaPath)) s = (Ok (true, mediaPath), s')
    /\ local_frame s s'.
Proof.
  destruct (safe_downloadMessage client message s) as [mediaPath Hok].
  assert (Hframe : download_frame s (snd (downloadMessage client message s))).
  { revert s Hok. intros s _. revert s. apply steps_downloadMessage. all: frame_facts. }
  unfold bind at 1. destruct (downloadMessage client message s) as [r s1].
  cbn [fst snd] in Hok, Hframe. subst r.
  eexists mediaPath, _. split; [reflexivity|].
  eapply local_frame_trans; [apply local_frame_download; exact Hframe|].
  apply (local_frame_event (EvWait DOWNLOAD_DELAY) s1). exact I.
Qed.

(** X20: in local mode (upload mode off) [processMessage] sends, forwards
    and deletes nothing: apart from its invocation and the waits, its only
    outside calls are file writes and byte transfers; no file leaves the
    disk, [totalUploaded] is unchanged, and the message is counted as
    processed. *)
Theorem local_mode_never_uploads (client : bool) (message : Message) (index total : nat)
    (s : Sys) (Hlocal : uploadMode (self s) = false) :
  let r := processMessage client message index total s in
  fst r = Ok tt
  /\ trace_grows local_event s (snd r)
  /\ files (world s) ⊆ files (world (snd r))
  /\ totalUploaded (self (snd r)) = totalUploaded (self s)
  /\ totalProcessedMessages (self (snd r)) = totalProcessedMessages (self s) + 1.
Proof.
  cbv zeta.
  assert (Hrun : exists s2,
    processMessage client message index total s
    = (Ok tt,
       mkSys (with_totalProcessedMessages (totalProcessedMessages (self s2) + 1) (self s2))
         (world s2))
    /\ local_frame s s2).
  { unfold processMessage, try_catch at 1, bind at 1, emit at 1, modify_world at 1.
    cbn [fst snd].
    set (s0 := mkSys (self s) _).
    assert (H0 : local_frame s s0).
    { apply (local_frame_event (EvInvoke (m_id message) index total) s). exact I. }
    assert (H1 : exists r1 s1,
      match m_media message with
      | Some _ =>
          let! mediaPath := downloadMessage client message in
          do! wait DOWNLOAD_DELAY in
          ret (true, mediaPath)
      | None =>
          ret (Js.truthy_str (m_message message)
               && Js.truthy_str (Some (trim (default "" (m_message message)))), None)
      end s0 = (Ok r1, s1) /\ local_frame s s1).
    { destruct (m_media message).
      - destruct (download_step_local client message s0) as (p & s1 & Hstep & Hframe).
        exists (true, p), s1. split; [exact Hstep|].
        eapply local_frame_trans; eassumption.
      - eexists _, s0. split; [reflexivity|exact H0]. }
    destruct H1 as (r1 & s1 & Hstep1 & Hframe1).
    unfold bind at 1. rewrite Hstep1.
    assert (H2 : exists r2 s2,
      match m_sticker message with
      | Some _ =>
          let! mediaPath := downloadMessage client message in
          do! wait DOWNLOAD_DELAY in
          ret (true, mediaPath)
      | None => ret r1
      end s1 = (Ok r2, s2) /\ local_frame s s2).
    { destruct (m_sticker message).
      - destruct (download_step_local client message s1) as (p & s2 & Hstep & Hframe).
        exists (true, p), s2. split; [exact Hstep|].
        eapply local_frame_trans; eassumption.
      - exists r1, s1. split; [reflexivity|exact Hframe1]. }
    destruct H2 as (r2 & s2 & Hstep2 & Hframe2).
    unfold bind at 1. rewrite Hstep2.
    exists s2. split; [|exact Hframe2].
    unfold bind at 1, get_self. cbn [fst snd].
    destruct Hframe2 as (Hself & _ & _).
    replace (uploadMode (self s2)) with false
      by (rewrite Hself; cbn; symmetry; exact Hlocal).
    reflexivity. }
  destruct Hrun as (s2 & -> & Hself & Hfiles & Htrace). cbn [fst snd self world].
  split; [reflexivity|]. split; [exact Htrace|]. split; [exact Hfiles|].
  rewrite Hself. split; reflexivity.
Qed.

(** X21: a message without media, without sticker and whose text is empty
    once trimmed goes through [processMessage] without any outside call, in
    upload mode too: nothing is downloaded, nothing is sent, no wait is
    made; it is only counted as processed. *)
Theorem message_without_content_is_only_counted (client : bool) (message : Message)
    (index total : nat) (s : Sys)
    (Hmedia : m_media message = None)
    (Hsticker : m_sticker message = None)
    (Hblank : Js.truthy_str (m_message message)
              && Js.truthy_str (Some (trim (default "" (m_message message)))) = false) :
  processMessage client message index total s =
  (Ok tt,
   mkSys (with_totalProcessedMessages (totalProcessedMessages (self s) + 1) (self s))
     (mkWorld (tick (world s)) (files (world s)) (lastSelection (world s))
        (trace (world s) ++ [EvInvoke (m_id message) index total])%list)).
Proof.
  unfold processMessage. rewrite Hmedia, Hsticker, Hblank.
  unfold try_catch, bind, emit, modify_world, modify_self, get_self, ret.
  cbn [fst snd self world]. rewrite andb_false_r. reflexivity.
Qed.

(** ** Scheduler *)

(** X22: the first loop of the scheduler cuts the page into consecutive
    chunks: the groups of promises, put end to end, are the messages of the
    page in order; every group holds between 1 and 5 of them; and there are
    [ceil(n / 5)] groups. *)
Theorem chunks_partition_the_page (client : bool) (messagesToProcess : list Message)
    (s : Sys) :
  exists processPromises,
    fst (startBatches client messagesToProcess 0 s) = Ok processPromises
    /\ concat processPromises = map m_id messagesToProcess
    /\ Forall (fun p => (1 <= length p <= MAX_PARALLEL_PROCESS)%nat) processPromises
    /\ length processPromises = chunk_count (length messagesToProcess).
Proof.
  destruct (startBatches_shape client messagesToProcess 0 s)
    as (s' & ps & evs & Hrun & _ & _ & _ & Hconcat & Hsize & Hlen).
  exists ps. rewrite Hrun. rewrite drop_0 in Hconcat. rewrite Nat.sub_0_r in Hlen.
  repeat split; assumption.
Qed.

Lemma schedule_app (a b : list Event) : schedule (a ++ b) = (schedule a ++ schedule b)%list.
Proof.
  induction a as [|e a IH]; [reflexivity|].
  destruct e; cbn [schedule app]; rewrite ?IH; reflexivity.
Qed.

Lemma schedule_started (evs : list Event) :
  Forall (fun e => ~ is_await e) evs ->
  schedule evs = map (fun p => Invoked (fst p) (snd p)) (invocations evs).
Proof.
  induction 1 as [|e evs He _ IH]; [reflexivity|].
  destruct e; cbn [schedule invocations map fst snd]; rewrite ?IH; try reflexivity.
  exfalso. apply He. exact I.
Qed.

Lemma schedule_await_events (i n left : nat) :
  schedule (await_events i n left) = map (fun k => Awaited k n) (seq i left).
Proof.
  revert i. induction left as [|left IH]; intros i; [reflexivity|].
  cbn [await_events seq map]. rewrite schedule_app, IH.
  destruct (i <? n - 1)%nat; reflexivity.
Qed.

(** X23: the scheduler returns on every page, and among the events it adds
    the invocations of [processMessage] and the [await]s of the groups stand
    in this order: one invocation per message, in page order with its page
    index, then one [await] per group, in order; no group is awaited before
    the last message is invoked. *)
Theorem scheduler_starts_all_then_awaits (client : bool) (messagesToProcess : list Message)
    (s : Sys) :
  let n := chunk_count (length messagesToProcess) in
  let r := runBatches client messagesToProcess s in
  fst r = Ok tt
  /\ exists evs,
       trace (world (snd r)) = (trace (world s) ++ evs)%list
       /\ schedule evs
          = (imap (fun index message => Invoked (m_id message) index) messagesToProcess
             ++ map (fun i => Awaited i n) (seq 0 n))%list.
Proof.
  cbv zeta. destruct (runBatches_shape client messagesToProcess s)
    as (started & Hok & Htrace & Hinv & Hnone).
  split; [exact Hok|]. eexists. split; [exact Htrace|].
  rewrite schedule_app, schedule_await_events, (schedule_started _ Hnone), Hinv.
  f_equal. unfold batch_invocations.
  change (map ?f ?l) with (f <$> l). rewrite fmap_imap. apply imap_ext.
  intros k message _. reflexivity.
Qed.
(** ** Configuration *)

(** With a configured source channel the first outside call is the prompt
    for the mode. *)
Lemma configureDownload_configured (options : Options) (s : Sys) (c : Z) :
  opt_channelId options = Some c ->
  Js.truthy_num c = true ->
  (booleanInput_at (tick (world s)) = inr false ->
   trace (world (snd (configureDownload options s)))
   = (trace (world s) ++ [EvBooleanInput])%list)
  /\ (forall dialogs,
        booleanInput_at (tick (world s)) = inr true ->
        getAllDialogs_at (S (tick (world s))) = inr dialogs ->
        trace (world (snd (configureDownload options s)))
        = (trace (world s)
           ++ [EvBooleanInput; EvGetAllDialogs;
               EvSelectInput (filter (fun d => d <> c) dialogs)])%list).
Proof.
  intros Hc Ht.
  unfold configureDownload, selectSource, getAllDialogs, selectInput, booleanInput,
    getLastSelection, updateLastSelection, next_tick, get_world, modify_self, modify_world,
    emit, throw, bind, ret.
  rewrite Hc, Ht. cbn. split.
  - intros ->. reflexivity.
  - intros dialogs Hmode Hdialogs. rewrite Hmode. cbn. rewrite Hdialogs. cbn.
    destruct (selectInput_at (S (S (tick (world s)))));
      cbn; rewrite <- !app_assoc; reflexivity.
Qed.

(** X24: [configureDownload] returns when the list of the dialogs and the
    prompts answer.  Whenever it returns: it has stored the configured
    policy, or the default one; the progress counters are as they were; in
    local mode the target channel is as it was and in upload mode one is
    set; the checkpoint holds the returned pair; the offset is 0 when no
    channel was stored before; a configured (non-zero) source channel is
    used as it is.  Its only outside calls are the list of the dialogs and
    the prompts, and it touches no file: with a configured source, the
    prompt for the mode and, in upload mode, the list of the dialogs and a
    menu of targets without the source.  Whenever it throws, the policy, the
    target, the counters and the checkpoint are as they were. *)
Theorem configureDownload_settings (options : Options) (s : Sys) :
  ((forall n, exists dialogs, getAllDialogs_at n = inr dialogs) ->
   (forall n, exists choice, selectInput_at n = inr choice) ->
   (forall n, exists answer, booleanInput_at n = inr answer) ->
   exists r s', configureDownload options s = (Ok r, s'))
  /\ (forall channelId messageOffsetId s',
        configureDownload options s = (Ok (channelId, messageOffsetId), s') ->
        downloadableFiles (self s')
        = Some (default default_downloadableFiles (opt_downloadableFiles options))
        /\ counters (self s') = counters (self s)
        /\ (uploadMode (self s') = false ->
            targetChannelId (self s') = targetChannelId (self s))
        /\ (uploadMode (self s') = true -> is_Some (targetChannelId (self s')))
        /\ lastSelection (world s') = mkSelection (Some channelId) (Some messageOffsetId)
        /\ (sel_channelId (lastSelection (world s)) = None -> messageOffsetId = 0)
        /\ (forall c, opt_channelId options = Some c -> Js.truthy_num c = true ->
                      channelId = c)
        /\ trace_grows config_event s s'
        /\ files (world s') = files (world s))
  /\ (forall e s',
        configureDownload options s = (Throw e, s') ->
        downloadableFiles (self s') = downloadableFiles (self s)
        /\ targetChannelId (self s') = targetChannelId (self s)
        /\ counters (self s') = counters (self s)
        /\ lastSelection (world s') = lastSelection (world s)
        /\ trace_grows config_event s s'
        /\ files (world s') = files (world s))
  /\ (forall c,
        opt_channelId options = Some c -> Js.truthy_num c = true ->
        (booleanInput_at (tick (world s)) = inr false ->
         trace (world (snd (configureDownload options s)))
         = (trace (world s) ++ [EvBooleanInput])%list)
        /\ (forall dialogs,
              booleanInput_at (tick (world s)) = inr true ->
              getAllDialogs_at (S (tick (world s))) = inr dialogs ->
              trace (world (snd (configureDownload options s)))
              = (trace (world s)
                 ++ [EvBooleanInput; EvGetAllDialogs;
                     EvSelectInput (filter (fun d => d <> c) dialogs)])%list)).
Proof.
  split; [apply configureDownload_returns|]. split; [|split].
  - intros channelId messageOffsetId s' Hrun.
    pose proof (configureDownload_cases options s) as Hcases. rewrite Hrun in Hcases.
    destruct Hcases
      as (Hc & Hoff & Hstore & (mode & target & Hself & Hlocal & Hupload) & Hfiles & Htrace).
    rewrite Hself. cbn.
    split; [reflexivity|]. split; [reflexivity|].
    split; [intros ->; apply Hlocal; reflexivity|].
    split; [intros ->; apply Hupload; reflexivity|].
    split; [exact Hstore|]. split; [|split; [exact Hc|split; assumption]].
    intros Hnone. rewrite Hoff, Hnone. reflexivity.
  - intros e s' Hrun.
    pose proof (configureDownload_cases options s) as Hcases. rewrite Hrun in Hcases.
    destruct Hcases as (Hstore & (mode & Hself) & Hfiles & Htrace).
    rewrite Hself. repeat split; assumption.
  - intros c Hc Ht. exact (configureDownload_configured options s c Hc Ht).
Qed.

(** ** Errors of the fetches *)

(** X25: the errors of [getMessages] and [getMessageDetail] are the
    transport's error behind a prefix that hides neither the flood-wait
    marker nor the hint: the page driver reads the same marker and the same
    hint from the wrapped error as from the transport's. *)
Theorem fetch_errors_keep_flood_hint (channelId limit offsetId : Z) (ids : list Z)
    (s : Sys) (e : Error)
    (Hchannel : Js.truthy_num channelId = true)
    (Hrefused : client_getMessages_at (tick (world s)) = inl e) :
  exists e1 e2,
    fst (getMessages true channelId limit offsetId s) = Throw e1
    /\ fst (getMessageDetail true channelId ids s) = Throw e2
    /\ Js.includes "FLOOD_WAIT" (err_message e1) = Js.includes "FLOOD_WAIT" (err_message e)
    /\ Js.includes "FLOOD_WAIT" (err_message e2) = Js.includes "FLOOD_WAIT" (err_message e)
    /\ flood_hint (err_message e1) = flood_hint (err_message e)
    /\ flood_hint (err_message e2) = flood_hint (err_message e).
Proof.
  rewrite (getMessages_run channelId limit offsetId s Hchannel).
  rewrite (getMessageDetail_run channelId ids s Hchannel).
  rewrite Hrefused. do 2 eexists. repeat split.
Qed.

Lemma attempt_guard (client : bool) (channelId offsetMsgId : Z) (s : Sys) :
  client = false \/ Js.truthy_num channelId = false ->
  requestCount (self s) <= 15 ->
  attempt (getMessages client channelId MESSAGE_LIMIT offsetMsgId) s
  = (Throw (mkError "Client and channelId are required"), let_through s).
Proof.
  intros Hguard Hlow. rewrite attempt_let_through by exact Hlow.
  unfold getMessages. destruct Hguard as [-> | ->]; [reflexivity|].
  rewrite orb_true_r. reflexivity.
Qed.

(** X26: without a client, or with a channel id of 0, the guard of
    [getMessages] throws before any transport call; the driver treats it as
    any failure: three attempts, each counted by the governor, with
    backoffs of 1 s and 2 s, then the guard's error is thrown. *)
Theorem missing_client_is_retried (fuel : nat) (client : bool) (channelId offsetMsgId : Z)
    (s : Sys)
    (Hguard : client = false \/ Js.truthy_num channelId = false)
    (Hroom : requestCount (self s) <= 13) :
  exists s',
    downloadChannel (S fuel) client channelId offsetMsgId s
    = (Throw (mkError "Client and channelId are required"), s')
    /\ trace (world s') = (trace (world s) ++ [EvWait 1000; EvWait 2000])%list
    /\ requestCount (self s') = requestCount (self s) + 3
    /\ lastSelection (world s') = lastSelection (world s)
    /\ counters (self s') = counters (self s).
Proof.
  set (s1 := let_through (page_start channelId s)).
  set (s2 := let_through (after_wait 1000 s1)).
  set (s3 := let_through (after_wait 2000 s2)).
  assert (Hretry :
    retryWithBackoff (getMessages client channelId MESSAGE_LIMIT offsetMsgId)
      (page_start channelId s)
    = (Throw (mkError "Client and channelId are required"), s3)).
  { eapply (retryWithBackoff_exhausted _ _ s1 s2 s3);
      (apply attempt_guard; [exact Hguard|cbn; lia]). }
  exists s3. split.
  - cbn [downloadChannel]. unfold try_catch.
    rewrite downloadChannel_body_fetch, Hretry. reflexivity.
  - cbn. rewrite <- !app_assoc. repeat split. lia.
Qed.

(** ** Progress report *)

Lemma downloadChannel_driver_frame (fuel : nat) (client : bool) (channelId offsetMsgId : Z) :
  steps driver_frame (downloadChannel fuel client channelId offsetMsgId).
Proof. apply steps_downloadChannel. all: frame_facts. Qed.

Lemma configureDownload_totalMessages (options : Options) (s : Sys) :
  totalMessages (self (snd (configureDownload options s))) = totalMessages (self s).
Proof.
  pose proof (configureDownload_cases options s) as Hcases.
  destruct (configureDownload options s) as [[[channelId off]|e|] s']; cbn [snd].
  - destruct Hcases as (_ & _ & _ & (mode & target & -> & _) & _). reflexivity.
  - destruct Hcases as (_ & (mode & ->) & _). reflexivity.
  - contradiction.
Qed.

(** X27: the percentage of the progress report is always 0: nothing in
    [configureDownload] or [downloadChannel] assigns [totalMessages], so
    from the 0 of the constructor it is still 0 after any run, and
    [progressPercentage] takes its [else] branch. *)
Theorem progress_report_stays_at_zero (options : Options) (fuel : nat) (client : bool)
    (channelId offsetMsgId : Z) (s : Sys)
    (Hfresh : totalMessages (self s) = 0) :
  let configured := snd (configureDownload options s) in
  let finished := snd (downloadChannel fuel client channelId offsetMsgId configured) in
  totalMessages (self finished) = 0
  /\ forall round_percent, progressPercentage round_percent (self finished) = 0.
Proof.
  cbv zeta.
  destruct (downloadChannel_driver_frame fuel client channelId offsetMsgId
              (snd (configureDownload options s))) as (_ & _ & _ & Htotal & _).
  rewrite configureDownload_totalMessages, Hfresh in Htotal.
  split; [exact Htotal|]. intros round_percent.
  unfold progressPercentage. rewrite Htotal. reflexivity.
Qed.

(** ** Stickers and texts *)

Lemma downloadMessage_without_media (client : bool) (message : Message) (s : Sys) :
  m_media message = None -> downloadMessage client message s = (Ok None, s).
Proof. intros Hnone. unfold downloadMessage. rewrite Hnone. reflexivity. Qed.

(** The state after [uploadMessage] sent [options] without a local file and
    the transport answered [sent]. *)
Lemma uploadMessage_sends (message : Message) (target : Z) (options : UploadOptions)
    (s : Sys) (sent : bool) :
  uploadMode (self s) = true ->
  target_of (self s) = Some target ->
  uploadMessageToChannel true target message None s
  = (Ok sent,
     mkSys (self s)
       (mkWorld (S (tick (world s))) (files (world s)) (lastSelection (world s))
          (trace (world s) ++ [EvSend target options])%list)) ->
  uploadMessage true message None s
  = (Ok sent,
     mkSys (if sent then with_totalUploaded (totalUploaded (self s) + 1) (self s) else self s)
       (mkWorld (S (tick (world s))) (files (world s)) (lastSelection (world s))
          (trace (world s) ++ [EvSend target options])%list)).
Proof.
  intros Hmode Htarget Hrun.
  rewrite (uploadMessage_run true message None target s Hmode Htarget), Hrun.
  destruct sent; reflexivity.
Qed.

(** The download step of [processMessage] for a message without media. *)
Lemma download_step_without_media (client : bool) (message : Message) (s : Sys) :
  m_media message = None ->
  (let! mediaPath := downloadMessage client message in
   do! wait DOWNLOAD_DELAY in
   ret (true, mediaPath)) s
  = (Ok (true, None), after_wait DOWNLOAD_DELAY s).
Proof.
  intros Hnone. unfold bind. rewrite (downloadMessage_without_media _ _ _ Hnone).
  reflexivity.
Qed.

(** X28: a sticker message (no [media]) is never saved: in local mode
    [processMessage] makes no outside call for it, only the download delay
    of 200 ms, and counts it as processed; in upload mode it is sent to the
    target by reference, flagged as a sticker, with the caption and entities
    of the message, and counted as uploaded when the send succeeds. *)
Theorem sticker_is_never_saved (message : Message) (sticker : FileRef)
    (index total : nat) (s : Sys)
    (Hmedia : m_media message = None)
    (Hsticker : m_sticker message = Some sticker) :
  (uploadMode (self s) = false ->
   processMessage true message index total s
   = (Ok tt,
      mkSys (with_totalProcessedMessages (totalProcessedMessages (self s) + 1) (self s))
        (mkWorld (tick (world s)) (files (world s)) (lastSelection (world s))
           (trace (world s)
            ++ [EvInvoke (m_id message) index total; EvWait DOWNLOAD_DELAY])%list)))
  /\ (forall target,
        uploadMode (self s) = true ->
        target_of (self s) = Some target ->
        client_sendMessage_at (tick (world s)) = inr true ->
        processMessage true message index total s
        = (Ok tt,
           mkSys (with_totalProcessedMessages (totalProcessedMessages (self s) + 1)
                    (with_totalUploaded (totalUploaded (self s) + 1) (self s)))
             (mkWorld (S (tick (world s))) (files (world s)) (lastSelection (world s))
                (trace (world s)
                 ++ [EvInvoke (m_id message) index total; EvWait DOWNLOAD_DELAY;
                     EvSend target
                       (mkUploadOptions (caption_of message)
                          (default [] (m_entities message))
                          (Some (StickerRef sticker)) false None None None false true);
                     EvWait UPLOAD_DELAY])%list))).
Proof.
  split.
  - intros Hlocal. unfold processMessage. rewrite Hmedia, Hsticker.
    apply try_catch_ok.
    erewrite bind_ok by reflexivity.
    erewrite bind_ok by reflexivity.
    erewrite bind_ok by (apply download_step_without_media; exact Hmedia).
    erewrite bind_ok by reflexivity.
    cbn [fst snd after_wait wait emit modify_world self world]. rewrite Hlocal. cbn [andb].
    erewrite bind_ok by reflexivity.
    unfold modify_self. cbn [self world trace tick files lastSelection].
    rewrite <- app_assoc. reflexivity.
  - intros target Hmode Htarget Hsent. unfold processMessage. rewrite Hmedia, Hsticker.
    apply try_catch_ok.
    erewrite bind_ok by reflexivity.
    erewrite bind_ok by reflexivity.
    erewrite bind_ok by (apply download_step_without_media; exact Hmedia).
    erewrite bind_ok by reflexivity.
    cbn [fst snd after_wait wait emit modify_world self world]. rewrite Hmode. cbn [andb].
    erewrite bind_ok.
    2:{ erewrite bind_ok.
        2:{ eapply uploadMessage_sends with (sent := true); [exact Hmode|exact Htarget|].
            unfold uploadMessageToChannel.
            rewrite (target_of_truthy _ _ Htarget), Hmedia, Hsticker.
            cbn [negb orb]. apply try_catch_ok. rewrite client_sendMessage_run.
            cbn [self world trace tick files lastSelection]. rewrite Hsent. reflexivity. }
        reflexivity. }
    unfold modify_self. cbn [self world trace tick files lastSelection].
    rewrite <- !app_assoc. reflexivity.
Qed.

Lemma caption_of_default (message : Message) :
  caption_of message = default "" (m_message message).
Proof. unfold caption_of. destruct (m_message message) as [[|c r]|]; reflexivity. Qed.

(** [uploadMessage] of a message that is only text. *)
Lemma uploadMessage_text (message : Message) (target : Z) (s : Sys) :
  m_media message = None ->
  m_sticker message = None ->
  Js.truthy_str (Some (trim (default "" (m_message message)))) = true ->
  uploadMode (self s) = true ->
  target_of (self s) = Some target ->
  let sent :=
    match client_sendMessage_at (tick (world s)) with inr b => b | inl _ => false end in
  uploadMessage true message None s
  = (Ok sent,
     mkSys (if sent then with_totalUploaded (totalUploaded (self s) + 1) (self s) else self s)
       (mkWorld (S (tick (world s))) (files (world s)) (lastSelection (world s))
          (trace (world s)
           ++ [EvSend target
                 (mkUploadOptions (caption_of message) (default [] (m_entities message))
                    None false None None None false false)])%list)).
Proof.
  intros Hmedia Hsticker Htrim Hmode Htarget. cbv zeta.
  rewrite (uploadMessage_run true message None target s Hmode Htarget).
  unfold uploadMessageToChannel.
  rewrite (target_of_truthy _ _ Htarget), Hmedia, Hsticker.
  rewrite (caption_of_default message) at 1. rewrite Htrim.
  cbn [negb orb]. unfold try_catch. rewrite client_sendMessage_run.
  destruct (client_sendMessage_at (tick (world s))) as [e|[|]]; reflexivity.
Qed.

(** X29: a message that is only text (not blank once trimmed) costs, in
    upload mode, exactly one send of its caption with its entities and
    without a file, followed by the upload delay of 300 ms: no download
    delay, no forward; it is counted as uploaded exactly when the transport
    answers with a truthy result, and as processed in any case, also when
    the send throws. *)
Theorem text_message_is_sent_once (message : Message) (index total : nat) (s : Sys)
    (target : Z)
    (Hmedia : m_media message = None)
    (Hsticker : m_sticker message = None)
    (Htext : Js.truthy_str (m_message message)
             && Js.truthy_str (Some (trim (default "" (m_message message)))) = true)
    (Hmode : uploadMode (self s) = true)
    (Htarget : target_of (self s) = Some target) :
  let sent :=
    match client_sendMessage_at (tick (world s)) with inr b => b | inl _ => false end in
  processMessage true message index total s
  = (Ok tt,
     mkSys (with_totalProcessedMessages (totalProcessedMessages (self s) + 1)
              (if sent then with_totalUploaded (totalUploaded (self s) + 1) (self s)
               else self s))
       (mkWorld (S (tick (world s))) (files (world s)) (lastSelection (world s))
          (trace (world s)
           ++ [EvInvoke (m_id message) index total;
               EvSend target
                 (mkUploadOptions (caption_of message) (default [] (m_entities message))
                    None false None None None false false);
               EvWait UPLOAD_DELAY])%list)).
Proof.
  cbv zeta. unfold processMessage. rewrite Hmedia, Hsticker, Htext.
  apply andb_true_iff in Htext as [_ Htrim].
  apply try_catch_ok.
  erewrite bind_ok by reflexivity.
  erewrite bind_ok by reflexivity.
  erewrite bind_ok by reflexivity.
  erewrite bind_ok by reflexivity.
  cbn [fst snd emit modify_world self world]. rewrite Hmode. cbn [andb].
  erewrite bind_ok.
  2:{ erewrite bind_ok; [reflexivity|].
      apply (uploadMessage_text message target); assumption. }
  unfold wait, emit, modify_world, modify_self.
  cbn [fst snd self world trace tick files lastSelection].
  rewrite <- !app_assoc.
  destruct (client_sendMessage_at (tick (world s))) as [e|[|]]; reflexivity.
Qed.

End Coverage.

(* ===================================================================== *)
(** * The properties at the sample inputs *)
(* ===================================================================== *)

(** The sticker branch of [downloadMessageMedia] does transfer bytes when
    the function is called on a sticker message directly. *)
Example sticker_branch_exists :
  trace (world (snd (downloadMessageMedia (hp := sample_helpers) (orc := quiet_oracle)
                       true (sticker_message 4) "export/document/4.PDF" start_sys)))
  = [EvDownloadMedia 4 "export/document/4_sticker.webp" StickerBranch].
Proof. vm_compute. reflexivity. Qed.

(** A message whose transfer and upload both throw is still counted, and
    neither [totalDownloaded] nor [totalUploaded] moves. *)
Example failed_message_is_counted :
  let r := processMessage (hp := sample_helpers) (orc := failing_oracle)
             true (document_message 1) 0 1 (mkSys uploading start_world) in
  fst r = Ok tt
  /\ counters (self (snd r)) = (0, 0, 0, 1, 0)
  /\ trace (world (snd r))
     = [EvInvoke 1 0 1;
        EvDownloadMedia 1 "export/document/1.PDF" MediaBranch;
        EvWait 200;
        EvForward 9 1 7;
        EvSend 9
          (mkUploadOptions "caption" []
             (Some (DocumentRef (mkDocument None (Some "application/pdf"))))
             false None None None false false);
        EvWait 300].
Proof. vm_compute. repeat split. Qed.

(** C1 (what the code does on the failing input): on a page of 7 filtered
    messages the promise groups are the chunks [1..5] and [6, 7] and the
    delay is made once, between the two [await]s; but [processMessage] is
    called for all 7 messages, and the transfers of messages 6 and 7 are
    asked of the transport, before the first chunk is awaited.  (The 200 ms
    wait of a message stands right after its transfer here; in a run of the
    program it comes once the transfer is over.) *)
Theorem scheduler_starts_every_chunk_at_once :
  let page := map document_message [1; 2; 3; 4; 5; 6; 7] in
  fst (startBatches (hp := sample_helpers) (orc := quiet_oracle) true page 0 start_sys)
  = Ok [[1; 2; 3; 4; 5]; [6; 7]]
  /\ trace (world (snd (runBatches (hp := sample_helpers) (orc := quiet_oracle)
                          true page start_sys)))
     = [EvInvoke 1 0 7; EvDownloadMedia 1 "export/document/1.PDF" MediaBranch; EvWait 200;
        EvInvoke 2 1 7; EvDownloadMedia 2 "export/document/2.PDF" MediaBranch; EvWait 200;
        EvInvoke 3 2 7; EvDownloadMedia 3 "export/document/3.PDF" MediaBranch; EvWait 200;
        EvInvoke 4 3 7; EvDownloadMedia 4 "export/document/4.PDF" MediaBranch; EvWait 200;
        EvInvoke 5 4 7; EvDownloadMedia 5 "export/document/5.PDF" MediaBranch; EvWait 200;
        EvInvoke 6 5 7; EvDownloadMedia 6 "export/document/6.PDF" MediaBranch; EvWait 200;
        EvInvoke 7 6 7; EvDownloadMedia 7 "export/document/7.PDF" MediaBranch; EvWait 200;
        EvAwaitBatch 0 2; EvWait 1500; EvAwaitBatch 1 2].
Proof.
  cbv zeta. split.
  - vm_compute. reflexivity.
  - vm_compute. reflexivity.
Qed.

(** C3 (the claim as stated fails): with gated calls 59 seconds apart, the
    17th call cools although only one earlier call lies in the 60 seconds
    before it, so the spec's sliding-window condition does not hold. *)
Lemma sliding_window_counterexample :
  trace (world (snd (times 16 (checkRateLimit (orc := slow_clock_oracle)) start_sys))) = []
  /\ trace (world (snd (times 17 (checkRateLimit (orc := slow_clock_oracle)) start_sys)))
     = [EvWait 60000]
  /\ calls_in_window (map (now_at (Oracle := slow_clock_oracle)) (seq 0 16))
       (now_at (Oracle := slow_clock_oracle) 16) = 1%nat
  /\ spec_enters_cooling (map (now_at (Oracle := slow_clock_oracle)) (seq 0 16))
       (now_at (Oracle := slow_clock_oracle) 16) = false.
Proof. repeat split; vm_compute; reflexivity. Qed.

(** The amended C3 at the 17th of these calls: the counter stands at 16 and
    the previous call is 59 seconds old. *)
Lemma checkRateLimit_cools_iff_witness :
  let s := snd (times 16 (checkRateLimit (orc := slow_clock_oracle)) start_sys) in
  trace (world (snd (checkRateLimit (orc := slow_clock_oracle) s)))
  = (trace (world s) ++ [EvWait 60000])%list
  /\ requestCount (self (snd (checkRateLimit (orc := slow_clock_oracle) s))) = 1.
Proof.
  cbv zeta.
  apply (checkRateLimit_cools_iff (orc := slow_clock_oracle)
           (snd (times 16 (checkRateLimit (orc := slow_clock_oracle)) start_sys))).
  vm_compute. split; reflexivity.
Defined.

(** C4 (the claim as stated fails): with no local file and a forward that
    succeeds, the poll message is forwarded as it is and nothing is sent. *)
Lemma poll_forwarded_counterexample :
  fst (uploadMessageToChannel (hp := sample_helpers) (orc := quiet_oracle)
         true 9 (poll_message 3 (Some "caption")) None start_sys) = Ok true
  /\ trace (world (snd (uploadMessageToChannel (hp := sample_helpers) (orc := quiet_oracle)
                          true 9 (poll_message 3 (Some "caption")) None start_sys)))
     = [EvForward 9 3 7].
Proof. split; vm_compute; reflexivity. Qed.

(** The amended C4 at the poll of the spec's scenario, forwarding refused:
    one forward, then one send without a file, whose text is the poll's. *)
Lemma structured_payload_sent_as_text_witness :
  exists options,
    trace (world (snd (uploadMessageToChannel (hp := sample_helpers)
                         (orc := forward_refused_oracle)
                         true 9 (poll_message 3 (Some "caption")) None start_sys)))
    = [EvForward 9 3 7; EvSend 9 options]
    /\ uo_file options = None
    /\ uo_message options
       = "📊 Poll: Q" +:+ Js.nl +:+ Js.nl +:+ "Options:" +:+ Js.nl +:+ "1. A" +:+ Js.nl
         +:+ "2. B" +:+ Js.nl +:+ Js.nl +:+ "caption"
    /\ Js.includes "Q" (uo_message options) = true
    /\ Js.includes "1. A" (uo_message options) = true
    /\ Js.includes "2. B" (uo_message options) = true.
Proof.
  destruct (structured_payload_sent_as_text (hp := sample_helpers)
              (orc := forward_refused_oracle) 9 (poll_message 3 (Some "caption"))
              (mkMedia None (Some poll_QAB) None None None None None None None None false)
              None start_sys eq_refl eq_refl eq_refl)
    as (_ & Hrefused & _).
  destruct (Hrefused eq_refl (mkError "CHAT_FORWARDS_RESTRICTED") eq_refl)
    as (options & Htrace & Hfile & Htext).
  exists options. split; [exact Htrace|]. split; [exact Hfile|].
  rewrite Htext. repeat split; vm_compute; reflexivity.
Defined.

(** C5 at sample messages: a text message passes a policy that enables
    nothing; a document passes a policy that enables documents and is
    refused by one that enables nothing; an empty message is refused; and
    a document whose media path is [export/document/1.Constructor] passes
    the policy that enables nothing: the value is the member [constructor]
    that the policy object inherits. *)
Lemma shouldProcess_policy_witness :
  shouldProcess (hp := sample_helpers)
    (with_downloadableFiles (Some nothing_enabled) new_DownloadChannel)
    (text_message 1 "hello") = JsBool true
  /\ shouldProcess (hp := sample_helpers)
       (with_downloadableFiles (Some documents_enabled) new_DownloadChannel)
       (document_message 2) = JsBool true
  /\ shouldProcess (hp := sample_helpers)
       (with_downloadableFiles (Some nothing_enabled) new_DownloadChannel)
       (document_message 2) = JsBool false
  /\ shouldProcess (hp := sample_helpers)
       (with_downloadableFiles (Some documents_enabled) new_DownloadChannel)
       (bare_message 3) = JsBool false
  /\ shouldProcess (hp := named_helpers "Constructor")
       (with_downloadableFiles (Some nothing_enabled) new_DownloadChannel)
       (document_message 1) = JsInherited "constructor".
Proof.
  split; [|split; [|split; [|split]]].
  - destruct (shouldProcess_policy (hp := sample_helpers)
                (with_downloadableFiles (Some nothing_enabled) new_DownloadChannel)
                (text_message 1 "hello")) as (Htext & _).
    apply Htext; reflexivity.
  - destruct (shouldProcess_policy (hp := sample_helpers)
                (with_downloadableFiles (Some documents_enabled) new_DownloadChannel)
                (document_message 2)) as (_ & _ & Hmedia).
    destruct (Hmedia documents_enabled) as (_ & Hown & _);
      [eexists; reflexivity|reflexivity|].
    destruct Hown as [Hiff _].
    + eapply bool_decide_eq_false_1. vm_compute. reflexivity.
    + eapply bool_decide_eq_false_1. vm_compute. reflexivity.
    + apply Hiff. left. vm_compute. reflexivity.
  - destruct (shouldProcess_policy (hp := sample_helpers)
                (with_downloadableFiles (Some nothing_enabled) new_DownloadChannel)
                (document_message 2)) as (_ & _ & Hmedia).
    destruct (Hmedia nothing_enabled) as (_ & Hown & _);
      [eexists; reflexivity|reflexivity|].
    destruct Hown as [_ Hoff].
    + eapply bool_decide_eq_false_1. vm_compute. reflexivity.
    + eapply bool_decide_eq_false_1. vm_compute. reflexivity.
    + apply Hoff; vm_compute; congruence.
  - destruct (shouldProcess_policy (hp := sample_helpers)
                (with_downloadableFiles (Some documents_enabled) new_DownloadChannel)
                (bare_message 3)) as (_ & Hnone & _).
    apply Hnone. reflexivity.
  - destruct (shouldProcess_policy (hp := named_helpers "Constructor")
                (with_downloadableFiles (Some nothing_enabled) new_DownloadChannel)
                (document_message 1)) as (_ & _ & Hmedia).
    destruct (Hmedia nothing_enabled) as (_ & _ & Hinherited);
      [eexists; reflexivity|reflexivity|].
    apply Hinherited.
    + vm_compute. reflexivity.
    + vm_compute. reflexivity.
    + eapply bool_decide_eq_true_1. vm_compute. reflexivity.
Defined.

(** C6 at a document whose file is on disk. *)
Lemma downloadMessage_idempotent_witness :
  downloadMessage (hp := sample_helpers) (orc := quiet_oracle)
    true (document_message 1) sys_with_file
  = (Ok (Some "export/document/1.PDF"), sys_with_file).
Proof.
  assert (Hdisk : "export/document/1.PDF" ∈ files (world sys_with_file))
    by (vm_compute; reflexivity).
  apply (downloadMessage_idempotent (hp := sample_helpers) (orc := quiet_oracle)
           true (document_message 1)
           (mkMedia None None None None None None
              (Some (mkDocument None (Some "application/pdf"))) None None None false)
           sys_with_file eq_refl Hdisk).
Defined.

(** C7 at the spec's scenario: the page fetch at offset 17 is refused three
    times with the hint "120"; the driver waits 120 seconds and fetches at
    offset 17 again. *)
Lemma flood_wait_retries_same_page_witness :
  trace (world (snd (downloadChannel (hp := sample_helpers)
                       (orc := flood_oracle "FLOOD_WAIT_120") 2 true 5 17 start_sys)))
  = [EvGetMessages 5 100 17; EvWait 1000;
     EvGetMessages 5 100 17; EvWait 2000;
     EvGetMessages 5 100 17; EvWait 120000;
     EvGetMessages 5 100 17; EvProgress 0].
Proof.
  destruct (flood_wait_retries_same_page (hp := sample_helpers)
              (orc := flood_oracle "FLOOD_WAIT_120") 1 true 5 17 start_sys
              (snd (downloadChannel_body (hp := sample_helpers)
                      (orc := flood_oracle "FLOOD_WAIT_120")
                      (downloadChannel (hp := sample_helpers)
                         (orc := flood_oracle "FLOOD_WAIT_120") 1 true 5)
                      true 5 17 start_sys))
              (mkError "Failed to get messages: FLOOD_WAIT_120") "120")
    as [Hrun _].
  - vm_compute. reflexivity.
  - vm_compute. reflexivity.
  - vm_compute. reflexivity.
  - rewrite Hrun. vm_compute. reflexivity.
Defined.

(** C8 at a checkpoint of channel 111 and the configured channel 222. *)
Lemma configureDownload_channel_switch_witness :
  fst (configureDownload (orc := quiet_oracle) (mkOptions (Some 222) None)
         sys_with_checkpoint) = Ok (222, 0).
Proof.
  destruct (configureDownload_channel_switch (orc := quiet_oracle)
              (mkOptions (Some 222) None) sys_with_checkpoint 111 eq_refl)
    as (Hreturns & Hrule & _).
  destruct Hreturns as (B & off & s' & Hrun); try (intros n; eexists; reflexivity).
  destruct (Hrule B off s' Hrun) as (HB & _ & Hne & _).
  rewrite Hrun. simpl.
  rewrite (HB 222 eq_refl) in * by discriminate.
  rewrite Hne by discriminate. reflexivity.
Defined.

(** C9 at a sticker message without media. *)
Lemma sticker_branch_not_reached_witness :
  downloadMessage (hp := sample_helpers) (orc := quiet_oracle)
    true (sticker_message 4) start_sys = (Ok None, start_sys).
Proof.
  apply (sticker_branch_not_reached (hp := sample_helpers) (orc := quiet_oracle)
           true (sticker_message 4)).
  reflexivity.
Defined.

(** C10 at a flood wait without a number. *)
Lemma flood_wait_default_witness :
  trace (world (snd (downloadChannel (hp := sample_helpers)
                       (orc := flood_oracle "FLOOD_WAIT") 2 true 5 17 start_sys)))
  = [EvGetMessages 5 100 17; EvWait 1000;
     EvGetMessages 5 100 17; EvWait 2000;
     EvGetMessages 5 100 17; EvWait 300000;
     EvGetMessages 5 100 17; EvProgress 0].
Proof.
  destruct (flood_wait_default (hp := sample_helpers)
              (orc := flood_oracle "FLOOD_WAIT") 1 true 5 17 start_sys
              (snd (downloadChannel_body (hp := sample_helpers)
                      (orc := flood_oracle "FLOOD_WAIT")
                      (downloadChannel (hp := sample_helpers)
                         (orc := flood_oracle "FLOOD_WAIT") 1 true 5)
                      true 5 17 start_sys))
              (mkError "Failed to get messages: FLOOD_WAIT"))
    as [Hrun _].
  - vm_compute. reflexivity.
  - vm_compute. reflexivity.
  - vm_compute. reflexivity.
  - rewrite Hrun. vm_compute. reflexivity.
Defined.

(** The regular expression takes the first run of digits of the message,
    whatever it counts. *)
Example flood_hint_first_run :
  flood_hint "FLOOD_WAIT_120 (caused by messages.GetHistory)" = "120"
  /\ flood_hint "420: FLOOD_WAIT_120" = "420"
  /\ Js.parseInt "0120" = 120.
Proof. repeat split. Qed.

Example includes_flood_wait :
  Js.includes "FLOOD_WAIT" "Failed to get messages: FLOOD_WAIT_120" = true
  /\ Js.includes "FLOOD_WAIT" "Failed to get messages: TIMEOUT" = false.
Proof. split; reflexivity. Qed.

(* ===================================================================== *)
(** * The further properties at the sample inputs *)
(* ===================================================================== *)

(** X3 at the first 16 calls of a run. *)
Lemma checkRateLimit_burst_witness :
  trace (world (snd (times 16 (checkRateLimit (orc := quiet_oracle)) start_sys))) = []
  /\ requestCount (self (snd (times 16 (checkRateLimit (orc := quiet_oracle)) start_sys))) = 16.
Proof.
  destruct (checkRateLimit_burst (orc := quiet_oracle) 16 start_sys)
    as (_ & Htrace & Hcount & _).
  - vm_compute. discriminate.
  - split; [exact Htrace|exact Hcount].
Defined.

(** X4 at a fetch that the transport refuses with a timeout every time. *)
Lemma retry_gives_up_after_three_witness :
  fst (retryWithBackoff (orc := flood_oracle "TIMEOUT")
         (getMessages (orc := flood_oracle "TIMEOUT") true 5 100 17) start_sys)
  = Throw (mkError "Failed to get messages: TIMEOUT").
Proof.
  set (fn := getMessages (orc := flood_oracle "TIMEOUT") true 5 100 17).
  set (s1 := snd (attempt (orc := flood_oracle "TIMEOUT") fn start_sys)).
  set (s2 := snd (attempt (orc := flood_oracle "TIMEOUT") fn (after_wait 1000 s1))).
  set (s3 := snd (attempt (orc := flood_oracle "TIMEOUT") fn (after_wait 2000 s2))).
  rewrite (retry_gives_up_after_three (orc := flood_oracle "TIMEOUT") fn start_sys s1 s2 s3
             (mkError "Failed to get messages: TIMEOUT")
             (mkError "Failed to get messages: TIMEOUT")
             (mkError "Failed to get messages: TIMEOUT")).
  - reflexivity.
  - vm_compute. reflexivity.
  - vm_compute. reflexivity.
  - vm_compute. reflexivity.
Defined.

(** X10 at a document whose file is on disk. *)
Lemma upload_then_cleanup_witness :
  uploadMessage (hp := sample_helpers) (orc := quiet_oracle)
    true (document_message 1) (Some "export/document/1.PDF") uploading_with_file
  = (Ok true,
     mkSys (with_totalUploaded 1 uploading)
       (mkWorld 2 ({["export/document/1.PDF"]} ∖ {["export/document/1.PDF"]})
          (mkSelection None None)
          [EvSend 9
             (mkUploadOptions "caption" [] (Some (LocalFile "export/document/1.PDF"))
                true (Some []) (Some "application/pdf") None false false);
           EvUnlink "export/document/1.PDF"])).
Proof.
  assert (Hdisk : "export/document/1.PDF" ∈ files (world uploading_with_file))
    by (vm_compute; reflexivity).
  apply (upload_then_cleanup (hp := sample_helpers) (orc := quiet_oracle)
           (document_message 1)
           (mkMedia None None None None None None
              (Some (mkDocument None (Some "application/pdf"))) None None None false)
           "export/document/1.PDF" 9 uploading_with_file
           eq_refl eq_refl eq_refl eq_refl Hdisk eq_refl).
Defined.

(** X11 at the poll of the spec's scenario. *)
Lemma json_payload_saved_beside_witness :
  exists suffix,
    suffix ∈ json_suffixes
    /\ downloadMessage (hp := sample_helpers) (orc := quiet_oracle)
         true (poll_message 3 (Some "caption")) start_sys
       = (Ok (Some "export/document/3.PDF"),
          mkSys (with_totalDownloaded 1 new_DownloadChannel)
            (mkWorld 1
               ({[sidecar (hp := sample_helpers) "export/document/3.PDF" 3 suffix]} ∪ ∅)
               (mkSelection None None)
               [EvWriteFile (sidecar (hp := sample_helpers)
                               "export/document/3.PDF" 3 suffix)])).
Proof.
  assert (Hnew : "export/document/3.PDF" ∉ files (world start_sys))
    by (vm_compute; discriminate).
  destruct (json_payload_saved_beside (hp := sample_helpers) (orc := quiet_oracle)
              (poll_message 3 (Some "caption"))
              (mkMedia None (Some poll_QAB) None None None None None None None None false)
              start_sys eq_refl eq_refl eq_refl eq_refl Hnew)
    as (suffix & Hin & Hrun).
  exists suffix. split; [exact Hin|exact Hrun].
Defined.

(** X12 at a web page preview with a photo. *)
Lemma webpage_preview_saved_beside_witness :
  let s' := snd (downloadMessageMedia (hp := sample_helpers) (orc := quiet_oracle)
                   true (webpage_message 8) "export/document/8.PDF" start_sys) in
  trace_grows (webpage_event (hp := sample_helpers) "export/document/8.PDF" 8) start_sys s'
  /\ trace (world s')
     = [EvDownloadMedia 8 "export/document/8_webpage_image.jpeg" MediaBranch].
Proof.
  cbv zeta. split.
  - apply (webpage_preview_saved_beside (hp := sample_helpers) (orc := quiet_oracle)
             true (webpage_message 8) preview_media
             (mkWebpage None (Some "Title") None (Some "photo-ref"))
             "export/document/8.PDF" start_sys eq_refl eq_refl eq_refl).
  - vm_compute. reflexivity.
Defined.

(** X14 at a fetch refused three times with the hint "30". *)
Lemma flood_wait_on_fetch_witness :
  exists s',
    downloadChannel (hp := sample_helpers) (orc := flood_oracle "FLOOD_WAIT_30")
      1 true 5 17 start_sys
    = downloadChannel (hp := sample_helpers) (orc := flood_oracle "FLOOD_WAIT_30")
        0 true 5 17 s'
    /\ trace (world s')
       = [EvGetMessages 5 100 17; EvWait 1000;
          EvGetMessages 5 100 17; EvWait 2000;
          EvGetMessages 5 100 17; EvWait 30000].
Proof.
  destruct (flood_wait_on_fetch (hp := sample_helpers) (orc := flood_oracle "FLOOD_WAIT_30")
              0 5 17 start_sys
              (mkError "FLOOD_WAIT_30") (mkError "FLOOD_WAIT_30") (mkError "FLOOD_WAIT_30")
              "30" eq_refl)
    as (s' & Hrun & Htrace & _); try reflexivity.
  - vm_compute. discriminate.
  - exists s'. split; [exact Hrun|exact Htrace].
Defined.

(** X15 at a fetch refused three times with a timeout. *)
Lemma fetch_failure_is_fatal_witness :
  exists s',
    downloadChannel (hp := sample_helpers) (orc := flood_oracle "TIMEOUT")
      1 true 5 17 start_sys
    = (Throw (mkError "Failed to get messages: TIMEOUT"), s')
    /\ trace (world s')
       = [EvGetMessages 5 100 17; EvWait 1000;
          EvGetMessages 5 100 17; EvWait 2000;
          EvGetMessages 5 100 17].
Proof.
  destruct (fetch_failure_is_fatal (hp := sample_helpers) (orc := flood_oracle "TIMEOUT")
              0 5 17 start_sys
              (mkError "TIMEOUT") (mkError "TIMEOUT") (mkError "TIMEOUT") eq_refl)
    as (s' & Hrun & Htrace & _); try reflexivity.
  - vm_compute. discriminate.
  - exists s'. split; [exact Hrun|exact Htrace].
Defined.

(** X16 at a channel without messages. *)
Lemma empty_page_ends_the_run_witness :
  exists s',
    downloadChannel (hp := sample_helpers) (orc := quiet_oracle) 1 true 5 0 start_sys
    = (Ok tt, s')
    /\ trace (world s') = [EvGetMessages 5 100 0; EvProgress 0].
Proof.
  destruct (empty_page_ends_the_run (hp := sample_helpers) (orc := quiet_oracle)
              0 5 0 start_sys eq_refl)
    as (s' & Hrun & Htrace & _); try reflexivity.
  - vm_compute. discriminate.
  - exists s'. split; [exact Hrun|exact Htrace].
Defined.

(** X17 at a page of a document (id 5) and a text (id 6), with the default
    policy of [new_DownloadChannel] (none): the checkpoint moves to 6. *)
Lemma page_advances_witness :
  exists s' evs,
    downloadChannel (hp := sample_helpers) (orc := one_page_oracle) 1 true 5 0 start_sys
    = downloadChannel (hp := sample_helpers) (orc := one_page_oracle) 0 true 5 6 s'
    /\ lastSelection (world s') = mkSelection None (Some 6)
    /\ totalProcessedMessages (self s') = 1
    /\ trace (world s')
       = ([EvGetMessages 5 100 0; EvGetDetail 5 [5; 6]] ++ evs
          ++ [EvRecord [5; 6]; EvProgress 1; EvWait 1500])%list.
Proof.
  destruct (page_advances (hp := sample_helpers) (orc := one_page_oracle)
              0 5 0 start_sys
              [document_message 5; text_message 6 "hi"]
              [document_message 5; text_message 6 "hi"] eq_refl)
    as [Hadvance _]; try reflexivity.
  - vm_compute. discriminate.
  - discriminate.
  - destruct (Hadvance (fun n => eq_refl))
      as (s' & evs & Hrun & Hsel & Hcount & Htrace & _).
    exists s', evs. split; [exact Hrun|]. split; [exact Hsel|].
    split; [exact Hcount|exact Htrace].
Defined.

(** X20 at a document in local mode. *)
Lemma local_mode_never_uploads_witness :
  let r := processMessage (hp := sample_helpers) (orc := quiet_oracle)
             true (document_message 1) 0 1 start_sys in
  fst r = Ok tt
  /\ trace_grows local_event start_sys (snd r)
  /\ files (world start_sys) ⊆ files (world (snd r))
  /\ totalUploaded (self (snd r)) = totalUploaded (self start_sys)
  /\ totalProcessedMessages (self (snd r)) = totalProcessedMessages (self start_sys) + 1.
Proof.
  exact (local_mode_never_uploads (hp := sample_helpers) (orc := quiet_oracle)
           true (document_message 1) 0 1 start_sys eq_refl).
Defined.

(** X21 at a message without any field, in upload mode. *)
Lemma message_without_content_is_only_counted_witness :
  processMessage (hp := sample_helpers) (orc := quiet_oracle)
    true (bare_message 3) 0 1 (mkSys uploading start_world)
  = (Ok tt,
     mkSys (with_totalProcessedMessages 1 uploading)
       (mkWorld 0 ∅ (mkSelection None None) [EvInvoke 3 0 1])).
Proof.
  exact (message_without_content_is_only_counted (hp := sample_helpers) (orc := quiet_oracle)
           true (bare_message 3) 0 1 (mkSys uploading start_world) eq_refl eq_refl eq_refl).
Defined.

(** X25 at a flood wait of 120 seconds. *)
Lemma fetch_errors_keep_flood_hint_witness :
  exists e1 e2,
    fst (getMessages (orc := flood_oracle "FLOOD_WAIT_120") true 5 100 17 start_sys)
    = Throw e1
    /\ fst (getMessageDetail (orc := flood_oracle "FLOOD_WAIT_120") true 5 [1; 2] start_sys)
       = Throw e2
    /\ flood_hint (err_message e1) = "120"
    /\ flood_hint (err_message e2) = "120".
Proof.
  destruct (fetch_errors_keep_flood_hint (orc := flood_oracle "FLOOD_WAIT_120")
              5 100 17 [1; 2] start_sys (mkError "FLOOD_WAIT_120") eq_refl eq_refl)
    as (e1 & e2 & H1 & H2 & _ & _ & Hh1 & Hh2).
  exists e1, e2. split; [exact H1|]. split; [exact H2|]. split; [exact Hh1|exact Hh2].
Defined.

(** X26 at a run without a client. *)
Lemma missing_client_is_retried_witness :
  exists s',
    downloadChannel (hp := sample_helpers) (orc := quiet_oracle) 1 false 5 0 start_sys
    = (Throw (mkError "Client and channelId are required"), s')
    /\ trace (world s') = [EvWait 1000; EvWait 2000]
    /\ requestCount (self s') = 3.
Proof.
  destruct (missing_client_is_retried (hp := sample_helpers) (orc := quiet_oracle)
              0 false 5 0 start_sys (or_introl eq_refl))
    as (s' & Hrun & Htrace & Hcount & _).
  - vm_compute. discriminate.
  - exists s'. split; [exact Hrun|]. split; [exact Htrace|exact Hcount].
Defined.

(** X27 at a run over one page, started from the constructor's object. *)
Lemma progress_report_stays_at_zero_witness :
  let configured := snd (configureDownload (orc := one_page_oracle)
                           (mkOptions (Some 5) None) start_sys) in
  let finished := snd (downloadChannel (hp := sample_helpers) (orc := one_page_oracle)
                         3 true 5 0 configured) in
  totalMessages (self finished) = 0
  /\ forall round_percent, progressPercentage round_percent (self finished) = 0.
Proof.
  exact (progress_report_stays_at_zero (hp := sample_helpers) (orc := one_page_oracle)
           (mkOptions (Some 5) None) 3 true 5 0 start_sys eq_refl).
Defined.

(** X28 at a sticker in local mode. *)
Lemma sticker_is_never_saved_witness :
  processMessage (hp := sample_helpers) (orc := quiet_oracle)
    true (sticker_message 4) 0 1 start_sys
  = (Ok tt,
     mkSys (with_totalProcessedMessages 1 new_DownloadChannel)
       (mkWorld 0 ∅ (mkSelection None None) [EvInvoke 4 0 1; EvWait 200])).
Proof.
  destruct (sticker_is_never_saved (hp := sample_helpers) (orc := quiet_oracle)
              (sticker_message 4) "sticker-ref" 0 1 start_sys eq_refl eq_refl)
    as [Hlocal _].
  exact (Hlocal eq_refl).
Defined.

(** X29 at a text in upload mode towards channel 9. *)
Lemma text_message_is_sent_once_witness :
  processMessage (hp := sample_helpers) (orc := quiet_oracle)
    true (text_message 6 "hi") 0 1 (mkSys uploading start_world)
  = (Ok tt,
     mkSys (with_totalProcessedMessages 1 (with_totalUploaded 1 uploading))
       (mkWorld 1 ∅ (mkSelection None None)
          [EvInvoke 6 0 1;
           EvSend 9 (mkUploadOptions "hi" [] None false None None None false false);
           EvWait 300])).
Proof.
  exact (text_message_is_sent_once (hp := sample_helpers) (orc := quiet_oracle)
           (text_message 6 "hi") 0 1 (mkSys uploading start_world) 9
           eq_refl eq_refl eq_refl eq_refl eq_refl).
Defined.
